(** * Industrial agent orchestrator: a shallow embedding

    The development follows the Python sources file by file:
    - [Unicode]      Python's [str]: code points, UTF-8, the character tables;
    - [Py]           the few pieces of the Python runtime the code relies on
                     (exceptions, [str] methods, truthiness, unpacking);
    - [Simulator]    app/tools/simulator.py;
    - [Process]      the external collaborators and the effects of a run;
    - [Retriever]    app/tools/retriever.py;
    - [Safety]       app/agents/safety.py, with the report schema;
    - [Orchestrator] app/agents/orchestrator.py;
    - [Main]         main.py;
    - [Stub]         test doubles for the collaborators;
    - [Spec]         the vocabulary of the specification;
    - [Plain]        queries of ASCII characters, and what is said of texts;
    - [Observe]      what is counted on the history of a run.
    The definitions come first, the theorems about them afterwards. *)

From Stdlib Require Import String Ascii List ZArith NArith Bool Lia.
From Stdlib Require Import Floats.SpecFloat.
Import ListNotations.
Set Warnings "-register-all".
Local Open Scope string_scope.
Local Open Scope Z_scope.

(* ================================================================== *)
(** ** Python's [str]

    A [str] is a sequence of Unicode code points.  It is written here in its
    UTF-8 form, so that the texts of the program are plain string literals;
    [decode] gives the code points back.  The character tables are those of
    the Unicode Character Database 14.0.0, the one CPython 3.11 carries. *)

Module Unicode.
Local Open Scope N_scope.

Definition in_ranges (rs : list (N * N)) (c : N) : bool :=
  existsb (fun r => (fst r <=? c) && (c <=? snd r)) rs.

(** The code points with Numeric_Type=Digit or Decimal, as intervals. *)
Definition digit_ranges : list (N * N) :=
  [(48, 57); (178, 179); (185, 185); (1632, 1641); (1776, 1785); (1984, 1993);
   (2406, 2415); (2534, 2543); (2662, 2671); (2790, 2799); (2918, 2927); (3046, 3055);
   (3174, 3183); (3302, 3311); (3430, 3439); (3558, 3567); (3664, 3673); (3792, 3801);
   (3872, 3881); (4160, 4169); (4240, 4249); (4969, 4977); (6112, 6121); (6160, 6169);
   (6470, 6479); (6608, 6618); (6784, 6793); (6800, 6809); (6992, 7001); (7088, 7097);
   (7232, 7241); (7248, 7257); (8304, 8304); (8308, 8313); (8320, 8329); (9312, 9320);
   (9332, 9340); (9352, 9360); (9450, 9450); (9461, 9469); (9471, 9471); (10102, 10110);
   (10112, 10120); (10122, 10130); (42528, 42537); (43216, 43225); (43264, 43273);
   (43472, 43481); (43504, 43513); (43600, 43609); (44016, 44025); (65296, 65305);
   (66720, 66729); (68160, 68163); (68912, 68921); (69216, 69224); (69714, 69722);
   (69734, 69743); (69872, 69881); (69942, 69951); (70096, 70105); (70384, 70393);
   (70736, 70745); (70864, 70873); (71248, 71257); (71360, 71369); (71472, 71481);
   (71904, 71913); (72016, 72025); (72784, 72793); (73040, 73049); (73120, 73129);
   (92768, 92777); (92864, 92873); (93008, 93017); (120782, 120831); (123200, 123209);
   (123632, 123641); (125264, 125273); (127232, 127242); (130032, 130041)].

(** The simple lower-case mappings: the code points from [lo] to [hi], [step]
    apart, map to [target], [target + step], ... *)
Definition lower_runs : list (N * N * N * N) :=
  [(65, 90, 1, 97); (192, 214, 1, 224); (216, 222, 1, 248); (256, 302, 2, 257);
   (306, 310, 2, 307); (313, 327, 2, 314); (330, 374, 2, 331); (376, 376, 1, 255);
   (377, 381, 2, 378); (385, 385, 1, 595); (386, 388, 2, 387); (390, 390, 1, 596);
   (391, 391, 1, 392); (393, 394, 1, 598); (395, 395, 1, 396); (398, 398, 1, 477);
   (399, 399, 1, 601); (400, 400, 1, 603); (401, 401, 1, 402); (403, 403, 1, 608);
   (404, 404, 1, 611); (406, 406, 1, 617); (407, 407, 1, 616); (408, 408, 1, 409);
   (412, 412, 1, 623); (413, 413, 1, 626); (415, 415, 1, 629); (416, 420, 2, 417);
   (422, 422, 1, 640); (423, 423, 1, 424); (425, 425, 1, 643); (428, 428, 1, 429);
   (430, 430, 1, 648); (431, 431, 1, 432); (433, 434, 1, 650); (435, 437, 2, 436);
   (439, 439, 1, 658); (440, 440, 1, 441); (444, 444, 1, 445); (452, 452, 1, 454);
   (453, 453, 1, 454); (455, 455, 1, 457); (456, 456, 1, 457); (458, 458, 1, 460);
   (459, 475, 2, 460); (478, 494, 2, 479); (497, 497, 1, 499); (498, 500, 2, 499);
   (502, 502, 1, 405); (503, 503, 1, 447); (504, 542, 2, 505); (544, 544, 1, 414);
   (546, 562, 2, 547); (570, 570, 1, 11365); (571, 571, 1, 572); (573, 573, 1, 410);
   (574, 574, 1, 11366); (577, 577, 1, 578); (579, 579, 1, 384); (580, 580, 1, 649);
   (581, 581, 1, 652); (582, 590, 2, 583); (880, 882, 2, 881); (886, 886, 1, 887);
   (895, 895, 1, 1011); (902, 902, 1, 940); (904, 906, 1, 941); (908, 908, 1, 972);
   (910, 911, 1, 973); (913, 929, 1, 945); (931, 939, 1, 963); (975, 975, 1, 983);
   (984, 1006, 2, 985); (1012, 1012, 1, 952); (1015, 1015, 1, 1016); (1017, 1017, 1, 1010);
   (1018, 1018, 1, 1019); (1021, 1023, 1, 891); (1024, 1039, 1, 1104);
   (1040, 1071, 1, 1072); (1120, 1152, 2, 1121); (1162, 1214, 2, 1163);
   (1216, 1216, 1, 1231); (1217, 1229, 2, 1218); (1232, 1326, 2, 1233);
   (1329, 1366, 1, 1377); (4256, 4293, 1, 11520); (4295, 4295, 1, 11559);
   (4301, 4301, 1, 11565); (5024, 5103, 1, 43888); (5104, 5109, 1, 5112);
   (7312, 7354, 1, 4304); (7357, 7359, 1, 4349); (7680, 7828, 2, 7681);
   (7838, 7838, 1, 223); (7840, 7934, 2, 7841); (7944, 7951, 1, 7936);
   (7960, 7965, 1, 7952); (7976, 7983, 1, 7968); (7992, 7999, 1, 7984);
   (8008, 8013, 1, 8000); (8025, 8031, 2, 8017); (8040, 8047, 1, 8032);
   (8072, 8079, 1, 8064); (8088, 8095, 1, 8080); (8104, 8111, 1, 8096);
   (8120, 8121, 1, 8112); (8122, 8123, 1, 8048); (8124, 8124, 1, 8115);
   (8136, 8139, 1, 8050); (8140, 8140, 1, 8131); (8152, 8153, 1, 8144);
   (8154, 8155, 1, 8054); (8168, 8169, 1, 8160); (8170, 8171, 1, 8058);
   (8172, 8172, 1, 8165); (8184, 8185, 1, 8056); (8186, 8187, 1, 8060);
   (8188, 8188, 1, 8179); (8486, 8486, 1, 969); (8490, 8490, 1, 107); (8491, 8491, 1, 229);
   (8498, 8498, 1, 8526); (8544, 8559, 1, 8560); (8579, 8579, 1, 8580);
   (9398, 9423, 1, 9424); (11264, 11311, 1, 11312); (11360, 11360, 1, 11361);
   (11362, 11362, 1, 619); (11363, 11363, 1, 7549); (11364, 11364, 1, 637);
   (11367, 11371, 2, 11368); (11373, 11373, 1, 593); (11374, 11374, 1, 625);
   (11375, 11375, 1, 592); (11376, 11376, 1, 594); (11378, 11378, 1, 11379);
   (11381, 11381, 1, 11382); (11390, 11391, 1, 575); (11392, 11490, 2, 11393);
   (11499, 11501, 2, 11500); (11506, 11506, 1, 11507); (42560, 42604, 2, 42561);
   (42624, 42650, 2, 42625); (42786, 42798, 2, 42787); (42802, 42862, 2, 42803);
   (42873, 42875, 2, 42874); (42877, 42877, 1, 7545); (42878, 42886, 2, 42879);
   (42891, 42891, 1, 42892); (42893, 42893, 1, 613); (42896, 42898, 2, 42897);
   (42902, 42920, 2, 42903); (42922, 42922, 1, 614); (42923, 42923, 1, 604);
   (42924, 42924, 1, 609); (42925, 42925, 1, 620); (42926, 42926, 1, 618);
   (42928, 42928, 1, 670); (42929, 42929, 1, 647); (42930, 42930, 1, 669);
   (42931, 42931, 1, 43859); (42932, 42946, 2, 42933); (42948, 42948, 1, 42900);
   (42949, 42949, 1, 642); (42950, 42950, 1, 7566); (42951, 42953, 2, 42952);
   (42960, 42960, 1, 42961); (42966, 42968, 2, 42967); (42997, 42997, 1, 42998);
   (65313, 65338, 1, 65345); (66560, 66599, 1, 66600); (66736, 66771, 1, 66776);
   (66928, 66938, 1, 66967); (66940, 66954, 1, 66979); (66956, 66962, 1, 66995);
   (66964, 66965, 1, 67003); (68736, 68786, 1, 68800); (71840, 71871, 1, 71872);
   (93760, 93791, 1, 93792); (125184, 125217, 1, 125218)].

(** The code points with the property Cased. *)
Definition cased_ranges : list (N * N) :=
  [(65, 90); (97, 122); (170, 170); (181, 181); (186, 186); (192, 214); (216, 246);
   (248, 442); (444, 447); (452, 659); (661, 696); (704, 705); (736, 740); (837, 837);
   (880, 883); (886, 887); (890, 893); (895, 895); (902, 902); (904, 906); (908, 908);
   (910, 929); (931, 1013); (1015, 1153); (1162, 1327); (1329, 1366); (1376, 1416);
   (4256, 4293); (4295, 4295); (4301, 4301); (4304, 4346); (4349, 4351); (5024, 5109);
   (5112, 5117); (7296, 7304); (7312, 7354); (7357, 7359); (7424, 7615); (7680, 7957);
   (7960, 7965); (7968, 8005); (8008, 8013); (8016, 8023); (8025, 8025); (8027, 8027);
   (8029, 8029); (8031, 8061); (8064, 8116); (8118, 8124); (8126, 8126); (8130, 8132);
   (8134, 8140); (8144, 8147); (8150, 8155); (8160, 8172); (8178, 8180); (8182, 8188);
   (8305, 8305); (8319, 8319); (8336, 8348); (8450, 8450); (8455, 8455); (8458, 8467);
   (8469, 8469); (8473, 8477); (8484, 8484); (8486, 8486); (8488, 8488); (8490, 8493);
   (8495, 8500); (8505, 8505); (8508, 8511); (8517, 8521); (8526, 8526); (8544, 8575);
   (8579, 8580); (9398, 9449); (11264, 11492); (11499, 11502); (11506, 11507);
   (11520, 11557); (11559, 11559); (11565, 11565); (42560, 42605); (42624, 42653);
   (42786, 42887); (42891, 42894); (42896, 42954); (42960, 42961); (42963, 42963);
   (42965, 42969); (42997, 42998); (43000, 43002); (43824, 43866); (43868, 43880);
   (43888, 43967); (64256, 64262); (64275, 64279); (65313, 65338); (65345, 65370);
   (66560, 66639); (66736, 66771); (66776, 66811); (66928, 66938); (66940, 66954);
   (66956, 66962); (66964, 66965); (66967, 66977); (66979, 66993); (66995, 67001);
   (67003, 67004); (67456, 67456); (67459, 67461); (67463, 67504); (67506, 67514);
   (68736, 68786); (68800, 68850); (71840, 71903); (93760, 93823); (119808, 119892);
   (119894, 119964); (119966, 119967); (119970, 119970); (119973, 119974);
   (119977, 119980); (119982, 119993); (119995, 119995); (119997, 120003);
   (120005, 120069); (120071, 120074); (120077, 120084); (120086, 120092);
   (120094, 120121); (120123, 120126); (120128, 120132); (120134, 120134);
   (120138, 120144); (120146, 120485); (120488, 120512); (120514, 120538);
   (120540, 120570); (120572, 120596); (120598, 120628); (120630, 120654);
   (120656, 120686); (120688, 120712); (120714, 120744); (120746, 120770);
   (120772, 120779); (122624, 122633); (122635, 122654); (125184, 125251);
   (127280, 127305); (127312, 127337); (127344, 127369)].

(** The code points with the property Case_Ignorable. *)
Definition case_ignorable_ranges : list (N * N) :=
  [(39, 39); (46, 46); (58, 58); (94, 94); (96, 96); (168, 168); (173, 173); (175, 175);
   (180, 180); (183, 184); (688, 879); (884, 885); (890, 890); (900, 901); (903, 903);
   (1155, 1161); (1369, 1369); (1375, 1375); (1425, 1469); (1471, 1471); (1473, 1474);
   (1476, 1477); (1479, 1479); (1524, 1524); (1536, 1541); (1552, 1562); (1564, 1564);
   (1600, 1600); (1611, 1631); (1648, 1648); (1750, 1757); (1759, 1768); (1770, 1773);
   (1807, 1807); (1809, 1809); (1840, 1866); (1958, 1968); (2027, 2037); (2042, 2042);
   (2045, 2045); (2070, 2093); (2137, 2139); (2184, 2184); (2192, 2193); (2200, 2207);
   (2249, 2306); (2362, 2362); (2364, 2364); (2369, 2376); (2381, 2381); (2385, 2391);
   (2402, 2403); (2417, 2417); (2433, 2433); (2492, 2492); (2497, 2500); (2509, 2509);
   (2530, 2531); (2558, 2558); (2561, 2562); (2620, 2620); (2625, 2626); (2631, 2632);
   (2635, 2637); (2641, 2641); (2672, 2673); (2677, 2677); (2689, 2690); (2748, 2748);
   (2753, 2757); (2759, 2760); (2765, 2765); (2786, 2787); (2810, 2815); (2817, 2817);
   (2876, 2876); (2879, 2879); (2881, 2884); (2893, 2893); (2901, 2902); (2914, 2915);
   (2946, 2946); (3008, 3008); (3021, 3021); (3072, 3072); (3076, 3076); (3132, 3132);
   (3134, 3136); (3142, 3144); (3146, 3149); (3157, 3158); (3170, 3171); (3201, 3201);
   (3260, 3260); (3263, 3263); (3270, 3270); (3276, 3277); (3298, 3299); (3328, 3329);
   (3387, 3388); (3393, 3396); (3405, 3405); (3426, 3427); (3457, 3457); (3530, 3530);
   (3538, 3540); (3542, 3542); (3633, 3633); (3636, 3642); (3654, 3662); (3761, 3761);
   (3764, 3772); (3782, 3782); (3784, 3789); (3864, 3865); (3893, 3893); (3895, 3895);
   (3897, 3897); (3953, 3966); (3968, 3972); (3974, 3975); (3981, 3991); (3993, 4028);
   (4038, 4038); (4141, 4144); (4146, 4151); (4153, 4154); (4157, 4158); (4184, 4185);
   (4190, 4192); (4209, 4212); (4226, 4226); (4229, 4230); (4237, 4237); (4253, 4253);
   (4348, 4348); (4957, 4959); (5906, 5908); (5938, 5939); (5970, 5971); (6002, 6003);
   (6068, 6069); (6071, 6077); (6086, 6086); (6089, 6099); (6103, 6103); (6109, 6109);
   (6155, 6159); (6211, 6211); (6277, 6278); (6313, 6313); (6432, 6434); (6439, 6440);
   (6450, 6450); (6457, 6459); (6679, 6680); (6683, 6683); (6742, 6742); (6744, 6750);
   (6752, 6752); (6754, 6754); (6757, 6764); (6771, 6780); (6783, 6783); (6823, 6823);
   (6832, 6862); (6912, 6915); (6964, 6964); (6966, 6970); (6972, 6972); (6978, 6978);
   (7019, 7027); (7040, 7041); (7074, 7077); (7080, 7081); (7083, 7085); (7142, 7142);
   (7144, 7145); (7149, 7149); (7151, 7153); (7212, 7219); (7222, 7223); (7288, 7293);
   (7376, 7378); (7380, 7392); (7394, 7400); (7405, 7405); (7412, 7412); (7416, 7417);
   (7468, 7530); (7544, 7544); (7579, 7679); (8125, 8125); (8127, 8129); (8141, 8143);
   (8157, 8159); (8173, 8175); (8189, 8190); (8203, 8207); (8216, 8217); (8228, 8228);
   (8231, 8231); (8234, 8238); (8288, 8292); (8294, 8303); (8305, 8305); (8319, 8319);
   (8336, 8348); (8400, 8432); (11388, 11389); (11503, 11505); (11631, 11631);
   (11647, 11647); (11744, 11775); (11823, 11823); (12293, 12293); (12330, 12333);
   (12337, 12341); (12347, 12347); (12441, 12446); (12540, 12542); (40981, 40981);
   (42232, 42237); (42508, 42508); (42607, 42610); (42612, 42621); (42623, 42623);
   (42652, 42655); (42736, 42737); (42752, 42785); (42864, 42864); (42888, 42890);
   (42994, 42996); (43000, 43001); (43010, 43010); (43014, 43014); (43019, 43019);
   (43045, 43046); (43052, 43052); (43204, 43205); (43232, 43249); (43263, 43263);
   (43302, 43309); (43335, 43345); (43392, 43394); (43443, 43443); (43446, 43449);
   (43452, 43453); (43471, 43471); (43493, 43494); (43561, 43566); (43569, 43570);
   (43573, 43574); (43587, 43587); (43596, 43596); (43632, 43632); (43644, 43644);
   (43696, 43696); (43698, 43700); (43703, 43704); (43710, 43711); (43713, 43713);
   (43741, 43741); (43756, 43757); (43763, 43764); (43766, 43766); (43867, 43871);
   (43881, 43883); (44005, 44005); (44008, 44008); (44013, 44013); (64286, 64286);
   (64434, 64450); (65024, 65039); (65043, 65043); (65056, 65071); (65106, 65106);
   (65109, 65109); (65279, 65279); (65287, 65287); (65294, 65294); (65306, 65306);
   (65342, 65342); (65344, 65344); (65392, 65392); (65438, 65439); (65507, 65507);
   (65529, 65531); (66045, 66045); (66272, 66272); (66422, 66426); (67456, 67461);
   (67463, 67504); (67506, 67514); (68097, 68099); (68101, 68102); (68108, 68111);
   (68152, 68154); (68159, 68159); (68325, 68326); (68900, 68903); (69291, 69292);
   (69446, 69456); (69506, 69509); (69633, 69633); (69688, 69702); (69744, 69744);
   (69747, 69748); (69759, 69761); (69811, 69814); (69817, 69818); (69821, 69821);
   (69826, 69826); (69837, 69837); (69888, 69890); (69927, 69931); (69933, 69940);
   (70003, 70003); (70016, 70017); (70070, 70078); (70089, 70092); (70095, 70095);
   (70191, 70193); (70196, 70196); (70198, 70199); (70206, 70206); (70367, 70367);
   (70371, 70378); (70400, 70401); (70459, 70460); (70464, 70464); (70502, 70508);
   (70512, 70516); (70712, 70719); (70722, 70724); (70726, 70726); (70750, 70750);
   (70835, 70840); (70842, 70842); (70847, 70848); (70850, 70851); (71090, 71093);
   (71100, 71101); (71103, 71104); (71132, 71133); (71219, 71226); (71229, 71229);
   (71231, 71232); (71339, 71339); (71341, 71341); (71344, 71349); (71351, 71351);
   (71453, 71455); (71458, 71461); (71463, 71467); (71727, 71735); (71737, 71738);
   (71995, 71996); (71998, 71998); (72003, 72003); (72148, 72151); (72154, 72155);
   (72160, 72160); (72193, 72202); (72243, 72248); (72251, 72254); (72263, 72263);
   (72273, 72278); (72281, 72283); (72330, 72342); (72344, 72345); (72752, 72758);
   (72760, 72765); (72767, 72767); (72850, 72871); (72874, 72880); (72882, 72883);
   (72885, 72886); (73009, 73014); (73018, 73018); (73020, 73021); (73023, 73029);
   (73031, 73031); (73104, 73105); (73109, 73109); (73111, 73111); (73459, 73460);
   (78896, 78904); (92912, 92916); (92976, 92982); (92992, 92995); (94031, 94031);
   (94095, 94111); (94176, 94177); (94179, 94180); (110576, 110579); (110581, 110587);
   (110589, 110590); (113821, 113822); (113824, 113827); (118528, 118573);
   (118576, 118598); (119143, 119145); (119155, 119170); (119173, 119179);
   (119210, 119213); (119362, 119364); (121344, 121398); (121403, 121452);
   (121461, 121461); (121476, 121476); (121499, 121503); (121505, 121519);
   (122880, 122886); (122888, 122904); (122907, 122913); (122915, 122916);
   (122918, 122922); (123184, 123197); (123566, 123566); (123628, 123631);
   (125136, 125142); (125252, 125259); (127995, 127999); (917505, 917505);
   (917536, 917631); (917760, 917999)].

(** [c.isdigit()] for a character. *)
Definition isdigit (c : N) : bool := in_ranges digit_ranges c.

Definition cased (c : N) : bool := in_ranges cased_ranges c.

Definition case_ignorable (c : N) : bool := in_ranges case_ignorable_ranges c.

Definition in_run (c : N) (r : N * N * N * N) : bool :=
  let '(lo, hi, step, _) := r in
  (lo <=? c) && (c <=? hi) && ((c - lo) mod step =? 0).

(** The full lower-case mapping of a character: U+0130 is the one character
    that lowers to two. *)
Definition tolower (c : N) : list N :=
  if c =? 304 then [105; 775]
  else match find (in_run c) lower_runs with
       | Some (lo, _, _, target) => [target + (c - lo)]
       | None => [c]
       end.

(** The first character that is not case-ignorable. *)
Fixpoint skip_ignorable (l : list N) : option N :=
  match l with
  | [] => None
  | c :: r => if case_ignorable c then skip_ignorable r else Some c
  end.

(** A capital sigma is in final position when a cased letter comes before
    it and none after it, case-ignorable characters aside.  [before] is the
    text before it, last character first. *)
Definition final_sigma (before after : list N) : bool :=
  match skip_ignorable before with
  | Some c => cased c
  | None => false
  end &&
  match skip_ignorable after with
  | Some c => negb (cased c)
  | None => true
  end.

Fixpoint lower_from (before : list N) (l : list N) : list N :=
  match l with
  | [] => []
  | c :: rest =>
      ((if c =? 931 then [if final_sigma before rest then 962 else 963] else tolower c)
       ++ lower_from (c :: before) rest)%list
  end.

(** [s.lower()] on the code points. *)
Definition str_lower (l : list N) : list N := lower_from [] l.

(** *** UTF-8 *)

(** What stands for a byte sequence that is no character (no [str] has
    one). *)
Definition replacement : N := 65533.

(** A character under way: the bits read, and how many more continuation
    bytes are due after the next one. *)
Inductive pending : Type :=
| Idle
| Pending (acc : N) (more : nat).

Definition flush (st : pending) : list N :=
  match st with
  | Idle => []
  | Pending _ _ => [replacement]
  end.

Definition feed (st : pending) (b : N) : list N * pending :=
  if (128 <=? b) && (b <? 192) then
    match st with
    | Pending acc more =>
        let acc' := acc * 64 + (b - 128) in
        match more with
        | O => ([acc'], Idle)
        | S k => ([], Pending acc' k)
        end
    | Idle => ([replacement], Idle)
    end
  else
    let (out, st') :=
      if b <? 128 then ([b], Idle)
      else if b <? 224 then ([], Pending (b - 192) 0)
      else if b <? 240 then ([], Pending (b - 224) 1)
      else if b <? 248 then ([], Pending (b - 240) 2)
      else ([replacement], Idle) in
    ((flush st ++ out)%list, st').

Fixpoint decode_from (st : pending) (s : string) : list N :=
  match s with
  | EmptyString => flush st
  | String a t =>
      let (out, st') := feed st (N_of_ascii a) in
      (out ++ decode_from st' t)%list
  end.

Definition decode (s : string) : list N := decode_from Idle s.

Definition byte (n : N) : string := String (ascii_of_N n) EmptyString.

Definition encode_char (c : N) : string :=
  if c <? 128 then byte c
  else if c <? 2048 then
    byte (192 + c / 64) ++ byte (128 + c mod 64)
  else if c <? 65536 then
    byte (224 + c / 4096) ++ byte (128 + (c / 64) mod 64) ++ byte (128 + c mod 64)
  else
    byte (240 + (c / 262144) mod 8) ++ byte (128 + (c / 4096) mod 64)
    ++ byte (128 + (c / 64) mod 64) ++ byte (128 + c mod 64).

Fixpoint encode (l : list N) : string :=
  match l with
  | [] => EmptyString
  | c :: r => encode_char c ++ encode r
  end.

End Unicode.

(* ================================================================== *)
(** ** The Python runtime *)

Module Py.

(** A raised exception: its class name and [str(e)]. *)
Record exn : Type := Exn { exc_type : string; exc_str : string }.

(** The outcome of evaluating an expression or a call. *)
Inductive result (A : Type) : Type :=
| Return (a : A)
| Raise (e : exn).
Arguments Return {A} a.
Arguments Raise {A} e.

Definition returned {A} (r : result A) : bool :=
  match r with Return _ => true | Raise _ => false end.

(** [any(char.isdigit() for char in s)] *)
Definition any_isdigit (s : string) : bool :=
  existsb Unicode.isdigit (Unicode.decode s).

(** [s.lower()] *)
Definition lower (s : string) : string :=
  Unicode.encode (Unicode.str_lower (Unicode.decode s)).

(** [needle in hay] on [str] *)
Fixpoint contains (needle hay : string) : bool :=
  prefix needle hay ||
  match hay with
  | EmptyString => false
  | String _ t => contains needle t
  end.

(** The newline character, as a [str]. *)
Definition nl : string := String "010" "".

(** [sep.join(parts)] *)
Fixpoint join (sep : string) (parts : list string) : string :=
  match parts with
  | [] => ""
  | [p] => p
  | p :: ps => p ++ sep ++ join sep ps
  end.

(** Python numbers: [int] and [float] (IEEE 754 binary64). *)
Inductive pynum : Type :=
| PyInt (z : Z)
| PyFloat (f : spec_float).

(** The values that travel through dictionaries: JSON-like data. *)
Inductive value : Type :=
| VNone
| VBool (b : bool)
| VNum (n : pynum)
| VStr (s : string)
| VList (items : list value)
| VDict (items : list (string * value)).

(** A [dict] keeps insertion order: an association list. *)
Definition dict : Type := list (string * value).

(** Iterating a [dict] yields its keys. *)
Definition keys (d : dict) : list value := map (fun kv => VStr (fst kv)) d.

(** [d.get(k)] and [d[k]] *)
Fixpoint dict_get (d : dict) (k : string) : option value :=
  match d with
  | [] => None
  | (k', v) :: d' => if String.eqb k k' then Some v else dict_get d' k
  end.

(** [bool(v)] *)
Definition truthy (v : value) : bool :=
  match v with
  | VNone => false
  | VBool b => b
  | VNum (PyInt z) => negb (z =? 0)
  | VNum (PyFloat f) =>
      match f with S754_zero _ => false | _ => true end
  | VStr s => negb (String.eqb s "")
  | VList l => match l with [] => false | _ => true end
  | VDict l => match l with [] => false | _ => true end
  end.

Definition too_many_values : exn :=
  Exn "ValueError" "too many values to unpack (expected 2)".

(** [a, b = xs]: unpacking an iterable into two targets. *)
Definition unpack2 {A} (xs : list A) : result (A * A) :=
  match xs with
  | [a; b] => Return (a, b)
  | _ :: _ :: _ :: _ => Raise too_many_values
  | [_] => Raise (Exn "ValueError" "not enough values to unpack (expected 2, got 1)")
  | [] => Raise (Exn "ValueError" "not enough values to unpack (expected 2, got 0)")
  end.

(** [d[k]] on a missing key. *)
Definition KeyError (k : string) : exn := Exn "KeyError" ("'" ++ k ++ "'").

Definition getitem {A} (k : string) (field : option A) : result A :=
  match field with
  | Some a => Return a
  | None => Raise (KeyError k)
  end.

(** Sequencing of calls that may raise. *)
Definition bind {A B} (r : result A) (k : A -> result B) : result B :=
  match r with
  | Return a => k a
  | Raise e => Raise e
  end.

End Py.
Export Py.

Declare Scope py_scope.
Delimit Scope py_scope with py.
Notation "x <- c ;; k" := (Py.bind c (fun x => k))
  (at level 61, c at next level, right associativity) : py_scope.

(* ================================================================== *)
(** ** app/tools/simulator.py *)

Module Simulator.

(** Python [float] is IEEE 754 binary64. *)
Definition prec : Z := 53.
Definition emax : Z := 1024.

Definition fmul := SFmul prec emax.
Definition fdiv := SFdiv prec emax.
Definition fadd := SFadd prec emax.

(** The exact conversion of a small [int] operand in mixed arithmetic. *)
Definition float_of_Z (z : Z) : spec_float := binary_normalize prec emax z 0 false.

(** The conversion of an operand to [float] in [int / float]. *)
Definition as_float (x : pynum) : result spec_float :=
  match x with
  | PyFloat f => Return f
  | PyInt z =>
      match float_of_Z z with
      | S754_infinity _ => Raise (Exn "OverflowError" "int too large to convert to float")
      | f => Return f
      end
  end.

(** [x < 0] *)
Definition lt0 (x : pynum) : bool :=
  match x with
  | PyInt z => z <? 0
  | PyFloat f => SFltb f (S754_zero false)
  end.

(** [x ** 2] on a [float]: the square, [OverflowError] when a finite [x]
    overflows.  The square is taken correctly rounded; CPython leaves it to
    the C library's [pow], whose result may differ from that in the last
    bit. *)
Definition pow2 (x : spec_float) : result spec_float :=
  match x, fmul x x with
  | S754_finite _ _ _, S754_infinity _ =>
      Raise (Exn "OverflowError" "(34, 'Numerical result out of range')")
  | _, r => Return r
  end.

(** The integer nearest to [n / d], ties to even ([0 <= n], [0 < d]). *)
Definition div_half_even (n d : Z) : Z :=
  let q := n / d in
  match 2 * (n mod d) ?= d with
  | Lt => q
  | Gt => q + 1
  | Eq => if Z.even q then q else q + 1
  end.

(** [round(x, 2)]: the exact value of [x] rounded half-even to two decimals,
    then the [float] nearest to that decimal. *)
Definition round2 (x : spec_float) : spec_float :=
  match x with
  | S754_finite s m e =>
      let k := if 0 <=? e then Zpos m * 2 ^ e * 100
               else div_half_even (Zpos m * 100) (2 ^ (- e)) in
      match k with
      | Zpos k' => fdiv (S754_finite s k' 0) (S754_finite false 100 0)
      | _ => S754_zero s
      end
  | _ => x
  end.

(** The [float] literals of the module. *)
Definition f_0_0 : spec_float := S754_zero false.
Definition f_0_02 : spec_float := S754_finite false 5764607523034235 (-58).
Definition f_0_1 : spec_float := S754_finite false 7205759403792794 (-56).
Definition f_0_5 : spec_float := S754_finite false 4503599627370496 (-53).
Definition f_0_000145038 : spec_float := S754_finite false 5350957733925372 (-65).
Definition f_0_9 : spec_float := S754_finite false 8106479329266893 (-53).
Definition math_pi : spec_float := S754_finite false 7074237752028440 (-51).

Record SimulationResult : Type := {
  input_flow_rate : pynum;
  estimated_pressure_psi : spec_float;
  status : string;
  warning : option string
}.

Definition FRICTION_FACTOR : spec_float := f_0_02.
Definition PIPE_DIAMETER_M : spec_float := f_0_1.
Definition FLUID_DENSITY_KG_M3 : Z := 850.

(** [flow_rate] is annotated [float]; [node_simulator] passes the [int] 200. *)
Definition calc_pressure_flow (flow_rate : pynum) (viscosity : spec_float)
  : result SimulationResult :=
  if lt0 flow_rate then
    Return {| input_flow_rate := flow_rate;
              estimated_pressure_psi := f_0_0;
              status := "ERROR";
              warning := Some "Flow rate cannot be negative." |}
  else
   (d2 <- pow2 (fdiv PIPE_DIAMETER_M (float_of_Z 2)) ;;
    let area := fmul math_pi d2 in
    fr <- as_float flow_rate ;;
    let velocity := fdiv fr (fmul area (float_of_Z 3600)) in
    v2 <- pow2 velocity ;;
    let delta_p_pascal :=
      fmul (fmul FRICTION_FACTOR (fdiv (float_of_Z 1) PIPE_DIAMETER_M))
           (fmul (fmul f_0_5 (float_of_Z FLUID_DENSITY_KG_M3)) v2) in
    let delta_p_psi := fmul delta_p_pascal f_0_000145038 in
    let TOTAL_PRESSURE_PSI := fadd (float_of_Z 1000) delta_p_psi in
    let '(status, warning) :=
      if SFltb (float_of_Z 1200) TOTAL_PRESSURE_PSI
      then ("HIGH_PRESSURE_WARNING", Some "Approaching relief valve threshold.")
      else ("NOMINAL", None) in
    Return {| input_flow_rate := flow_rate;
              estimated_pressure_psi := round2 TOTAL_PRESSURE_PSI;
              status := status;
              warning := warning |})%py.

(** The default of the [viscosity] argument. *)
Definition default_viscosity : spec_float := f_0_9.

End Simulator.
Export Simulator.

(* ================================================================== *)
(** ** The process: collaborators, their calls, module-level state *)

Module Process.

(** What [node_synthesizer] interpolates into its prompt. *)
Record Prompt : Type := {
  user_query : string;
  manual_context : string;
  simulation : option SimulationResult
}.

(** The observable actions of a run, in program order: what is printed, and
    each call that leaves the orchestrator.  [RagRetriever] and
    [CalcPressureFlow] mark the calls of the two tools, [GuardParse] the draft
    handed to the validator. *)
Inductive Event : Type :=
| StreamLog (message : string)
| BatchLog (entry : dict)
| Print (message : string)
| RagRetriever (query : string)
| NewKnowledgeRetriever
| RetrieverInvoke (query : string)
| CalcPressureFlow (flow_rate : pynum)
| NewChatOpenAI
| LLMInvoke (prompt : Prompt)
| GuardFromRail
| GuardParse (draft : string)
| Uuid4.

(** A drafted reply is checked by a guardrails [Guard].  [validate] is
    prepared for [parse] to return a tuple or an object with (or, [None],
    without) the attribute [validated_output], and for the payload to be a
    pydantic model or a plain value. *)
Inductive validated : Type :=
| Model (model_dump : value)
| Plain (data : value).

Inductive validation : Type :=
| AsTuple (items : list validated)
| Outcome (validated_output : option validated).

Record Guard : Type := { parse : string -> result validation }.

(** The vector store behind a [KnowledgeRetriever]: the page contents of the
    documents [self.retriever.invoke(query)] returns, given what happened
    before. *)
Record KnowledgeRetriever : Type := {
  retriever_invoke : list Event -> string -> result (list string)
}.

(** The external collaborators.  Each answer may depend on the history of
    the process, so none of them is assumed deterministic. *)
Record Collaborators : Type := {
  new_KnowledgeRetriever : list Event -> result KnowledgeRetriever;
  new_ChatOpenAI : list Event -> result unit;
  llm_invoke : list Event -> Prompt -> result string;
  Guard_from_rail : list Event -> result Guard;
  uuid4 : list Event -> string
}.

(** The state of the process: its history and the module-level singleton of
    retriever.py. *)
Record World : Type := {
  history : list Event;
  _retriever_instance : option KnowledgeRetriever
}.

(** A computation that acts on the world and returns or raises. *)
Definition M (A : Type) : Type := World -> result A * World.

Definition ret {A} (a : A) : M A := fun w => (Return a, w).
Definition raise {A} (e : exn) : M A := fun w => (Raise e, w).
Definition lift {A} (r : result A) : M A := fun w => (r, w).

Definition mbind {A B} (m : M A) (k : A -> M B) : M B :=
  fun w =>
    match m w with
    | (Return a, w') => k a w'
    | (Raise e, w') => (Raise e, w')
    end.

(** [try: m except Exception as e: h e] *)
Definition try_except {A} (m : M A) (h : exn -> M A) : M A :=
  fun w =>
    match m w with
    | (Return a, w') => (Return a, w')
    | (Raise e, w') => h e w'
    end.

(** Records an action. *)
Definition emit (ev : Event) : M unit :=
  fun w => (Return tt, {| history := history w ++ [ev];
                          _retriever_instance := _retriever_instance w |}).

(** Calls a collaborator: the call is recorded, the answer is the
    collaborator's for the history so far. *)
Definition call {A} (ev : Event) (answer : list Event -> result A) : M A :=
  fun w => (answer (history w),
            {| history := history w ++ [ev];
               _retriever_instance := _retriever_instance w |}).

Definition get_instance : M (option KnowledgeRetriever) :=
  fun w => (Return (_retriever_instance w), w).

Definition set_instance (i : KnowledgeRetriever) : M unit :=
  fun w => (Return tt, {| history := history w; _retriever_instance := Some i |}).

(** [stream_logger.log] and [batch_logger.log] print one line. *)
Definition stream_logger_log (message : string) : M unit := emit (StreamLog message).
Definition batch_logger_log (data : dict) : M unit := emit (BatchLog data).

End Process.
Export Process.

Declare Scope proc_scope.
Delimit Scope proc_scope with proc.
Notation "x <- c ;; k" := (Process.mbind c (fun x => k))
  (at level 61, c at next level, right associativity) : proc_scope.
Notation "' p <- c ;; k" := (Process.mbind c (fun p => k))
  (at level 61, p pattern, c at next level, right associativity) : proc_scope.
Notation "c ;; k" := (Process.mbind c (fun _ => k))
  (at level 61, right associativity) : proc_scope.

(* ================================================================== *)
(** ** app/tools/retriever.py *)

Module Retriever.
Local Open Scope proc_scope.

Section WithCollaborators.
Variable env : Collaborators.

(** [KnowledgeRetriever.retrieve] *)
Definition retrieve (self : KnowledgeRetriever) (query : string) : M string :=
  try_except
    (docs <- call (RetrieverInvoke query) (fun h => retriever_invoke self h query) ;;
     match docs with
     | [] => ret "No relevant manuals found."
     | _ => ret (join (nl ++ nl ++ "---" ++ nl ++ nl) docs)
     end)
    (fun e => ret ("Error retrieving data: " ++ exc_str e)).

Definition get_retriever : M KnowledgeRetriever :=
  inst <- get_instance ;;
  match inst with
  | Some i => ret i
  | None =>
      i <- call NewKnowledgeRetriever (new_KnowledgeRetriever env) ;;
      set_instance i ;;
      ret i
  end.

Definition rag_retriever (query : string) : M string :=
  emit (RagRetriever query) ;;
  instance <- get_retriever ;;
  retrieve instance query.

End WithCollaborators.
End Retriever.
Export Retriever.

(* ================================================================== *)
(** ** app/agents/safety.py *)

Module Safety.
Local Open Scope py_scope.

Record SafetyCritic : Type := { guard : Guard }.

(** [SafetyCritic.__init__] *)
Definition SafetyCritic_init (env : Collaborators) : M SafetyCritic :=
  try_except
    (g <- call GuardFromRail (Guard_from_rail env) ;; ret {| guard := g |})%proc
    (fun e => raise (Exn "RuntimeError" ("Failed to load RAIL file: " ++ exc_str e))).

(** [validation[1]] *)
Definition item1 {A} (t : list A) : result A :=
  match t with
  | _ :: x :: _ => Return x
  | _ => Raise (Exn "IndexError" "tuple index out of range")
  end.

Definition approved (data_dict : value) : dict :=
  [("status", VStr "APPROVED");
   ("data", data_dict);
   ("log", VStr "Passed RAIL validation: Schema valid, PII sanitized.")].

Definition rejected (e : exn) : dict :=
  [("status", VStr "REJECTED");
   ("reason", VStr ("RAIL Safety Violation: " ++ exc_str e));
   ("log", VStr "Rejection triggered by RAIL Guard.")].

(** [SafetyCritic.validate]: the body of the [try], then the handler. *)
Definition validate (self : SafetyCritic) (master_agent_draft : string) : result dict :=
  let body :=
    validation <- parse (guard self) master_agent_draft ;;
    validated_data <-
      match validation with
      | AsTuple t => item1 t
      | Outcome (Some v) => Return v
      | Outcome None =>
          Raise (Exn "AttributeError" "object has no attribute 'validated_output'")
      end ;;
    let data_dict :=
      match validated_data with
      | Model dump => dump
      | Plain d => d
      end in
    Return (approved data_dict) in
  match body with
  | Return d => Return d
  | Raise e => Return (rejected e)
  end.

(** *** The report guard

    Neither guardrails/safety_spec.rail nor the guardrails library is part of
    the sources.  The definitions below stand in for the guard that
    [Guard.from_rail] builds. *)

(** Modelled from the spec: the closed set of risk classifications of
    section 6 (the pattern of [risk_level] in app/schemas/safety.py). *)
Definition risk_levels : list string := ["LOW"; "MEDIUM"; "HIGH"].

Definition is_str (v : value) : bool :=
  match v with VStr _ => true | _ => false end.

Definition is_number (v : value) : bool :=
  match v with VNum _ => true | _ => false end.

Definition is_risk_level (v : value) : bool :=
  match v with
  | VStr s => existsb (String.eqb s) risk_levels
  | _ => false
  end.

Definition is_str_list (v : value) : bool :=
  match v with
  | VList l => forallb is_str l
  | _ => false
  end.

(** Modelled from the spec: the fixed fields of the structured safety report
    of section 6 (those of [EngineeringSafetyReport] in
    app/schemas/safety.py), with what each must be. *)
Definition report_schema : list (string * (value -> bool)) :=
  [("decision_summary", is_str);
   ("calculated_value", is_number);
   ("unit", is_str);
   ("risk_level", is_risk_level);
   ("manual_references", is_str_list)].

(** Modelled from the spec: "any field missing or mistyped is a schema
    violation"; the first such field. *)
Fixpoint first_violation (schema : list (string * (value -> bool))) (d : dict)
  : option string :=
  match schema with
  | [] => None
  | (field, ok) :: rest =>
      match dict_get d field with
      | Some v => if ok v then first_violation rest d else Some field
      | None => Some field
      end
  end.

(** Modelled from the spec: the two kinds of failure of section 7, which the
    reason string must tell apart. *)
Definition ParseFailure : exn :=
  Exn "ValidationParseFailure" "the draft is not parseable as structured data".

Definition SchemaViolation (detail : string) : exn :=
  Exn "ValidationSchemaViolation" ("schema violation: " ++ detail).

(** Modelled from the spec: the guard of section 4.2 over the schema of
    section 6.  It raises on a draft that does not parse and on one that
    breaks the schema; otherwise it returns the parsed report after the
    redaction pass [mask] that section 4.2 requires of the validator.
    Reading the draft as structured data is left to [loads], the JSON
    reader; what counts as personally identifiable is left to [mask].  (A
    guard that reports a failed validation without raising is covered by the
    last part of theorem [validate_outcomes].) *)
Definition report_guard (loads : string -> option value) (mask : value -> value) : Guard :=
  {| parse := fun draft =>
       match loads draft with
       | None => Raise ParseFailure
       | Some (VDict d) =>
           match first_violation report_schema d with
           | None => Return (Outcome (Some (Plain (mask (VDict d)))))
           | Some field =>
               Raise (SchemaViolation ("field '" ++ field ++ "' is missing or mistyped"))
           end
       | Some _ => Raise (SchemaViolation "the report is not an object")
       end |}.

End Safety.
Export Safety.

(* ================================================================== *)
(** ** app/agents/orchestrator.py *)

Module Orchestrator.
Local Open Scope proc_scope.

Inductive BaseMessage : Type :=
| HumanMessage (content : string)
| AIMessage (content : string).

(** [AgentState].  [run_orchestrator] supplies [messages] and [query]; every
    other key is absent until a node writes it. *)
Record AgentState : Type := {
  messages : list BaseMessage;
  query : string;
  intent : option string;
  retrieved_context : option string;
  calculation_result : option SimulationResult;
  draft_response : option string;
  safety_feedback : option value;
  is_safe : option value;
  retries : option Z
}.

(** One [key: value] entry of the dictionary a node returns. *)
Inductive Write : Type :=
| Set_intent (v : string)
| Set_retrieved_context (v : string)
| Set_calculation_result (v : SimulationResult)
| Set_draft_response (v : string)
| Set_safety_feedback (v : value)
| Set_is_safe (v : value)
| Set_retries (v : Z).

Definition Update : Type := list Write.

Definition write (s : AgentState) (w : Write) : AgentState :=
  let '{| messages := m; query := q; intent := i; retrieved_context := c;
          calculation_result := k; draft_response := d; safety_feedback := f;
          is_safe := b; retries := r |} := s in
  match w with
  | Set_intent v => Build_AgentState m q (Some v) c k d f b r
  | Set_retrieved_context v => Build_AgentState m q i (Some v) k d f b r
  | Set_calculation_result v => Build_AgentState m q i c (Some v) d f b r
  | Set_draft_response v => Build_AgentState m q i c k (Some v) f b r
  | Set_safety_feedback v => Build_AgentState m q i c k d (Some v) b r
  | Set_is_safe v => Build_AgentState m q i c k d f (Some v) r
  | Set_retries v => Build_AgentState m q i c k d f b (Some v)
  end.

(** The graph merges the returned dictionary into the state. *)
Definition merge (s : AgentState) (u : Update) : AgentState := fold_left write u s.

(** [d.get(k, default)] on an optional key. *)
Definition get_or {A} (field : option A) (default : A) : A :=
  match field with Some a => a | None => default end.

(** The [if]/[elif]/[else] of [node_planner]. *)
Definition classify_intent (query : string) : string :=
  if any_isdigit query && (contains "psi" (lower query) || contains "m3" (lower query))
  then "calculation"
  else if contains "safety" (lower query) || contains "manual" (lower query)
  then "retrieval"
  else "hybrid".

Section Nodes.
Variable env : Collaborators.

Definition ChatOpenAI : M unit := call NewChatOpenAI (new_ChatOpenAI env).

Definition node_planner (state : AgentState) : M Update :=
  let query := query state in
  stream_logger_log ("[Master Agent] Analyzing query: " ++ query) ;;
  llm <- ChatOpenAI ;;
  let intent := classify_intent query in
  stream_logger_log ("[Master Agent] Intent classified as: " ++ intent) ;;
  ret [Set_intent intent; Set_retries (get_or (retries state) 0)].

Definition node_retriever (state : AgentState) : M Update :=
  let query := query state in
  stream_logger_log ("[RAG Tool] Searching manuals for: " ++ query) ;;
  context <- rag_retriever env query ;;
  ret [Set_retrieved_context context].

Definition node_simulator (state : AgentState) : M Update :=
  stream_logger_log "[Sim Tool] Running physics simulation..." ;;
  result <- call (CalcPressureFlow (PyInt 200))
                 (fun _ => calc_pressure_flow (PyInt 200) default_viscosity) ;;
  ret [Set_calculation_result result].

Definition node_synthesizer (state : AgentState) : M Update :=
  stream_logger_log "[Synthesizer] Generating draft response..." ;;
  let prompt := {| user_query := query state;
                   manual_context := get_or (retrieved_context state) "N/A";
                   simulation := calculation_result state |} in
  llm <- ChatOpenAI ;;
  content <- call (LLMInvoke prompt) (fun h => llm_invoke env h prompt) ;;
  ret [Set_draft_response content].

Definition node_critic (state : AgentState) : M Update :=
  draft <- lift (getitem "draft_response" (draft_response state)) ;;
  stream_logger_log "[Critic] Validating safety constraints..." ;;
  critic <- SafetyCritic_init env ;;
  outcome <- call (GuardParse draft) (fun _ => validate critic draft) ;;
  '(is_safe, feedback) <- lift (unpack2 (keys outcome)) ;;
  batch_logger_log [("event", VStr "safety_check"); ("draft", VStr draft);
                    ("is_safe", is_safe); ("feedback", feedback)] ;;
  ret [Set_is_safe is_safe; Set_safety_feedback feedback].

End Nodes.

Definition decide_path (state : AgentState) : result string :=
  (intent <- getitem "intent" (intent state) ;;
   if String.eqb intent "retrieval" then Return "retriever"
   else if String.eqb intent "calculation" then Return "simulator"
   else Return "retriever")%py.

(** [state["retries"] += 1] *)
Definition bump_retries (state : AgentState) (r : Z) : AgentState :=
  write state (Set_retries (r + 1)).

(** [check_safety] returns a label and, through the dictionary it was handed,
    the incremented counter. *)
Definition check_safety (state : AgentState) : result (string * AgentState) :=
  (safe <- getitem "is_safe" (is_safe state) ;;
   if truthy safe then Return ("approved", state)
   else
     r <- getitem "retries" (retries state) ;;
     if 2 <=? r then Return ("max_retries_exceeded", state)
     else Return ("rejected", bump_retries state r))%py.

(** *** The graph *)

Inductive Node : Type := planner | retriever | simulator | synthesizer | critic.

Inductive Target : Type := Goto (n : Node) | END.

(** The path maps of the two [add_conditional_edges] calls. *)
Definition planner_paths : list (string * Target) :=
  [("retriever", Goto retriever); ("simulator", Goto simulator)].

Definition critic_paths : list (string * Target) :=
  [("approved", END); ("rejected", Goto planner); ("max_retries_exceeded", END)].

Fixpoint path_get (paths : list (string * Target)) (label : string) : result Target :=
  match paths with
  | [] => Raise (KeyError label)
  | (l, t) :: rest => if String.eqb label l then Return t else path_get rest label
  end.

(** The edge out of a node, taken on the state the node has just updated.
    The graph runtime hands an edge function a copy of the state and keeps
    only the label it returns: what [check_safety] writes into its argument
    does not reach the state of the run. *)
Definition route (n : Node) (state : AgentState) : result (Target * AgentState) :=
  match n with
  | planner =>
      (label <- decide_path state ;;
       t <- path_get planner_paths label ;;
       Return (t, state))%py
  | retriever => Return (Goto synthesizer, state)
  | simulator => Return (Goto synthesizer, state)
  | synthesizer => Return (Goto critic, state)
  | critic =>
      (ls <- check_safety state ;;
       t <- path_get critic_paths (fst ls) ;;
       Return (t, state))%py
  end.

(** The number of steps after which the graph runtime gives up (the default
    of [invoke]). *)
Definition recursion_limit : nat := 25.

Definition GraphRecursionError : exn :=
  Exn "GraphRecursionError" "Recursion limit of 25 reached without hitting a stop condition.".

(** What [run_orchestrator] returns: one of its two dictionary literals. *)
Inductive RunResult : Type :=
| SUCCESS (response : string) (audit_trail : list BaseMessage)
| BLOCKED_BY_SAFETY (reason : value) (response : string).

Definition result_status (r : RunResult) : string :=
  match r with
  | SUCCESS _ _ => "SUCCESS"
  | BLOCKED_BY_SAFETY _ _ => "BLOCKED_BY_SAFETY"
  end.

Definition result_response (r : RunResult) : string :=
  match r with
  | SUCCESS response _ => response
  | BLOCKED_BY_SAFETY _ response => response
  end.

(** The runtime of a compiled graph, for whatever functions were registered
    under the five node names. *)
Section Runtime.
Variable nodes : Node -> AgentState -> M Update.

(** One step: run the node, merge its update, follow the edge. *)
Definition step (n : Node) (state : AgentState) : M (Target * AgentState) :=
  update <- nodes n state ;;
  lift (route n (merge state update)).

Fixpoint run_from (limit : nat) (n : Node) (state : AgentState) : M AgentState :=
  match limit with
  | O => raise GraphRecursionError
  | S limit' =>
      ' (t, state') <- step n state ;;
      match t with
      | END => ret state'
      | Goto n' => run_from limit' n' state'
      end
  end.

(** Where the run stands after [k] steps: about to enter a node, or ended. *)
Fixpoint after (k : nat) (n : Node) (state : AgentState) : M (Target * AgentState) :=
  match k with
  | O => ret (Goto n, state)
  | S k' =>
      ' (t, state') <- step n state ;;
      match t with
      | END => ret (END, state')
      | Goto n' => after k' n' state'
      end
  end.

End Runtime.

Section Graph.
Variable env : Collaborators.

(** The five [workflow.add_node] calls. *)
Definition run_node (n : Node) : AgentState -> M Update :=
  match n with
  | planner => node_planner env
  | retriever => node_retriever env
  | simulator => node_simulator
  | synthesizer => node_synthesizer env
  | critic => node_critic env
  end.

(** [app_graph.invoke]: the entry point is the planner. *)
Definition app_graph_invoke (initial_state : AgentState) : M AgentState :=
  run_from run_node recursion_limit planner initial_state.

Definition initial_state (query : string) : AgentState :=
  {| messages := [HumanMessage query]; query := query; intent := None;
     retrieved_context := None; calculation_result := None;
     draft_response := None; safety_feedback := None; is_safe := None;
     retries := None |}.

Definition run_orchestrator (query : string) : M RunResult :=
  final_state <- app_graph_invoke (initial_state query) ;;
  if truthy (get_or (is_safe final_state) VNone) then
    response <- lift (getitem "draft_response" (draft_response final_state)) ;;
    ret (SUCCESS response (messages final_state))
  else
    reason <- lift (getitem "safety_feedback" (safety_feedback final_state)) ;;
    response <- lift (getitem "draft_response" (draft_response final_state)) ;;
    ret (BLOCKED_BY_SAFETY reason response).

End Graph.

End Orchestrator.
Export Orchestrator.

(* ================================================================== *)
(** ** app/infrastructure/logging/batch.py *)

Module Logging.

(** [d[k] = v] on a dictionary in insertion order: a key that is there keeps
    its place and takes the new value, a new key goes last. *)
Fixpoint dict_set (d : dict) (k : string) (v : value) : dict :=
  match d with
  | [] => [(k, v)]
  | (k', v') :: d' =>
      if String.eqb k k' then (k', v) :: d' else (k', v') :: dict_set d' k v
  end.

(** [{**d, **data}]: the items of [data] are written in their order. *)
Definition dict_update (d data : dict) : dict :=
  fold_left (fun acc kv => dict_set acc (fst kv) (snd kv)) data d.

(** The entry [BatchLogger.log] builds, [{"timestamp": now, **data}], for the
    reading [now] of [datetime.utcnow().isoformat()]. *)
Definition BatchLogger_entry (now : string) (data : dict) : dict :=
  dict_update [("timestamp", VStr now)] data.

(** The keys of a Python dictionary are distinct. *)
Definition is_dict (d : dict) : Prop := NoDup (map fst d).

End Logging.
Export Logging.

(* ================================================================== *)
(** ** main.py *)

Module Main.
Local Open Scope proc_scope.

Record QueryRequest : Type := { query : string; user_id : string }.

Record QueryResponse : Type := { status : string; response : string; audit_id : string }.

(** [HTTPException(status_code=500, detail=detail)] *)
Definition HTTPException_500 (detail : string) : exn :=
  Exn "HTTPException" ("500: " ++ detail).

Definition process_query (env : Collaborators) (request : QueryRequest) : M QueryResponse :=
  try_except
    (result <- run_orchestrator env (query request) ;;
     audit_id <- call Uuid4 (fun h => Return (uuid4 env h)) ;;
     batch_logger_log [("audit_id", VStr audit_id);
                       ("user_id", VStr (user_id request));
                       ("query", VStr (query request));
                       ("result_status", VStr (result_status result))] ;;
     ret {| status := result_status result;
            response := result_response result;
            audit_id := audit_id |})
    (fun e =>
       emit (Print ("Critical Error: " ++ exc_str e)) ;;
       raise (HTTPException_500 "Internal Agent Error")).

End Main.

(* ================================================================== *)
(** ** Test doubles

    Deterministic collaborators, in the manner of the fixtures of
    tests/unit: a one-page manual, a language model that always answers with
    the same draft, and the report guard over a reader that knows three
    drafts. *)

Module Stub.

Definition report (risk : string) : value :=
  VDict [("decision_summary", VStr "Pressure exceeds maximum allowable limits.");
         ("calculated_value", VNum (PyInt 1300));
         ("unit", VStr "PSI");
         ("risk_level", VStr risk);
         ("manual_references", VList [VStr "Manual B p.99"])].

(** A report whose summary names the operator. *)
Definition named_report : value :=
  VDict [("decision_summary", VStr "Ask John Smith to close valve 3.");
         ("calculated_value", VNum (PyInt 1300));
         ("unit", VStr "PSI");
         ("risk_level", VStr "LOW");
         ("manual_references", VList [VStr "Manual B p.99"])].

Definition loads (draft : string) : option value :=
  if String.eqb draft "low-risk report" then Some (report "LOW")
  else if String.eqb draft "high-risk report" then Some (report "HIGH")
  else if String.eqb draft "super-high-risk report" then Some (report "SUPER_HIGH")
  else if String.eqb draft "report naming the operator" then Some named_report
  else None.

(** A redaction pass: a text that names the operator is withheld. *)
Definition mask_text (s : string) : string :=
  if contains "John Smith" s then "<REDACTED>" else s.

Definition mask_item (v : value) : value :=
  match v with
  | VStr s => VStr (mask_text s)
  | VList l =>
      VList (map (fun x => match x with VStr s => VStr (mask_text s) | _ => x end) l)
  | _ => v
  end.

Definition mask (v : value) : value :=
  match v with
  | VDict d => VDict (map (fun kv => (fst kv, mask_item (snd kv))) d)
  | _ => v
  end.

Definition manual : KnowledgeRetriever :=
  {| retriever_invoke := fun _ _ => Return ["Relief valve set point: 1200 PSI."] |}.

Definition env (draft : string) : Collaborators :=
  {| new_KnowledgeRetriever := fun _ => Return manual;
     new_ChatOpenAI := fun _ => Return tt;
     llm_invoke := fun _ _ => Return draft;
     Guard_from_rail := fun _ => Return (report_guard loads mask);
     uuid4 := fun _ => "audit-0001" |}.

(** The same, with a language model that is down. *)
Definition connection_error : exn := Exn "APIConnectionError" "Connection error.".

Definition env_llm_down : Collaborators :=
  {| new_KnowledgeRetriever := fun _ => Return manual;
     new_ChatOpenAI := fun _ => Return tt;
     llm_invoke := fun _ _ => Raise connection_error;
     Guard_from_rail := fun _ => Return (report_guard loads mask);
     uuid4 := fun _ => "audit-0001" |}.

Definition fresh : World := {| history := []; _retriever_instance := None |}.

(** Collaborators whose vector store cannot be opened, and a retriever whose
    store fails on every query. *)
Definition store_error : exn := Exn "ConnectionError" "chroma is unreachable".

Definition env_store_down : Collaborators :=
  {| new_KnowledgeRetriever := fun _ => Raise store_error;
     new_ChatOpenAI := fun _ => Return tt;
     llm_invoke := fun _ _ => Return "low-risk report";
     Guard_from_rail := fun _ => Return (report_guard loads mask);
     uuid4 := fun _ => "audit-0001" |}.

Definition failing_store : KnowledgeRetriever :=
  {| retriever_invoke := fun _ _ => Raise store_error |}.

Definition with_failing_store : World :=
  {| history := []; _retriever_instance := Some failing_store |}.

(** Collaborators for a deployment without its RAIL file. *)
Definition rail_error : exn := Exn "FileNotFoundError" "No such file: safety.rail".

Definition env_rail_missing : Collaborators :=
  {| new_KnowledgeRetriever := fun _ => Return manual;
     new_ChatOpenAI := fun _ => Return tt;
     llm_invoke := fun _ _ => Return "low-risk report";
     Guard_from_rail := fun _ => Raise rail_error;
     uuid4 := fun _ => "audit-0001" |}.

(** A validation node that rejects every draft, and the graph of the
    sources with it in the critic's place. *)
Definition rejecting_critic (state : AgentState) : M Update :=
  ret [Set_is_safe (VBool false); Set_safety_feedback (VStr "Rejected by the test double.")].

Definition nodes_rejecting (env : Collaborators) (n : Node) : AgentState -> M Update :=
  match n with
  | critic => rejecting_critic
  | _ => run_node env n
  end.

Definition manual_query : string := "What is the maximum safe pressure per the manual?".
Definition flow_query : string := "Flow is 200 m3 at 850 psi, is this safe?".
Definition plain_query : string := "Is the pump running hot?".

(** Where a run on the manual query stands after one rejected pass. *)
Definition rejected_once : result (Target * AgentState) * World :=
  Eval vm_compute in
    after (nodes_rejecting (env "low-risk report")) 4 planner
          (initial_state manual_query) fresh.

Definition state_rejected_once : AgentState :=
  Eval vm_compute in
    match rejected_once with
    | (Return (_, s), _) => s
    | _ => initial_state manual_query
    end.

Definition world_rejected_once : World := Eval vm_compute in snd rejected_once.

End Stub.

(* ================================================================== *)
(** ** The vocabulary of the specification

    What the specification's sentences talk about, stated independently of
    how the code computes it. *)

Module Spec.

(** The ten digits. *)
Definition digits : list ascii :=
  ["0"; "1"; "2"; "3"; "4"; "5"; "6"; "7"; "8"; "9"]%char.

(** The query contains a digit. *)
Definition has_digit (q : string) : Prop :=
  exists pre c post, q = pre ++ String c post /\ In c digits.

(** The letters, capital and small. *)
Definition capitals : string := "ABCDEFGHIJKLMNOPQRSTUVWXYZ".
Definition smalls : string := "abcdefghijklmnopqrstuvwxyz".

(** Each capital letter with its small letter. *)
Definition letter_pairs : list (ascii * ascii) :=
  combine (list_ascii_of_string capitals) (list_ascii_of_string smalls).

(** The same character, or the same letter in the other case. *)
Definition same_letter (a b : ascii) : Prop :=
  a = b \/ In (a, b) letter_pairs \/ In (b, a) letter_pairs.

(** The same text, case-insensitively. *)
Inductive same_text : string -> string -> Prop :=
| same_empty : same_text "" ""
| same_next (a b : ascii) (s t : string) :
    same_letter a b -> same_text s t -> same_text (String a s) (String b t).

(** The query contains the token, case-insensitively. *)
Definition mentions (token q : string) : Prop :=
  exists pre m post, q = pre ++ m ++ post /\ same_text m token.

Definition calculation_rule (q : string) : Prop :=
  has_digit q /\ (mentions "psi" q \/ mentions "m3" q).



(** The flow rate is strictly less than zero. *)
Definition negative (x : pynum) : Prop :=
  match x with
  | PyInt z => z < 0
  | PyFloat (S754_finite true _ _) => True
  | PyFloat (S754_infinity true) => True
  | PyFloat _ => False
  end.


(** Section 4.1: a collaborator failure reaches the caller as a
    [CollaboratorFailure] that names the stage. *)
Definition is_CollaboratorFailure (e : exn) : Prop :=
  exc_type e = "CollaboratorFailure".

End Spec.
Export Spec.

(* ================================================================== *)
(** ** Plain text *)

(** Plain text: a query of ASCII characters, and the ASCII reading of digits
    and letter case by which the words of the specification are decided. *)
Module Plain.

Fixpoint is_ascii (s : string) : bool :=
  match s with
  | EmptyString => true
  | String a t => (N_of_ascii a <? 128)%N && is_ascii t
  end.

Definition ascii_isdigit (c : ascii) : bool :=
  let n := N_of_ascii c in (48 <=? n)%N && (n <=? 57)%N.

Definition ascii_lower_char (c : ascii) : ascii :=
  let n := N_of_ascii c in
  if (65 <=? n)%N && (n <=? 90)%N then ascii_of_N (n + 32) else c.

Fixpoint ascii_lower (s : string) : string :=
  match s with
  | EmptyString => EmptyString
  | String c t => String (ascii_lower_char c) (ascii_lower t)
  end.


(** The code points of a text of ASCII characters. *)
Fixpoint codes (s : string) : list N :=
  match s with
  | EmptyString => []
  | String a t => N_of_ascii a :: codes t
  end.


(** *** What is said of texts and of the decoder in the proofs *)

Import Unicode.
Local Open Scope N_scope.

Definition small (c : N) : Prop := c < 2097152.

(** The bits read so far leave room for the bytes still due. *)
Definition room (st : pending) : Prop :=
  match st with
  | Idle => True
  | Pending acc 0 => acc < 32768
  | Pending acc 1 => acc < 512
  | Pending acc 2 => acc < 8
  | Pending _ _ => False
  end.

(** An interval that meets none of the intervals of a table. *)
Definition apart (rs : list (N * N)) (lo hi : N) : bool :=
  forallb (fun r => (hi <? fst r) || (snd r <? lo)) rs.

(** What the decoder has put out after a text, and where it stands. *)
Fixpoint run (st : pending) (s : string) : list N * pending :=
  match s with
  | EmptyString => ([], st)
  | String a t =>
      let (out, st1) := feed st (N_of_ascii a) in
      let (out2, st2) := run st1 t in
      ((out ++ out2)%list, st2)
  end.

Definition is_cont (a : ascii) : bool :=
  (128 <=? N_of_ascii a) && (N_of_ascii a <? 192).

(** The lower-case letter of an ASCII character. *)
Definition alow (c : N) : N := if (65 <=? c) && (c <=? 90) then c + 32 else c.

(** Lowering without the final-sigma rule. *)
Definition simple (c : N) : list N := if c =? 931 then [963] else tolower c.

(** Two texts that differ in bytes outside ASCII only. *)
Fixpoint sim (s t : string) : Prop :=
  match s, t with
  | EmptyString, EmptyString => True
  | String a s', String b t' =>
      (a = b \/ (128 <= N_of_ascii a /\ 128 <= N_of_ascii b)) /\ sim s' t'
  | _, _ => False
  end.

(** Bytes outside ASCII. *)
Fixpoint nonascii (s : string) : bool :=
  match s with
  | EmptyString => true
  | String a t => (128 <=? N_of_ascii a) && nonascii t
  end.



End Plain.
Export Plain.

(* ================================================================== *)
(** ** Observing a run *)

Module Observe.

(** The computation only appends to the history, and what it appends
    satisfies [P]. *)
Definition emits {A} (P : Event -> Prop) (m : M A) : Prop :=
  forall w, exists evs,
    history (snd (m w)) = (history w ++ evs)%list /\ Forall P evs.

Definition is_calc (ev : Event) : bool :=
  match ev with CalcPressureFlow _ => true | _ => false end.

Definition is_parse (ev : Event) : bool :=
  match ev with GuardParse _ => true | _ => false end.

(** The number of drafts handed to the validator so far. *)
Definition validation_passes (h : list Event) : nat := length (filter is_parse h).

(** The number of calls of the calculation engine so far. *)
Definition calculations (h : list Event) : nat := length (filter is_calc h).

(** On this run the external services answer: clients and the guard are
    built, the language model replies. *)
Definition answering (env : Collaborators) : Prop :=
  (forall h, returned (new_ChatOpenAI env h) = true) /\
  (forall h, returned (new_KnowledgeRetriever env h) = true) /\
  (forall h p, returned (llm_invoke env h p) = true) /\
  (forall h, returned (Guard_from_rail env h) = true).

Definition is_llm (ev : Event) : bool :=
  match ev with LLMInvoke _ => true | _ => false end.

(** The number of calls of the language model so far. *)
Definition llm_calls (h : list Event) : nat := length (filter is_llm h).

(** The run has stopped: it is at END or an exception has left it. *)
Definition ended (r : result (Target * AgentState) * World) : Prop :=
  match r with
  | (Return (Goto _, _), _) => False
  | _ => True
  end.

(** The node the router sends an intent to. *)
Definition branch_of (intent : string) : Node :=
  if String.eqb intent "calculation" then simulator else retriever.



Definition is_audit (ev : Event) : bool :=
  match ev with BatchLog _ | Uuid4 => true | _ => false end.

(** The number of audit records and audit identifiers produced so far. *)
Definition audits (h : list Event) : nat := length (filter is_audit h).


(** The fields other than [t] of a dictionary, in their order. *)
Definition others (t : string) (d : dict) : dict :=
  filter (fun kv => negb (String.eqb (fst kv) t)) d.

(** A query sent to the vector store, a call of either tool's backend. *)
Definition is_store_query (ev : Event) : bool :=
  match ev with RetrieverInvoke _ => true | _ => false end.

Definition is_tool_call (ev : Event) : bool := is_calc ev || is_store_query ev.

(** The number of calls of the calculation engine and of queries to the
    vector store so far. *)
Definition tool_calls (h : list Event) : nat := length (filter is_tool_call h).

(** The place of a node on the way through a pass. *)
Definition rank (n : Node) : nat :=
  match n with
  | planner => 0
  | retriever | simulator => 1
  | synthesizer => 2
  | critic => 3
  end.

(** The status [calc_pressure_flow] reports for an [int] flow rate and the
    default viscosity; empty when the call raises. *)
Definition status_of (z : Z) : string :=
  match calc_pressure_flow (PyInt z) default_viscosity with
  | Return r => Simulator.status r
  | Raise _ => ""
  end.

End Observe.
Export Observe.

(* ================================================================== *)
(** * Theorems *)

(** Unfolds the plumbing of [M]. *)
Ltac run_monad :=
  cbv beta delta [mbind ret raise lift try_except emit call stream_logger_log
                  batch_logger_log get_instance set_instance] in *;
  cbn beta iota zeta in *.

Lemma prefix_app (n h : string) :
  prefix n h = true <-> exists post, h = n ++ post.
Proof.
  revert h; induction n as [|c n IH]; intros h; simpl.
  - split; [intros _; now exists h | intros _; now destruct h].
  - destruct h as [|d h]; [split; [discriminate | intros [p Hp]; discriminate]|].
    simpl. destruct (ascii_dec c d) as [->|Hne].
    + rewrite IH. split; intros [p Hp]; exists p; [now rewrite Hp | now inversion Hp].
    + split; [discriminate | intros [p Hp]; inversion Hp; congruence].
Qed.

(** [contains] is Python's substring test. *)
Lemma contains_spec (n h : string) :
  contains n h = true <-> exists pre post, h = pre ++ n ++ post.
Proof.
  induction h as [|d h IH]; cbn [contains].
  - rewrite orb_false_r, prefix_app. split.
    + intros [p Hp]. now exists "", p.
    + intros [pre [post H]]. destruct pre; [now exists post|discriminate].
  - rewrite orb_true_iff, prefix_app, IH. split.
    + intros [[p Hp]|[pre [post H]]].
      * now exists "", p.
      * exists (String d pre), post. simpl. now rewrite H.
    + intros [pre [post H]]. destruct pre as [|c pre]; simpl in H.
      * left. now exists post.
      * right. inversion H. now exists pre, post.
Qed.



(* ------------------------------------------------------------------ *)
(** ** Python's [str] *)

Section Text.
Import Unicode.
Local Open Scope N_scope.

Ltac dlia := zify; Z.to_euclidean_division_equations; lia.

Ltac btest :=
  repeat (match goal with
  | |- context [N.leb ?a ?b] =>
      first [ replace (N.leb a b) with true by (symmetry; apply N.leb_le; dlia)
            | replace (N.leb a b) with false by (symmetry; apply N.leb_gt; dlia) ]
  | |- context [N.ltb ?a ?b] =>
      first [ replace (N.ltb a b) with true by (symmetry; apply N.ltb_lt; dlia)
            | replace (N.ltb a b) with false by (symmetry; apply N.ltb_ge; dlia) ]
  end; cbn [andb orb negb]).

Lemma decode_cons (st : pending) (n : N) (t : string) :
  n < 256 ->
  decode_from st (String (ascii_of_N n) t)
  = (fst (feed st n) ++ decode_from (snd (feed st n)) t)%list.
Proof.
  intros Hn. cbn [decode_from].
  rewrite N_ascii_embedding by exact Hn.
  destruct (feed st n); reflexivity.
Qed.

(** Decoding undoes encoding. *)
Lemma decode_encode_char (c : N) (t : string) :
  c < 2097152 ->
  decode_from Idle (encode_char c ++ t) = c :: decode_from Idle t.
Proof.
  intros Hc. unfold encode_char, byte.
  destruct (N.ltb_spec c 128) as [H1|H1].
  { cbn [append]. rewrite decode_cons by lia. unfold feed. btest. reflexivity. }
  destruct (N.ltb_spec c 2048) as [H2|H2].
  { cbn [append]. rewrite decode_cons by dlia.
    unfold feed at 1 2. btest. cbn [fst snd flush app].
    rewrite decode_cons by dlia. unfold feed. btest. cbn [fst snd app].
    f_equal. dlia. }
  destruct (N.ltb_spec c 65536) as [H3|H3].
  { cbn [append]. rewrite decode_cons by dlia.
    unfold feed at 1 2. btest. cbn [fst snd flush app].
    rewrite decode_cons by dlia. unfold feed at 1 2. btest. cbn [fst snd app].
    rewrite decode_cons by dlia. unfold feed. btest. cbn [fst snd app].
    f_equal. dlia. }
  cbn [append]. rewrite decode_cons by dlia.
  unfold feed at 1 2. btest. cbn [fst snd flush app].
  rewrite decode_cons by dlia. unfold feed at 1 2. btest. cbn [fst snd app].
  rewrite decode_cons by dlia. unfold feed at 1 2. btest. cbn [fst snd app].
  rewrite decode_cons by dlia. unfold feed. btest. cbn [fst snd app].
  f_equal. dlia.
Qed.




Lemma feed_small (st : pending) (b : N) :
  room st -> b < 256 -> Forall small (fst (feed st b)) /\ room (snd (feed st b)).
Proof.
  intros Hst Hb. unfold feed.
  destruct ((128 <=? b) && (b <? 192)) eqn:Hc.
  - apply andb_true_iff in Hc as (H1 & H2).
    apply N.leb_le in H1. apply N.ltb_lt in H2.
    destruct st as [|acc [|[|[|k]]]]; cbn [fst snd room] in *.
    + split; [repeat constructor; unfold small, replacement; lia | exact I].
    + split; [repeat constructor; unfold small; lia | exact I].
    + split; [constructor | lia].
    + split; [constructor | lia].
    + contradiction.
  - assert (Hf : Forall small (flush st))
      by (destruct st; repeat constructor; unfold small, replacement; lia).
    destruct (N.ltb_spec b 128); [|destruct (N.ltb_spec b 224);
      [|destruct (N.ltb_spec b 240); [|destruct (N.ltb_spec b 248)]]];
      cbn [fst snd room]; (split; [|try exact I; lia]);
      try (rewrite app_nil_r; exact Hf);
      apply Forall_app; (split; [exact Hf|]);
      repeat constructor; unfold small, replacement; lia.
Qed.

Lemma decode_from_small (s : string) (st : pending) :
  room st -> Forall small (decode_from st s).
Proof.
  revert st. induction s as [|a s IH]; intros st Hst; cbn [decode_from].
  - destruct st; repeat constructor; unfold small, replacement; lia.
  - destruct (feed_small st (N_of_ascii a) Hst (N_ascii_bounded a)) as (Ho & Hr).
    destruct (feed st (N_of_ascii a)) as [out st']. cbn [fst snd] in *.
    apply Forall_app. split; [exact Ho | apply IH, Hr].
Qed.

Lemma decode_small (s : string) : Forall small (decode s).
Proof. apply decode_from_small. exact I. Qed.

Lemma encode_app (a b : list N) : encode (a ++ b) = (encode a ++ encode b)%string.
Proof.
  induction a as [|c a IH]; cbn [app encode]; [reflexivity|].
  rewrite IH. clear IH. generalize (encode_char c). intros e.
  induction e as [|x e IHe]; cbn [append]; [reflexivity | now rewrite IHe].
Qed.

Lemma string_app_assoc (a b c : string) : ((a ++ b) ++ c = a ++ (b ++ c))%string.
Proof. induction a as [|x a IH]; cbn [append]; [reflexivity | now rewrite IH]. Qed.

Lemma string_app_nil (a : string) : (a ++ "" = a)%string.
Proof. induction a as [|x a IH]; cbn [append]; [reflexivity | now rewrite IH]. Qed.

Lemma decode_encode_app (l : list N) (t : string) :
  Forall small l ->
  decode_from Idle (encode l ++ t) = (l ++ decode_from Idle t)%list.
Proof.
  induction 1 as [|c l Hc _ IH]; cbn [encode app append]; [reflexivity|].
  rewrite string_app_assoc, decode_encode_char by exact Hc. now rewrite IH.
Qed.

Lemma decode_encode (l : list N) : Forall small l -> decode (encode l) = l.
Proof.
  intros H. unfold decode. rewrite <- (string_app_nil (encode l)).
  rewrite decode_encode_app by exact H. cbn. apply app_nil_r.
Qed.

(** *** What the tables say *)

Lemma in_ranges_spec (rs : list (N * N)) (c : N) :
  in_ranges rs c = true <-> exists lo hi, In (lo, hi) rs /\ lo <= c <= hi.
Proof.
  unfold in_ranges. rewrite existsb_exists. split.
  - intros ([lo hi] & Hin & H). apply andb_true_iff in H as (H1 & H2).
    apply N.leb_le in H1, H2. exists lo, hi. cbn in *. auto.
  - intros (lo & hi & Hin & H1 & H2). exists (lo, hi). split; [exact Hin|].
    cbn. apply andb_true_iff. split; apply N.leb_le; assumption.
Qed.


Lemma apart_spec (rs : list (N * N)) (lo hi c : N) :
  apart rs lo hi = true -> lo <= c <= hi -> in_ranges rs c = false.
Proof.
  intros Ha Hc. destruct (in_ranges rs c) eqn:E; [|reflexivity].
  apply in_ranges_spec in E as (l & h & Hin & Hl).
  unfold apart in Ha. rewrite forallb_forall in Ha. specialize (Ha _ Hin).
  cbn in Ha. apply orb_true_iff in Ha as [H|H]; apply N.ltb_lt in H; lia.
Qed.

(** No digit has a lower-case mapping, and no lower-case mapping yields a
    digit. *)
Lemma runs_apart_digits :
  forallb (fun r => let '(lo, hi, _, target) := r in
                    apart digit_ranges lo hi &&
                    apart digit_ranges target (target + (hi - lo)))
          lower_runs = true.
Proof. vm_compute. reflexivity. Qed.

Lemma find_in_run (c : N) (r : N * N * N * N) :
  find (in_run c) lower_runs = Some r ->
  In r lower_runs /\
  let '(lo, hi, _, _) := r in lo <= c <= hi.
Proof.
  intros H. apply find_some in H as (Hin & Hr). split; [exact Hin|].
  destruct r as [[[lo hi] step] target]. unfold in_run in Hr.
  apply andb_true_iff in Hr as (Hr & _). apply andb_true_iff in Hr as (H1 & H2).
  apply N.leb_le in H1, H2. auto.
Qed.

Lemma tolower_isdigit (c : N) : existsb isdigit (tolower c) = isdigit c.
Proof.
  unfold tolower. destruct (N.eqb_spec c 304) as [->|Hne]; [vm_compute; reflexivity|].
  destruct (find (in_run c) lower_runs) as [[[[lo hi] step] target]|] eqn:Hf.
  - apply find_in_run in Hf as (Hin & Hc).
    pose proof runs_apart_digits as Ha. rewrite forallb_forall in Ha.
    specialize (Ha _ Hin). cbn beta iota in Ha.
    apply andb_true_iff in Ha as (Ha1 & Ha2).
    unfold isdigit. cbn [existsb].
    rewrite (apart_spec _ _ _ c Ha1 Hc).
    rewrite (apart_spec _ _ _ (target + (c - lo)) Ha2) by lia.
    reflexivity.
  - cbn [existsb]. apply orb_false_r.
Qed.

Lemma runs_small :
  forallb (fun r => let '(lo, hi, _, target) := r in target + (hi - lo) <? 2097152)
          lower_runs = true.
Proof. vm_compute. reflexivity. Qed.

Lemma tolower_small (c : N) : small c -> Forall small (tolower c).
Proof.
  intros Hc. unfold tolower.
  destruct (N.eqb_spec c 304) as [->|Hne]; [repeat constructor; unfold small; lia|].
  destruct (find (in_run c) lower_runs) as [[[[lo hi] step] target]|] eqn:Hf.
  - apply find_in_run in Hf as (Hin & Hr).
    pose proof runs_small as Ha. rewrite forallb_forall in Ha.
    specialize (Ha _ Hin). cbn beta iota in Ha. apply N.ltb_lt in Ha.
    repeat constructor. unfold small. lia.
  - repeat constructor. exact Hc.
Qed.

Lemma lower_from_small (l before : list N) :
  Forall small l -> Forall small (lower_from before l).
Proof.
  intros H. revert before. induction H as [|c l Hc _ IH]; intros before;
    cbn [lower_from]; [constructor|].
  apply Forall_app. split; [|apply IH].
  destruct (c =? 931); [|apply tolower_small, Hc].
  destruct (final_sigma before l); repeat constructor; unfold small; lia.
Qed.

Lemma lower_from_isdigit (l before : list N) :
  existsb isdigit (lower_from before l) = existsb isdigit l.
Proof.
  revert before. induction l as [|c l IH]; intros before; cbn [lower_from existsb];
    [reflexivity|].
  rewrite existsb_app, IH. f_equal.
  destruct (N.eqb_spec c 931) as [->|Hne]; [|apply tolower_isdigit].
  destruct (final_sigma before l); vm_compute; reflexivity.
Qed.


(** *** The lowered text and its digits *)

Lemma any_isdigit_lower (q : string) : any_isdigit (lower q) = any_isdigit q.
Proof.
  unfold any_isdigit, lower, str_lower.
  rewrite decode_encode by (apply lower_from_small, decode_small).
  apply lower_from_isdigit.
Qed.

(** *** Runs of the decoder *)


Lemma decode_from_run (s t : string) (st : pending) :
  decode_from st (s ++ t) = (fst (run st s) ++ decode_from (snd (run st s)) t)%list.
Proof.
  revert st. induction s as [|a s IH]; intros st; cbn [append decode_from run];
    [reflexivity|].
  destruct (feed st (N_of_ascii a)) as [out st1]. rewrite IH.
  destruct (run st1 s) as [out2 st2]. cbn [fst snd]. now rewrite app_assoc.
Qed.

Lemma decode_from_end (s : string) (st : pending) :
  decode_from st s = (fst (run st s) ++ flush (snd (run st s)))%list.
Proof.
  rewrite <- (string_app_nil s) at 1. now rewrite decode_from_run.
Qed.


(** A byte that continues nothing starts afresh, whatever was under way. *)
Lemma feed_resync (st : pending) (a : ascii) :
  is_cont a = false ->
  feed st (N_of_ascii a)
  = ((flush st ++ fst (feed Idle (N_of_ascii a)))%list, snd (feed Idle (N_of_ascii a))).
Proof.
  unfold is_cont, feed. intros ->. cbn [flush app].
  destruct (N_of_ascii a <? 128); [reflexivity|].
  destruct (N_of_ascii a <? 224); [reflexivity|].
  destruct (N_of_ascii a <? 240); [reflexivity|].
  destruct (N_of_ascii a <? 248); reflexivity.
Qed.

Lemma run_resync (st : pending) (a : ascii) (s : string) :
  is_cont a = false ->
  run st (String a s)
  = ((flush st ++ fst (run Idle (String a s)))%list, snd (run Idle (String a s))).
Proof.
  intros Ha. cbn [run]. rewrite (feed_resync st a Ha).
  destruct (feed Idle (N_of_ascii a)) as [out st1]. cbn [fst snd].
  destruct (run st1 s) as [out2 st2]. cbn [fst snd]. now rewrite app_assoc.
Qed.

Lemma flush_repeat (st : pending) : exists j, flush st = repeat replacement j.
Proof. destruct st; [now exists 0%nat | now exists 1%nat]. Qed.

(** The characters of a text that stand whatever text surrounds it: all of
    them, but for stray bytes at its ends. *)
Lemma decode_embed (q : string) :
  exists k core j,
    decode q = (repeat replacement k ++ core ++ repeat replacement j)%list /\
    forall pre post, exists A B, decode (pre ++ q ++ post) = (A ++ core ++ B)%list.
Proof.
  induction q as [|a q IH].
  - exists 0%nat, [], 0%nat. split; [reflexivity|].
    intros pre post. exists (decode (pre ++ post)), []. cbn. now rewrite app_nil_r.
  - destruct (is_cont a) eqn:Ha.
    + destruct IH as (k & core & j & Hd & Hemb).
      exists (S k), core, j. split.
      * unfold decode in *. cbn [decode_from]. unfold feed.
        unfold is_cont in Ha. rewrite Ha. cbn [repeat app]. now rewrite Hd.
      * intros pre post. destruct (Hemb (pre ++ String a "") post) as (A & B & H).
        exists A, B. rewrite <- H. f_equal.
        rewrite string_app_assoc. reflexivity.
    + destruct (flush_repeat (snd (run Idle (String a q)))) as (j & Hj).
      exists 0%nat, (fst (run Idle (String a q))), j. split.
      * unfold decode. rewrite decode_from_end, Hj. reflexivity.
      * intros pre post. unfold decode.
        rewrite decode_from_run.
        rewrite decode_from_run, (run_resync _ a q Ha). cbn [fst snd].
        exists (fst (run Idle pre) ++ flush (snd (run Idle pre)))%list,
               (decode_from (snd (run Idle (String a q))) post).
        now rewrite <- !app_assoc.
Qed.


(** *** Plain text *)

(** A property of the first 128 code points, by enumeration. *)
Lemma below_128 (P : N -> bool) :
  forallb P (map N.of_nat (seq 0 128)) = true ->
  forall c, c < 128 -> P c = true.
Proof.
  intros H c Hc. rewrite forallb_forall in H. apply H.
  apply in_map_iff. exists (N.to_nat c). split; [apply N2Nat.id|].
  apply in_seq. lia.
Qed.


Lemma tolower_ascii (c : N) : c < 128 -> tolower c = [alow c].
Proof.
  intros Hc.
  assert (H : (match tolower c with [x] => x =? alow c | _ => false end) = true).
  { revert c Hc. apply below_128. vm_compute. reflexivity. }
  destruct (tolower c) as [|x [|y l]]; try discriminate H.
  apply N.eqb_eq in H. now subst.
Qed.

Lemma isdigit_ascii (c : N) : c < 128 -> isdigit c = (48 <=? c) && (c <=? 57).
Proof.
  intros Hc.
  assert (H : Bool.eqb (isdigit c) ((48 <=? c) && (c <=? 57)) = true).
  { revert c Hc. apply below_128. vm_compute. reflexivity. }
  now apply Bool.eqb_prop in H.
Qed.

Lemma decode_ascii_cons (st : pending) (a : ascii) (t : string) :
  N_of_ascii a < 128 ->
  decode_from st (String a t) = (flush st ++ N_of_ascii a :: decode_from Idle t)%list.
Proof.
  intros Ha. cbn [decode_from]. unfold feed.
  replace ((128 <=? N_of_ascii a) && (N_of_ascii a <? 192)) with false
    by (symmetry; apply andb_false_iff; left; apply N.leb_gt; lia).
  replace (N_of_ascii a <? 128) with true by (symmetry; apply N.ltb_lt; lia).
  now rewrite <- app_assoc.
Qed.

Lemma decode_ascii_block (m t : string) :
  is_ascii m = true ->
  decode_from Idle (m ++ t) = (codes m ++ decode_from Idle t)%list.
Proof.
  induction m as [|a m IH]; cbn [is_ascii append codes app]; [reflexivity|].
  intros H. apply andb_true_iff in H as (Ha & Hm). apply N.ltb_lt in Ha.
  rewrite decode_ascii_cons by exact Ha. cbn [flush app]. now rewrite IH.
Qed.


Lemma codes_below (m : string) :
  is_ascii m = true -> Forall (fun c => c < 128) (codes m).
Proof.
  induction m as [|a m IH]; cbn [is_ascii codes]; [constructor|].
  intros H. apply andb_true_iff in H as (Ha & Hm). apply N.ltb_lt in Ha.
  constructor; auto.
Qed.

(** Lowering goes through a stretch of ASCII characters one by one. *)
Lemma lower_from_ascii (l r before : list N) :
  Forall (fun c => c < 128) l ->
  lower_from before (l ++ r) = (map alow l ++ lower_from (rev l ++ before) r)%list.
Proof.
  intros H. revert before. induction H as [|c l Hc _ IH]; intros before;
    cbn [app lower_from map rev]; [reflexivity|].
  replace (c =? 931) with false by (symmetry; apply N.eqb_neq; lia).
  rewrite tolower_ascii by exact Hc. cbn [app]. rewrite IH.
  now rewrite <- app_assoc.
Qed.

Lemma lower_from_app (a b before : list N) :
  exists x, lower_from before (a ++ b) = (x ++ lower_from (rev a ++ before) b)%list.
Proof.
  revert before. induction a as [|c a IH]; intros before; cbn [app lower_from rev].
  - now exists [].
  - destruct (IH (c :: before)) as (x & Hx). rewrite Hx.
    rewrite <- (app_assoc (rev a) [c] before). cbn [app].
    eexists. rewrite app_assoc. reflexivity.
Qed.

Lemma alow_char (a : ascii) :
  N_of_ascii a < 128 -> alow (N_of_ascii a) = N_of_ascii (ascii_lower_char a).
Proof.
  intros Ha. unfold alow, ascii_lower_char.
  destruct ((65 <=? N_of_ascii a) && (N_of_ascii a <=? 90)) eqn:E; [|reflexivity].
  apply andb_true_iff in E as (_ & E). apply N.leb_le in E.
  now rewrite N_ascii_embedding by lia.
Qed.

Lemma encode_char_ascii (c : N) (a : ascii) :
  c = N_of_ascii a -> c < 128 -> encode_char c = String a "".
Proof.
  intros -> Hc. unfold encode_char, byte.
  replace (N_of_ascii a <? 128) with true by (symmetry; apply N.ltb_lt; lia).
  now rewrite ascii_N_embedding.
Qed.

Lemma ascii_lower_char_below (a : ascii) :
  N_of_ascii a < 128 -> N_of_ascii (ascii_lower_char a) < 128.
Proof.
  intros Ha. unfold ascii_lower_char.
  destruct ((65 <=? N_of_ascii a) && (N_of_ascii a <=? 90)) eqn:E; [|exact Ha].
  apply andb_true_iff in E as (_ & E). apply N.leb_le in E.
  rewrite N_ascii_embedding by lia. lia.
Qed.

Lemma encode_lowered (m : string) :
  is_ascii m = true -> encode (map alow (codes m)) = ascii_lower m.
Proof.
  induction m as [|a m IH]; cbn [is_ascii codes map encode ascii_lower]; [reflexivity|].
  intros H. apply andb_true_iff in H as (Ha & Hm). apply N.ltb_lt in Ha.
  rewrite (encode_char_ascii _ (ascii_lower_char a)).
  - cbn [append]. now rewrite IH.
  - now apply alow_char.
  - rewrite alow_char by exact Ha. now apply ascii_lower_char_below.
Qed.



(** *** Tokens in any text *)

(** In whatever text it stands, a stretch of ASCII characters is lowered to
    its ASCII lower case. *)
Lemma lower_keeps_ascii (pre m post : string) :
  is_ascii m = true ->
  exists x y, lower (pre ++ m ++ post) = (x ++ ascii_lower m ++ y)%string.
Proof.
  intros Hm. destruct m as [|a m].
  - exists (lower (pre ++ post)), "". cbn [append ascii_lower].
    now rewrite string_app_nil.
  - unfold lower, str_lower, decode.
    rewrite decode_from_run.
    assert (Ha : N_of_ascii a < 128).
    { cbn [is_ascii] in Hm. apply andb_true_iff in Hm as (Ha & _).
      now apply N.ltb_lt in Ha. }
    assert (Hd : decode_from (snd (run Idle pre)) (String a m ++ post)
                 = (flush (snd (run Idle pre)) ++ codes (String a m)
                    ++ decode_from Idle post)%list).
    { cbn [append]. rewrite decode_ascii_cons by exact Ha. f_equal.
      cbn [codes app]. f_equal.
      cbn [is_ascii] in Hm. apply andb_true_iff in Hm as (_ & Hm).
      now apply decode_ascii_block. }
    rewrite Hd. rewrite app_assoc.
    destruct (lower_from_app (fst (run Idle pre) ++ flush (snd (run Idle pre)))
                (codes (String a m) ++ decode_from Idle post) []) as (x & ->).
    rewrite lower_from_ascii by (apply codes_below, Hm).
    rewrite !encode_app, encode_lowered by exact Hm.
    eexists. eexists. reflexivity.
Qed.

(** An ASCII digit is a digit in any text. *)
Lemma any_isdigit_ascii_digit (pre post : string) (c : ascii) :
  ascii_isdigit c = true -> any_isdigit (pre ++ String c post) = true.
Proof.
  intros Hc. unfold any_isdigit, decode. rewrite decode_from_run.
  assert (Ha : N_of_ascii c < 128).
  { unfold ascii_isdigit in Hc. apply andb_true_iff in Hc as (_ & Hc).
    apply N.leb_le in Hc. lia. }
  rewrite decode_ascii_cons by exact Ha.
  rewrite !existsb_app. cbn [existsb].
  rewrite isdigit_ascii by exact Ha. unfold ascii_isdigit in Hc. rewrite Hc.
  now rewrite !orb_true_r.
Qed.


(** *** Tokens under the final-sigma rule *)



Lemma sim_refl (s : string) : sim s s.
Proof. induction s as [|a s IH]; cbn; auto. Qed.

Lemma sim_app (s1 t1 s2 t2 : string) :
  sim s1 t1 -> sim s2 t2 -> sim (s1 ++ s2) (t1 ++ t2).
Proof.
  revert t1. induction s1 as [|a s1 IH]; intros [|b t1]; cbn; try contradiction.
  - auto.
  - intros (H & H1) H2. split; [exact H | now apply IH].
Qed.

Lemma sim_lower_from (l before : list N) :
  sim (encode (lower_from before l)) (encode (flat_map simple l)).
Proof.
  revert before. induction l as [|c l IH]; intros before;
    cbn [lower_from flat_map]; [exact I|].
  rewrite !encode_app. apply sim_app; [|apply IH].
  unfold simple. destruct (c =? 931); [|apply sim_refl].
  destruct (final_sigma before l); [|apply sim_refl].
  vm_compute. repeat split; auto; right; split; discriminate.
Qed.

Lemma prefix_sim (tok s t : string) :
  is_ascii tok = true -> sim s t -> prefix tok s = prefix tok t.
Proof.
  revert s t. induction tok as [|x tok IH]; intros s t Hx Hs; cbn [prefix].
  - now destruct s, t.
  - cbn [is_ascii] in Hx. apply andb_true_iff in Hx as (Hx & Htok).
    apply N.ltb_lt in Hx.
    destruct s as [|a s], t as [|b t]; cbn [sim] in Hs; try contradiction; [reflexivity|].
    cbn [prefix].
    destruct Hs as ([->|(Ha & Hb)] & Hs).
    + destruct (ascii_dec x b); [now apply IH | reflexivity].
    + destruct (ascii_dec x a) as [->|_]; [lia|].
      destruct (ascii_dec x b) as [->|_]; [lia | reflexivity].
Qed.

Lemma contains_sim (tok s t : string) :
  is_ascii tok = true -> sim s t -> contains tok s = contains tok t.
Proof.
  intros Hx. revert t. induction s as [|a s IH]; intros [|b t] Hs;
    cbn [sim] in Hs; try contradiction; cbn [contains].
  - reflexivity.
  - rewrite (prefix_sim tok (String a s) (String b t) Hx Hs).
    destruct Hs as (_ & Hs). now rewrite (IH t Hs).
Qed.


Lemma prefix_nonascii_head (x a : ascii) (tok s : string) :
  N_of_ascii x < 128 -> 128 <= N_of_ascii a ->
  prefix (String x tok) (String a s) = false.
Proof.
  intros Hx Ha. cbn [prefix]. destruct (ascii_dec x a) as [->|_]; [lia | reflexivity].
Qed.

Lemma contains_strip_front (x : ascii) (tok n s : string) :
  N_of_ascii x < 128 -> nonascii n = true ->
  contains (String x tok) (n ++ s) = contains (String x tok) s.
Proof.
  intros Hx. induction n as [|a n IH]; cbn [nonascii append]; [reflexivity|].
  intros H. apply andb_true_iff in H as (Ha & Hn). apply N.leb_le in Ha.
  cbn [contains]. rewrite (prefix_nonascii_head x a tok _ Hx Ha). cbn [orb].
  now apply IH.
Qed.

Lemma prefix_strip_back (tok s n : string) :
  is_ascii tok = true -> nonascii n = true ->
  prefix tok (s ++ n) = true -> prefix tok s = true.
Proof.
  revert s. induction tok as [|x tok IH]; intros s Hx Hn; [now destruct s|].
  cbn [is_ascii] in Hx. apply andb_true_iff in Hx as (Hx & Htok).
  apply N.ltb_lt in Hx.
  destruct s as [|a s]; cbn [append].
  - destruct n as [|b n]; [discriminate|].
    cbn [nonascii] in Hn. apply andb_true_iff in Hn as (Hb & _). apply N.leb_le in Hb.
    now rewrite (prefix_nonascii_head x b tok n Hx Hb).
  - cbn [prefix]. destruct (ascii_dec x a); [now apply IH | discriminate].
Qed.

Lemma contains_strip_back (x : ascii) (tok s n : string) :
  is_ascii (String x tok) = true -> nonascii n = true ->
  contains (String x tok) (s ++ n) = true -> contains (String x tok) s = true.
Proof.
  intros Hx Hn. induction s as [|a s IH]; cbn [append].
  - rewrite <- (string_app_nil n), contains_strip_front; [auto | | exact Hn].
    cbn [is_ascii] in Hx. apply andb_true_iff in Hx as (Hx & _). now apply N.ltb_lt.
  - cbn [contains]. rewrite !orb_true_iff. intros [H|H].
    + left. apply (prefix_strip_back _ (String a s) n Hx Hn). exact H.
    + right. now apply IH.
Qed.

Lemma contains_embed (n h pre post : string) :
  contains n h = true -> contains n (pre ++ h ++ post) = true.
Proof.
  rewrite !contains_spec. intros (a & b & ->).
  exists (pre ++ a)%string, (b ++ post)%string.
  now rewrite !string_app_assoc.
Qed.

Lemma flat_map_repeat (k : nat) :
  flat_map simple (repeat replacement k) = repeat replacement k.
Proof. induction k as [|k IH]; cbn [repeat flat_map]; [reflexivity|]. now rewrite IH. Qed.

Lemma encode_repeat_nonascii (k : nat) : nonascii (encode (repeat replacement k)) = true.
Proof.
  induction k as [|k IH]; cbn [repeat encode]; [reflexivity|].
  change (encode_char replacement)
    with (String (ascii_of_N 239) (String (ascii_of_N 191) (String (ascii_of_N 189) ""))).
  cbn [append nonascii]. now rewrite IH.
Qed.

(** A text keeps its tokens inside any longer text. *)
Lemma contains_lower_embed (tok pre q post : string) :
  is_ascii tok = true -> tok <> "" ->
  contains tok (lower q) = true -> contains tok (lower (pre ++ q ++ post)) = true.
Proof.
  intros Hx Hne. destruct tok as [|x tok]; [contradiction|].
  destruct (decode_embed q) as (k & core & j & Hd & Hemb).
  destruct (Hemb pre post) as (A & B & He).
  unfold lower, str_lower. rewrite He, Hd.
  rewrite !(contains_sim _ _ _ Hx (sim_lower_from _ [])).
  rewrite !flat_map_app, !flat_map_repeat, !encode_app.
  intros H.
  rewrite contains_strip_front in H;
    [ | cbn [is_ascii] in Hx; apply andb_true_iff in Hx as (Hx' & _); now apply N.ltb_lt
      | apply encode_repeat_nonascii ].
  apply contains_strip_back in H; [ | exact Hx | apply encode_repeat_nonascii ].
  now apply contains_embed.
Qed.

Lemma isdigit_repeat (k : nat) : existsb isdigit (repeat replacement k) = false.
Proof.
  induction k as [|k IH]; cbn [repeat existsb]; [reflexivity|].
  rewrite IH. vm_compute. reflexivity.
Qed.

(** A text keeps its digits inside any longer text. *)
Lemma any_isdigit_embed (pre q post : string) :
  any_isdigit q = true -> any_isdigit (pre ++ q ++ post) = true.
Proof.
  destruct (decode_embed q) as (k & core & j & Hd & Hemb).
  destruct (Hemb pre post) as (A & B & He).
  unfold any_isdigit. rewrite He, Hd, !existsb_app, !isdigit_repeat.
  cbn [orb]. rewrite orb_false_r. intros ->. now rewrite orb_true_r.
Qed.


(** *** The words of the specification, decided *)

Ltac pick := repeat (try (left; reflexivity); right).

Lemma digits_spec (c : ascii) : In c digits <-> ascii_isdigit c = true.
Proof.
  split.
  - cbn [digits In]. intros H.
    repeat (destruct H as [<-|H]; [reflexivity|]). contradiction.
  - unfold ascii_isdigit. intros H. apply andb_true_iff in H as (H1 & H2).
    apply N.leb_le in H1, H2. rewrite <- (ascii_N_embedding c).
    assert (Hn : N_of_ascii c = 48 \/ N_of_ascii c = 49 \/ N_of_ascii c = 50 \/
                 N_of_ascii c = 51 \/ N_of_ascii c = 52 \/ N_of_ascii c = 53 \/
                 N_of_ascii c = 54 \/ N_of_ascii c = 55 \/ N_of_ascii c = 56 \/
                 N_of_ascii c = 57) by lia.
    repeat (destruct Hn as [->|Hn]; [vm_compute; pick|]).
    rewrite Hn. vm_compute. pick.
Qed.


Lemma pair_lower (a b : ascii) :
  In (a, b) letter_pairs ->
  ascii_lower_char a = b /\ ascii_lower_char b = b /\
  N_of_ascii a < 128 /\ N_of_ascii b < 128.
Proof.
  intros H. compute in H.
  repeat (destruct H as [H|H];
          [inversion H; subst; vm_compute; repeat split; reflexivity|]).
  contradiction.
Qed.

Lemma upper_pair (a : ascii) :
  65 <= N_of_ascii a <= 90 -> In (a, ascii_lower_char a) letter_pairs.
Proof.
  intros H. rewrite <- (ascii_N_embedding a).
  assert (Hn : N_of_ascii a = 65 \/ N_of_ascii a = 66 \/ N_of_ascii a = 67 \/
               N_of_ascii a = 68 \/ N_of_ascii a = 69 \/ N_of_ascii a = 70 \/
               N_of_ascii a = 71 \/ N_of_ascii a = 72 \/ N_of_ascii a = 73 \/
               N_of_ascii a = 74 \/ N_of_ascii a = 75 \/ N_of_ascii a = 76 \/
               N_of_ascii a = 77 \/ N_of_ascii a = 78 \/ N_of_ascii a = 79 \/
               N_of_ascii a = 80 \/ N_of_ascii a = 81 \/ N_of_ascii a = 82 \/
               N_of_ascii a = 83 \/ N_of_ascii a = 84 \/ N_of_ascii a = 85 \/
               N_of_ascii a = 86 \/ N_of_ascii a = 87 \/ N_of_ascii a = 88 \/
               N_of_ascii a = 89 \/ N_of_ascii a = 90) by lia.
  repeat (destruct Hn as [->|Hn]; [vm_compute; pick|]).
  rewrite Hn. vm_compute. pick.
Qed.

Lemma same_letter_lower (a b : ascii) :
  same_letter a b -> ascii_lower_char a = ascii_lower_char b.
Proof.
  intros [->|[H|H]]; [reflexivity | |];
    apply pair_lower in H as (H1 & H2 & _); congruence.
Qed.

Lemma same_letter_below (a b : ascii) :
  same_letter a b -> N_of_ascii b < 128 -> N_of_ascii a < 128.
Proof.
  intros [->|[H|H]] Hb; [exact Hb | |];
    apply pair_lower in H as (_ & _ & H1 & H2); assumption.
Qed.

Lemma lower_char_same (a : ascii) : same_letter a (ascii_lower_char a).
Proof.
  unfold same_letter.
  destruct ((65 <=? N_of_ascii a) && (N_of_ascii a <=? 90)) eqn:E.
  - right. left. apply upper_pair.
    apply andb_true_iff in E as (H1 & H2). apply N.leb_le in H1, H2. auto.
  - left. unfold ascii_lower_char. now rewrite E.
Qed.

Lemma same_text_lower (m t : string) :
  same_text m t -> ascii_lower m = ascii_lower t.
Proof.
  induction 1 as [|a b s t Hl _ IH]; cbn [ascii_lower]; [reflexivity|].
  now rewrite IH, (same_letter_lower a b Hl).
Qed.

Lemma same_text_ascii (m t : string) :
  same_text m t -> is_ascii t = true -> is_ascii m = true.
Proof.
  induction 1 as [|a b s t Hl _ IH]; cbn [is_ascii]; [reflexivity|].
  intros H. apply andb_true_iff in H as (Hb & Ht). apply N.ltb_lt in Hb.
  apply andb_true_iff. split; [|now apply IH].
  apply N.ltb_lt. eapply same_letter_below; eassumption.
Qed.

Lemma lower_same_text (m : string) : same_text m (ascii_lower m).
Proof.
  induction m as [|a m IH]; cbn [ascii_lower]; constructor;
    [apply lower_char_same | exact IH].
Qed.

Lemma ascii_lower_app (a b : string) :
  ascii_lower (a ++ b) = (ascii_lower a ++ ascii_lower b)%string.
Proof. induction a as [|c a IH]; cbn [append ascii_lower]; [reflexivity | now rewrite IH]. Qed.

Lemma ascii_lower_split (q x y : string) :
  ascii_lower q = (x ++ y)%string ->
  exists a b, q = (a ++ b)%string /\ ascii_lower a = x /\ ascii_lower b = y.
Proof.
  revert q. induction x as [|c x IH]; intros q H; cbn [append] in H.
  - now exists "", q.
  - destruct q as [|d q]; [discriminate|]. cbn [ascii_lower] in H.
    inversion H as [[Hc Hq]]. destruct (IH q Hq) as (a & b & -> & Ha & Hb).
    exists (String d a), b. cbn [append ascii_lower]. now rewrite Ha.
Qed.

(** The token, in small letters, occurs in the query case-insensitively
    exactly when it occurs in the ASCII lower case of the query. *)
Lemma mentions_spec (token q : string) :
  ascii_lower token = token ->
  mentions token q <-> contains token (ascii_lower q) = true.
Proof.
  intros Ht. rewrite contains_spec. unfold mentions. split.
  - intros (pre & m & post & -> & Hm).
    exists (ascii_lower pre), (ascii_lower post).
    now rewrite !ascii_lower_app, (same_text_lower m token Hm), Ht.
  - intros (x & y & H).
    apply ascii_lower_split in H as (pre & r & -> & _ & H).
    apply ascii_lower_split in H as (m & post & -> & Hm & _).
    exists pre, m, post. split; [reflexivity|]. rewrite <- Hm. apply lower_same_text.
Qed.

(** A token the query mentions is in Python's lower case of the query,
    whatever else the query holds. *)
Lemma mentions_lower (token q : string) :
  is_ascii token = true -> ascii_lower token = token ->
  mentions token q -> contains token (lower q) = true.
Proof.
  intros Ha Ht (pre & m & post & -> & Hm).
  destruct (lower_keeps_ascii pre m post (same_text_ascii m token Hm Ha)) as (x & y & ->).
  rewrite (same_text_lower m token Hm), Ht.
  apply contains_spec. now exists x, y.
Qed.

Lemma has_digit_isdigit (q : string) : has_digit q -> any_isdigit q = true.
Proof.
  intros (pre & c & post & -> & Hc).
  apply any_isdigit_ascii_digit. now apply digits_spec.
Qed.

End Text.

(* ------------------------------------------------------------------ *)
(** ** The classification *)



Lemma calculation_rule_classified (q : string) :
  calculation_rule q -> classify_intent q = "calculation".
Proof.
  intros (Hd & Hm). unfold classify_intent.
  rewrite (has_digit_isdigit q Hd).
  destruct Hm as [Hm|Hm]; apply mentions_lower in Hm; try reflexivity;
    rewrite Hm; [reflexivity | now rewrite orb_true_r].
Qed.






Example classify_manual : classify_intent Stub.manual_query = "retrieval".
Proof. vm_compute. reflexivity. Qed.

Example classify_flow : classify_intent Stub.flow_query = "calculation".
Proof. vm_compute. reflexivity. Qed.

Example classify_plain : classify_intent Stub.plain_query = "hybrid".
Proof. vm_compute. reflexivity. Qed.

Example classify_upper_case : classify_intent "Pump at 850 PSI" = "calculation".
Proof. vm_compute. reflexivity. Qed.

(** A unit without a digit does not make a calculation. *)
Example classify_unit_without_digit : classify_intent "psi or bar?" = "hybrid".
Proof. vm_compute. reflexivity. Qed.

(** Superscript two (U+00B2) is a digit to Python. *)
Example classify_superscript :
  classify_intent ("psi per m" ++ String (ascii_of_N 194) (String (ascii_of_N 178) ""))
  = "calculation".
Proof. vm_compute. reflexivity. Qed.

(* ------------------------------------------------------------------ *)
(** ** The calculation engine *)

Lemma lt0_negative (x : pynum) : lt0 x = true <-> negative x.
Proof.
  destruct x as [z|f]; simpl.
  - apply Z.ltb_lt.
  - destruct f as [[]|[]| |[] m e]; simpl; split; try easy.
Qed.

(** C7. For every flow rate strictly less than zero and every viscosity,
    [calc_pressure_flow] returns (it does not raise) the record with status
    ERROR, estimated pressure 0.0 and the flow rate it was given. *)
Theorem calc_pressure_flow_negative (flow_rate : pynum) (viscosity : spec_float) :
  negative flow_rate ->
  calc_pressure_flow flow_rate viscosity =
    Return {| input_flow_rate := flow_rate;
              estimated_pressure_psi := S754_zero false;
              status := "ERROR";
              warning := Some "Flow rate cannot be negative." |}.
Proof.
  intros H. apply lt0_negative in H.
  unfold calc_pressure_flow. now rewrite H.
Qed.

Lemma calc_pressure_flow_negative_witness :
  negative (PyFloat (S754_finite true 5 (-2))) /\
  calc_pressure_flow (PyFloat (S754_finite true 5 (-2))) default_viscosity =
    Return {| input_flow_rate := PyFloat (S754_finite true 5 (-2));
              estimated_pressure_psi := S754_zero false;
              status := "ERROR";
              warning := Some "Flow rate cannot be negative." |}.
Proof.
  split; [exact I | apply calc_pressure_flow_negative; exact I].
Defined.

(** Zero, of either sign, is not negative: the physics runs. *)
Example calc_pressure_flow_zero :
  calc_pressure_flow (PyFloat (S754_zero true)) default_viscosity =
    Return {| input_flow_rate := PyFloat (S754_zero true);
              estimated_pressure_psi := float_of_Z 1000;
              status := "NOMINAL";
              warning := None |}.
Proof. vm_compute. reflexivity. Qed.

(** What [node_simulator] gets: 1000.62 psi. *)
Example calc_pressure_flow_200 :
  calc_pressure_flow (PyInt 200) default_viscosity =
    Return {| input_flow_rate := PyInt 200;
              estimated_pressure_psi := fdiv (float_of_Z 100062) (float_of_Z 100);
              status := "NOMINAL";
              warning := None |}.
Proof. vm_compute. reflexivity. Qed.

(* ------------------------------------------------------------------ *)
(** ** The safety validator *)




(** Whatever the guard does, [validate] returns one of its two dictionaries. *)
Lemma validate_returns (critic : SafetyCritic) (draft : string) :
  (exists data, validate critic draft = Return (approved data)) \/
  (exists e, validate critic draft = Return (rejected e)).
Proof.
  unfold validate.
  destruct (parse (guard critic) draft) as [[t|[v|]]|e]; simpl.
  - destruct t as [|x [|y t]]; simpl; [right | right | left]; eauto.
  - left; eauto.
  - right; eauto.
  - right; eauto.
Qed.



(** A guard that reports a failed validation without raising, as the
    guardrails library does when no exception is asked for: the outcome
    carries [validated_output = None].  [validate] approves. *)
Example validate_approves_what_does_not_raise :
  let lenient := {| guard := {| parse := fun _ => Return (Outcome (Some (Plain VNone))) |} |} in
  validate lenient "go ahead and open the valve"
  = Return [("status", VStr "APPROVED");
            ("data", VNone);
            ("log", VStr "Passed RAIL validation: Schema valid, PII sanitized.")].
Proof. reflexivity. Qed.

(* ------------------------------------------------------------------ *)
(** ** The validation node *)

(** Both dictionaries of [validate] have three keys: they do not unpack into
    two targets. *)
Lemma validate_unpack (critic : SafetyCritic) (draft : string) :
  exists d, validate critic draft = Return d /\
            unpack2 (keys d) = Raise too_many_values.
Proof.
  destruct (validate_returns critic draft) as [[data H]|[e H]];
    rewrite H; eexists; split; reflexivity.
Qed.

(** What the validation node does, case by case: it never gets to return. *)
Lemma node_critic_eq (env : Collaborators) (state : AgentState) (w : World) :
  node_critic env state w =
    match draft_response state with
    | None => (Raise (KeyError "draft_response"), w)
    | Some draft =>
        let h1 := (history w ++ [StreamLog "[Critic] Validating safety constraints..."])%list in
        match Guard_from_rail env h1 with
        | Raise e =>
            (Raise (Exn "RuntimeError" ("Failed to load RAIL file: " ++ exc_str e)),
             {| history := h1 ++ [GuardFromRail];
                _retriever_instance := _retriever_instance w |})
        | Return g =>
            (Raise too_many_values,
             {| history := (h1 ++ [GuardFromRail]) ++ [GuardParse draft];
                _retriever_instance := _retriever_instance w |})
        end
    end.
Proof.
  unfold node_critic, SafetyCritic_init.
  destruct (draft_response state) as [draft|]; [|reflexivity].
  run_monad. simpl.
  destruct (Guard_from_rail env _) as [g|e]; [|reflexivity].
  simpl.
  destruct (validate_unpack {| guard := g |} draft) as (d & Hd & Hu).
  rewrite Hd. simpl. rewrite Hu. reflexivity.
Qed.

Lemma node_critic_raises (env : Collaborators) (state : AgentState) (w : World) :
  exists e w', node_critic env state w = (Raise e, w').
Proof.
  rewrite node_critic_eq.
  destruct (draft_response state); [|eauto].
  cbv zeta. destruct (Guard_from_rail env _); eauto.
Qed.

(* ------------------------------------------------------------------ *)
(** ** What a computation appends to the history *)

Section Emits.
Variable P : Event -> Prop.

Lemma emits_ret {A} (a : A) : emits P (ret a).
Proof. intros w. exists []. simpl. now rewrite app_nil_r. Qed.

Lemma emits_raise {A} (e : exn) : emits P (@raise A e).
Proof. intros w. exists []. simpl. now rewrite app_nil_r. Qed.

Lemma emits_lift {A} (r : result A) : emits P (lift r).
Proof. intros w. exists []. simpl. now rewrite app_nil_r. Qed.

Lemma emits_emit (ev : Event) : P ev -> emits P (emit ev).
Proof. intros H w. exists [ev]. simpl. auto. Qed.

Lemma emits_call {A} (ev : Event) (f : list Event -> result A) :
  P ev -> emits P (call ev f).
Proof. intros H w. exists [ev]. simpl. auto. Qed.

Lemma emits_get_instance : emits P get_instance.
Proof. intros w. exists []. simpl. now rewrite app_nil_r. Qed.

Lemma emits_set_instance (i : KnowledgeRetriever) : emits P (set_instance i).
Proof. intros w. exists []. simpl. now rewrite app_nil_r. Qed.

Lemma emits_bind {A B} (m : M A) (k : A -> M B) :
  emits P m -> (forall a, emits P (k a)) -> emits P (mbind m k).
Proof.
  intros Hm Hk w. unfold mbind.
  destruct (Hm w) as (e1 & H1 & F1).
  destruct (m w) as [[a|e] w1]; simpl in *.
  - destruct (Hk a w1) as (e2 & H2 & F2).
    exists (e1 ++ e2)%list. rewrite H2, H1, app_assoc. split; [reflexivity|].
    apply Forall_app; auto.
  - exists e1. auto.
Qed.

Lemma emits_try {A} (m : M A) (h : exn -> M A) :
  emits P m -> (forall e, emits P (h e)) -> emits P (try_except m h).
Proof.
  intros Hm Hh w. unfold try_except.
  destruct (Hm w) as (e1 & H1 & F1).
  destruct (m w) as [[a|e] w1]; simpl in *.
  - exists e1. auto.
  - destruct (Hh e w1) as (e2 & H2 & F2).
    exists (e1 ++ e2)%list. rewrite H2, H1, app_assoc. split; [reflexivity|].
    apply Forall_app; auto.
Qed.

End Emits.

(** Decomposes an [emits] goal along the structure of the computation; what
    is left is [P] of each event. *)
Ltac emits_steps :=
  repeat match goal with
  | |- emits _ (ret _) => apply emits_ret
  | |- emits _ (raise _) => apply emits_raise
  | |- emits _ (lift _) => apply emits_lift
  | |- emits _ get_instance => apply emits_get_instance
  | |- emits _ (set_instance _) => apply emits_set_instance
  | |- emits _ (emit _) => apply emits_emit
  | |- emits _ (call _ _) => apply emits_call
  | |- emits _ (mbind _ _) => apply emits_bind; [|intros ?]
  | |- emits _ (try_except _ _) => apply emits_try; [|intros ?]
  | |- emits _ (match ?x with _ => _ end) => destruct x
  end.

Lemma emits_count {A} (f : Event -> bool) (m : M A) (w : World) :
  emits (fun ev => f ev = false) m ->
  length (filter f (history (snd (m w)))) = length (filter f (history w)).
Proof.
  intros H. destruct (H w) as (evs & -> & F).
  rewrite filter_app, length_app.
  replace (filter f evs) with (@nil Event); [simpl; lia|].
  induction F as [|ev evs Hev _ IH]; simpl; [reflexivity|now rewrite Hev].
Qed.

(* ------------------------------------------------------------------ *)
(** ** The nodes *)

Section NodeFacts.
Variable env : Collaborators.

(** The planner returns as soon as its client is built, and then its update
    is the classification of the query and the counter carried over. *)
Lemma node_planner_eq (state : AgentState) (w : World) :
  node_planner env state w =
    let h1 := (history w ++
               [StreamLog ("[Master Agent] Analyzing query: " ++ query state)])%list in
    match new_ChatOpenAI env h1 with
    | Return _ =>
        (Return [Set_intent (classify_intent (query state));
                 Set_retries (get_or (retries state) 0)],
         {| history :=
              ((h1 ++ [NewChatOpenAI]) ++
               [StreamLog ("[Master Agent] Intent classified as: "
                           ++ classify_intent (query state))])%list;
            _retriever_instance := _retriever_instance w |})
    | Raise e =>
        (Raise e, {| history := (h1 ++ [NewChatOpenAI])%list;
                     _retriever_instance := _retriever_instance w |})
    end.
Proof.
  unfold node_planner, ChatOpenAI. run_monad. simpl.
  destruct (new_ChatOpenAI env _); reflexivity.
Qed.

Lemma node_planner_returns (state : AgentState) (w w' : World) (u : Update) :
  node_planner env state w = (Return u, w') ->
  u = [Set_intent (classify_intent (query state));
       Set_retries (get_or (retries state) 0)].
Proof.
  rewrite node_planner_eq. cbv zeta.
  destruct (new_ChatOpenAI env _); intros H; inversion H; reflexivity.
Qed.


(** Only the critic hands a draft to the validator. *)
Lemma node_no_parse (n : Node) (state : AgentState) :
  n <> critic -> emits (fun ev => is_parse ev = false) (run_node env n state).
Proof.
  intros Hn. destruct n; try contradiction; cbn [run_node].
  - unfold node_planner, ChatOpenAI, stream_logger_log. emits_steps; reflexivity.
  - unfold node_retriever, rag_retriever, get_retriever, retrieve, stream_logger_log.
    emits_steps; reflexivity.
  - unfold node_simulator, stream_logger_log. emits_steps; reflexivity.
  - unfold node_synthesizer, ChatOpenAI, stream_logger_log. emits_steps; reflexivity.
Qed.

(** Only the synthesizer calls the language model. *)
Lemma node_no_llm (n : Node) (state : AgentState) :
  n <> synthesizer -> emits (fun ev => is_llm ev = false) (run_node env n state).
Proof.
  intros Hn. destruct n; try contradiction; cbn [run_node].
  - unfold node_planner, ChatOpenAI, stream_logger_log. emits_steps; reflexivity.
  - unfold node_retriever, rag_retriever, get_retriever, retrieve, stream_logger_log.
    emits_steps; reflexivity.
  - unfold node_simulator, stream_logger_log. emits_steps; reflexivity.
  - unfold node_critic, SafetyCritic_init, stream_logger_log, batch_logger_log.
    emits_steps; reflexivity.
Qed.


End NodeFacts.

(* ------------------------------------------------------------------ *)
(** ** The graph *)

Lemma write_query (s : AgentState) (x : Write) : query (write s x) = query s.
Proof. destruct s, x; reflexivity. Qed.

Lemma write_messages (s : AgentState) (x : Write) : messages (write s x) = messages s.
Proof. destruct s, x; reflexivity. Qed.

(** No node can change the query: there is no such entry to return. *)
Lemma merge_query (u : Update) (s : AgentState) : query (merge s u) = query s.
Proof.
  unfold merge. revert s. induction u as [|x u IH]; intros s; simpl; [reflexivity|].
  now rewrite IH, write_query.
Qed.

Lemma check_safety_query (s s' : AgentState) (label : string) :
  check_safety s = Return (label, s') -> query s' = query s.
Proof.
  unfold check_safety, bump_retries.
  destruct (is_safe s) as [v|]; simpl; [|discriminate].
  destruct (truthy v); [intros H; now inversion H|].
  destruct (retries s) as [r|]; simpl; [|discriminate].
  destruct (2 <=? r); intros H; inversion H; [reflexivity | apply write_query].
Qed.

Lemma route_query (n : Node) (s s' : AgentState) (t : Target) :
  route n s = Return (t, s') -> query s' = query s.
Proof.
  destruct n; cbn [route]; try (intros H; now inversion H).
  - destruct (decide_path s) as [l|]; cbn [bind]; [|discriminate].
    destruct (path_get planner_paths l); cbn [bind]; [|discriminate].
    intros H; now inversion H.
  - destruct (check_safety s) as [[l s1]|] eqn:Hc; cbn [bind fst snd]; [|discriminate].
    destruct (path_get critic_paths l); cbn [bind]; [|discriminate].
    intros H; now inversion H.
Qed.

(** No edge changes the state. *)
Lemma route_state (n : Node) (s s' : AgentState) (t : Target) :
  route n s = Return (t, s') -> s' = s.
Proof.
  destruct n; cbn [route]; try (intros H; now inversion H).
  - destruct (decide_path s) as [l|]; cbn [bind]; [|discriminate].
    destruct (path_get planner_paths l); cbn [bind]; [|discriminate].
    intros H; now inversion H.
  - destruct (check_safety s) as [[l s1]|] eqn:Hc; cbn [bind fst snd]; [|discriminate].
    destruct (path_get critic_paths l); cbn [bind]; [|discriminate].
    intros H; now inversion H.
Qed.

(** Only the edge out of the critic leads to END. *)
Lemma route_END (n : Node) (s s' : AgentState) :
  route n s = Return (END, s') -> n = critic.
Proof.
  destruct n; cbn [route]; try discriminate; [|reflexivity].
  unfold decide_path. destruct (intent s) as [i|]; cbn [getitem bind]; [|discriminate].
  destruct (String.eqb i "retrieval"); [|destruct (String.eqb i "calculation")];
    simpl; discriminate.
Qed.

(* ------------------------------------------------------------------ *)
(** ** Runs of several steps *)

Section RuntimeFacts.
Variable nodes : Node -> AgentState -> M Update.

Lemma step_inv (n : Node) (s s' : AgentState) (t : Target) (w w' : World) :
  step nodes n s w = (Return (t, s'), w') ->
  exists u, nodes n s w = (Return u, w') /\ route n (merge s u) = Return (t, s').
Proof.
  unfold step, mbind, lift. destruct (nodes n s w) as [[u|e] w1]; [|discriminate].
  intros H. exists u. injection H as Hr Hw. subst w1. split; [reflexivity | exact Hr].
Qed.

(** The query survives every step, whatever the nodes are. *)
Lemma step_query (n : Node) (s s' : AgentState) (t : Target) (w w' : World) :
  step nodes n s w = (Return (t, s'), w') -> query s' = query s.
Proof.
  intros H. apply step_inv in H as (u & _ & Hr).
  apply route_query in Hr. now rewrite Hr, merge_query.
Qed.

Lemma after_query (k : nat) (n : Node) (s s' : AgentState) (t : Target) (w w' : World) :
  after nodes k n s w = (Return (t, s'), w') -> query s' = query s.
Proof.
  revert n s w. induction k as [|k IH]; intros n s w; cbn [after].
  - unfold ret. intros H; now inversion H.
  - unfold mbind at 1.
    destruct (step nodes n s w) as [[[t1 s1]|e] w1] eqn:Hs; [|discriminate].
    apply step_query in Hs. destruct t1 as [n1|].
    + intros H. apply IH in H. congruence.
    + unfold ret. intros H; inversion H; subst. assumption.
Qed.

(** A run is its first [k] steps followed by the rest. *)
Lemma run_from_after (k l : nat) (n : Node) (s : AgentState) (w : World) :
  run_from nodes (k + l) n s w =
    match after nodes k n s w with
    | (Return (Goto n', s'), w') => run_from nodes l n' s' w'
    | (Return (END, s'), w') => (Return s', w')
    | (Raise e, w') => (Raise e, w')
    end.
Proof.
  revert n s w. induction k as [|k IH]; intros n s w.
  - reflexivity.
  - cbn [Nat.add run_from after]. unfold mbind at 1 2.
    destruct (step nodes n s w) as [[[t1 s1]|e] w1]; [|reflexivity].
    destruct t1 as [n1|]; [apply IH | reflexivity].
Qed.

(** A node that raises ends the run there and then, with its exception. *)
Lemma run_from_node_raises (l : nat) (n : Node) (s : AgentState) (w w' : World) (e : exn) :
  nodes n s w = (Raise e, w') -> run_from nodes (S l) n s w = (Raise e, w').
Proof.
  intros H. cbn [run_from]. unfold step, mbind. now rewrite H.
Qed.

(** The counter, once written, stays written. *)
Lemma write_retries_some (s : AgentState) (x : Write) :
  retries s <> None -> retries (write s x) <> None.
Proof. destruct s, x; simpl; congruence. Qed.

Lemma merge_retries_some (u : Update) (s : AgentState) :
  retries s <> None -> retries (merge s u) <> None.
Proof.
  unfold merge. revert s. induction u as [|x u IH]; intros s H; simpl; [assumption|].
  apply IH, write_retries_some, H.
Qed.

Lemma route_retries_some (n : Node) (s s' : AgentState) (t : Target) :
  route n s = Return (t, s') -> retries s <> None -> retries s' <> None.
Proof. intros H Hs. apply route_state in H. now subst s'. Qed.

Lemma after_retries_some (k : nat) (n : Node) (s s' : AgentState) (t : Target)
      (w w' : World) :
  after nodes k n s w = (Return (t, s'), w') -> retries s <> None -> retries s' <> None.
Proof.
  revert n s w. induction k as [|k IH]; intros n s w; cbn [after].
  - unfold ret. intros H; now inversion H.
  - unfold mbind at 1.
    destruct (step nodes n s w) as [[[t1 s1]|e] w1] eqn:Hs; [|discriminate].
    apply step_inv in Hs as (u & _ & Hr). intros H Hsome.
    assert (H1 : retries s1 <> None)
      by (eapply route_retries_some; [eassumption | now apply merge_retries_some]).
    destruct t1 as [n1|].
    + eapply IH; eassumption.
    + unfold ret in H. inversion H; subst. assumption.
Qed.

End RuntimeFacts.

(* ------------------------------------------------------------------ *)
(** ** The compiled graph *)

Section GraphFacts.
Variable env : Collaborators.

Lemma step_critic_raises (s : AgentState) (w : World) :
  exists e w', step (run_node env) critic s w = (Raise e, w').
Proof.
  unfold step, mbind. cbn [run_node].
  destruct (node_critic_raises env s w) as (e & w' & ->). eauto.
Qed.

(** A step of the compiled graph never reaches END. *)
Lemma step_not_END (n : Node) (s s' : AgentState) (w w' : World) :
  step (run_node env) n s w <> (Return (END, s'), w').
Proof.
  intros H. destruct n.
  5: { destruct (step_critic_raises s w) as (e & w1 & He). congruence. }
  all: unfold step, mbind, lift in H;
    destruct (run_node env _ s w) as [[u|e] w1]; [|discriminate];
    match type of H with (?r, _) = _ => destruct r as [[t s1]|] eqn:Hr end;
      inversion H; subst; apply route_END in Hr; discriminate.
Qed.

(** Nor does it ever lead back to the planner. *)
Lemma no_second_pass (k : nat) (n : Node) (s s' : AgentState) (w w' : World) :
  after (run_node env) (S k) n s w <> (Return (Goto planner, s'), w').
Proof.
  revert n s w. induction k as [|k IH]; intros n s w; cbn [after]; unfold mbind at 1;
    destruct (step (run_node env) n s w) as [[[t s1]|e] w1] eqn:Hs; try discriminate.
  - destruct t as [n1|]; [|discriminate]. unfold ret. intros H. inversion H; subst.
    destruct n.
    5: { destruct (step_critic_raises s w) as (e & w2 & He). congruence. }
    all: apply step_inv in Hs as (u & _ & Hr); cbn [route] in Hr; try discriminate.
    unfold decide_path in Hr.
    destruct (intent (merge s u)) as [i|]; cbn [getitem bind] in Hr; [|discriminate].
    destruct (String.eqb i "retrieval"); [|destruct (String.eqb i "calculation")];
      simpl in Hr; discriminate.
  - destruct t as [n1|]; [apply IH | discriminate].
Qed.

(** So the compiled graph never hands a final state back. *)
Lemma run_from_raises (limit : nat) (n : Node) (s : AgentState) (w : World) :
  exists e w', run_from (run_node env) limit n s w = (Raise e, w').
Proof.
  revert n s w. induction limit as [|limit IH]; intros n s w.
  - simpl. unfold raise. eauto.
  - cbn [run_from]. unfold mbind at 1.
    destruct (step (run_node env) n s w) as [[[t s1]|e] w1] eqn:Hs; [|eauto].
    destruct t as [n1|]; [apply IH|].
    exfalso. eapply step_not_END; eassumption.
Qed.

End GraphFacts.

(** C2 (what the code does instead).  The validation node never returns a
    state update: [validate] answers with a three-key dictionary, which the
    node unpacks into two names.  So [is_safe] is never written, from no
    field of the report and from nothing else; for a draft that validates as
    APPROVED the node raises ValueError. *)
Theorem node_critic_stores_nothing (env : Collaborators) (state : AgentState) (w : World) :
  (forall u, fst (node_critic env state w) <> Return u) /\
  (forall draft g,
     draft_response state = Some draft ->
     Guard_from_rail env
       (history w ++ [StreamLog "[Critic] Validating safety constraints..."])%list
       = Return g ->
     fst (node_critic env state w) = Raise too_many_values).
Proof.
  split.
  - intros u. destruct (node_critic_raises env state w) as (e & w' & ->). discriminate.
  - intros draft g Hd Hg. rewrite node_critic_eq, Hd. cbv zeta. now rewrite Hg.
Qed.

(** The report of tests/unit that marks itself HIGH risk is APPROVED by the
    validator, and the node raises on it. *)
Lemma node_critic_stores_nothing_witness :
  validate {| guard := report_guard Stub.loads Stub.mask |} "high-risk report"
    = Return (approved (Stub.report "HIGH")) /\
  fst (node_critic (Stub.env "high-risk report")
         (write (initial_state Stub.manual_query) (Set_draft_response "high-risk report"))
         Stub.fresh)
    = Raise too_many_values.
Proof.
  split; [reflexivity|].
  eapply (proj2 (node_critic_stores_nothing _ _ _)); reflexivity.
Defined.

(** C4 (what the code does instead).  [run_orchestrator] never returns a
    result, neither SUCCESS nor BLOCKED_BY_SAFETY: every run ends with an
    exception. *)
Theorem run_orchestrator_never_returns (env : Collaborators) (query : string) (w : World) :
  exists e w', run_orchestrator env query w = (Raise e, w').
Proof.
  unfold run_orchestrator, app_graph_invoke, mbind at 1.
  destruct (run_from_raises env recursion_limit planner (initial_state query) w)
    as (e & w' & ->).
  eauto.
Qed.

Example run_manual_query :
  fst (run_orchestrator (Stub.env "low-risk report") Stub.manual_query Stub.fresh)
  = Raise too_many_values.
Proof. reflexivity. Qed.

(* ------------------------------------------------------------------ *)
(** ** One pass, when the services answer *)

Section OnePass.
Variable env : Collaborators.
Hypothesis Hclient : forall h, returned (new_ChatOpenAI env h) = true.
Hypothesis Hstore : forall h, returned (new_KnowledgeRetriever env h) = true.
Hypothesis Hmodel : forall h p, returned (llm_invoke env h p) = true.
Hypothesis Hguard : forall h, returned (Guard_from_rail env h) = true.

Lemma passes_unchanged (n : Node) (s : AgentState) (w : World) :
  n <> critic ->
  validation_passes (history (snd (run_node env n s w))) = validation_passes (history w).
Proof. intros Hn. apply emits_count, node_no_parse, Hn. Qed.

Lemma llm_calls_unchanged (n : Node) (s : AgentState) (w : World) :
  n <> synthesizer ->
  llm_calls (history (snd (run_node env n s w))) = llm_calls (history w).
Proof. intros Hn. apply emits_count, node_no_llm, Hn. Qed.

Lemma planner_returns (s : AgentState) (w : World) :
  exists w',
    node_planner env s w =
      (Return [Set_intent (classify_intent (query s)); Set_retries (get_or (retries s) 0)], w').
Proof.
  rewrite node_planner_eq. cbv zeta.
  pose proof (Hclient
    (history w ++ [StreamLog ("[Master Agent] Analyzing query: " ++ query s)])%list) as H.
  destruct (new_ChatOpenAI env _); [eauto | discriminate].
Qed.

Lemma retriever_returns (s : AgentState) (w : World) :
  exists c w', node_retriever env s w = (Return [Set_retrieved_context c], w').
Proof.
  pose proof Hstore as Hkr.
  unfold node_retriever, rag_retriever, get_retriever, retrieve. run_monad.
  destruct (_retriever_instance w) as [i|]; cbn [history _retriever_instance].
  - destruct (retriever_invoke i _ _) as [[|d ds]|e]; eauto.
  - match goal with |- context [new_KnowledgeRetriever env ?h] =>
      specialize (Hkr h); destruct (new_KnowledgeRetriever env h) as [i|]
    end; [|discriminate].
    cbn [history _retriever_instance].
    destruct (retriever_invoke i _ _) as [[|d ds]|e]; eauto.
Qed.

Lemma simulator_returns (s : AgentState) (w : World) :
  exists r w', node_simulator s w = (Return [Set_calculation_result r], w').
Proof.
  unfold node_simulator. run_monad. rewrite calc_pressure_flow_200. eauto.
Qed.

Lemma synthesizer_returns (s : AgentState) (w : World) :
  exists d w', node_synthesizer env s w = (Return [Set_draft_response d], w').
Proof.
  pose proof Hclient as Hllm. pose proof Hmodel as Hinv.
  unfold node_synthesizer, ChatOpenAI. run_monad. cbn [history _retriever_instance].
  match goal with |- context [new_ChatOpenAI env ?h] =>
    specialize (Hllm h); destruct (new_ChatOpenAI env h)
  end; [|discriminate].
  cbn [history _retriever_instance].
  match goal with |- context [llm_invoke env ?h ?p] =>
    specialize (Hinv h p); destruct (llm_invoke env h p)
  end; [eauto | discriminate].
Qed.

Lemma route_planner (s : AgentState) (i : string) :
  intent s = Some i -> route planner s = Return (Goto (branch_of i), s).
Proof.
  intros Hi. cbn [route]. unfold decide_path, branch_of. rewrite Hi. cbn [getitem bind].
  destruct (String.eqb i "retrieval") eqn:E1.
  - apply String.eqb_eq in E1. subst i. reflexivity.
  - destruct (String.eqb i "calculation"); reflexivity.
Qed.

Lemma merge_planner (s : AgentState) (i : string) (r : Z) :
  intent (merge s [Set_intent i; Set_retries r]) = Some i /\
  retries (merge s [Set_intent i; Set_retries r]) = Some r /\
  draft_response (merge s [Set_intent i; Set_retries r]) = draft_response s.
Proof. destruct s; repeat split. Qed.

Lemma merge_draft (s : AgentState) (d : string) :
  draft_response (merge s [Set_draft_response d]) = Some d.
Proof. destruct s; reflexivity. Qed.

(** The tool node the router picked returns, and the synthesizer is next. *)
Lemma tool_returns (i : string) (s : AgentState) (w : World) :
  exists u w',
    run_node env (branch_of i) s w = (Return u, w') /\
    route (branch_of i) (merge s u) = Return (Goto synthesizer, merge s u).
Proof.
  unfold branch_of. destruct (String.eqb i "calculation"); cbn [run_node].
  - destruct (simulator_returns s w) as (r & w' & H). rewrite H. eauto.
  - destruct (retriever_returns s w) as (c & w' & H). rewrite H. eauto.
Qed.

Lemma branch_not_critic (i : string) : branch_of i <> critic.
Proof. unfold branch_of. destruct (String.eqb i "calculation"); discriminate. Qed.

Lemma branch_not_synthesizer (i : string) : branch_of i <> synthesizer.
Proof. unfold branch_of. destruct (String.eqb i "calculation"); discriminate. Qed.

(** The first two steps of a pass: the planner, then the tool. *)
Lemma two_steps (k : nat) (s : AgentState) (w : World) :
  exists s2 w2,
    run_from (run_node env) (2 + k) planner s w
      = run_from (run_node env) k synthesizer s2 w2 /\
    query s2 = query s /\
    validation_passes (history w2) = validation_passes (history w) /\
    llm_calls (history w2) = llm_calls (history w).
Proof.
  cbn [Nat.add run_from]. unfold step.
  pose proof (passes_unchanged planner s w) as P1.
  pose proof (llm_calls_unchanged planner s w) as L1.
  destruct (planner_returns s w) as (w1 & H1).
  unfold mbind at 1 2. cbn [run_node] in *. rewrite H1 in *. cbn [lift snd] in *.
  destruct (merge_planner s (classify_intent (query s)) (get_or (retries s) 0))
    as (Hi & _ & _).
  rewrite (route_planner _ _ Hi).
  pose proof (merge_query [Set_intent (classify_intent (query s));
                           Set_retries (get_or (retries s) 0)] s) as Q1.
  set (s1 := merge s _) in *. clearbody s1.
  set (b := branch_of (classify_intent (query s))) in *.
  pose proof (passes_unchanged b s1 w1 (branch_not_critic _)) as P2.
  pose proof (llm_calls_unchanged b s1 w1 (branch_not_synthesizer _)) as L2.
  destruct (tool_returns (classify_intent (query s)) s1 w1) as (u & w2 & H2 & R2).
  fold b in H2, R2.
  unfold mbind at 1 2. rewrite H2 in *. cbn [lift snd] in *. rewrite R2.
  exists (merge s1 u), w2. split; [reflexivity|].
  rewrite merge_query.
  repeat split; [congruence | rewrite P2; apply P1; discriminate | ].
  rewrite L2. apply L1. discriminate.
Qed.

(** From the planner, the fourth step is the critic's, and it raises. *)
Lemma one_pass (k : nat) (s : AgentState) (w : World) :
  exists w',
    run_from (run_node env) (4 + k) planner s w = (Raise too_many_values, w') /\
    validation_passes (history w') = S (validation_passes (history w)).
Proof.
  change (4 + k)%nat with (2 + (2 + k))%nat.
  destruct (two_steps (2 + k) s w) as (s2 & w2 & -> & _ & P2 & _).
  cbn [Nat.add run_from]. unfold step.
  (* synthesizer *)
  pose proof (passes_unchanged synthesizer s2 w2) as P3.
  destruct (synthesizer_returns s2 w2) as (d & w3 & H3).
  unfold mbind at 1 2. cbn [run_node] in *. rewrite H3 in *. cbn [lift route snd] in *.
  pose proof (merge_draft s2 d) as Hd.
  set (s3 := merge s2 _) in *. clearbody s3.
  (* critic *)
  unfold mbind at 1 2. cbn [run_node]. rewrite node_critic_eq, Hd. cbv zeta.
  pose proof Hguard as Hg.
  match goal with |- context [Guard_from_rail env ?h] =>
    specialize (Hg h); destruct (Guard_from_rail env h)
  end; [|discriminate].
  eexists; split; [reflexivity|]. cbn [history].
  unfold validation_passes in *. rewrite !filter_app, !length_app. simpl.
  rewrite P3, P2 by discriminate. lia.
Qed.

End OnePass.

(** C1 (what the code does instead).  No run ever comes back to the planner:
    the edge for a rejection, the increment of the counter and the bound of
    [check_safety] are never exercised.  When the external services answer,
    the run ends in its first validation pass: the critic raises ValueError
    on unpacking the validator's answer, and the run reaches neither
    terminal outcome. *)
Theorem first_validation_aborts_run (env : Collaborators) (query : string) (w : World) :
  (forall k s w',
     after (run_node env) (S k) planner (initial_state query) w
       <> (Return (Goto planner, s), w')) /\
  (answering env ->
   exists w',
     run_orchestrator env query w = (Raise too_many_values, w') /\
     validation_passes (history w') = S (validation_passes (history w))).
Proof.
  split; [intros k s w'; apply no_second_pass|].
  intros (Hclient & Hstore & Hmodel & Hguard).
  unfold run_orchestrator, app_graph_invoke, mbind at 1.
  destruct (one_pass env Hclient Hstore Hmodel Hguard 21 (initial_state query) w)
    as (w' & H & Hn).
  change (4 + 21)%nat with recursion_limit in H. rewrite H. eauto.
Qed.

Lemma stub_answering (draft : string) : answering (Stub.env draft).
Proof. repeat split. Qed.

Lemma first_validation_aborts_run_witness :
  answering (Stub.env "low-risk report") /\
  exists w',
    run_orchestrator (Stub.env "low-risk report") Stub.manual_query Stub.fresh
      = (Raise too_many_values, w') /\
    validation_passes (history w') = S (validation_passes (history Stub.fresh)).
Proof.
  split; [apply stub_answering|].
  apply (proj2 (first_validation_aborts_run _ _ _)), stub_answering.
Defined.


(* ------------------------------------------------------------------ *)
(** ** The planner across passes *)

Lemma planner_step (env : Collaborators) (nodes : Node -> AgentState -> M Update)
      (s s1 : AgentState) (t : Target) (w w1 : World) :
  nodes planner = node_planner env ->
  step nodes planner s w = (Return (t, s1), w1) ->
  s1 = merge s [Set_intent (classify_intent (query s)); Set_retries (get_or (retries s) 0)] /\
  t = Goto (branch_of (classify_intent (query s))).
Proof.
  intros Hpl Hs. apply step_inv in Hs as (u & Hu & Hr).
  rewrite Hpl in Hu. apply node_planner_returns in Hu. subst u.
  destruct (merge_planner s (classify_intent (query s)) (get_or (retries s) 0)) as (Hi & _).
  rewrite (route_planner _ _ Hi) in Hr. inversion Hr. auto.
Qed.

(** C9. In a run of a graph whose planner is [node_planner], whenever the
    run is back at the planner (after any number of steps, so after any
    number of rejections, whatever the other nodes do) the query is the one
    the run started with, the planner writes the same intent as on the first
    pass, the classification of that query, and the router takes the same
    branch. *)
Theorem intent_stable_across_passes
        (env : Collaborators) (nodes : Node -> AgentState -> M Update)
        (q : string) (k : nat) (s : AgentState) (w w' : World) :
  nodes planner = node_planner env ->
  after nodes k planner (initial_state q) w = (Return (Goto planner, s), w') ->
  query s = q /\
  forall t s1 w1,
    step nodes planner s w' = (Return (t, s1), w1) ->
    intent s1 = Some (classify_intent q) /\
    t = Goto (branch_of (classify_intent q)).
Proof.
  intros Hpl Hk.
  assert (Hq : query s = q) by (apply after_query in Hk; exact Hk).
  split; [exact Hq|].
  intros t s1 w1 Hs.
  destruct (planner_step env nodes s s1 t w' w1 Hpl Hs) as (-> & ->).
  rewrite Hq. split; [|reflexivity].
  apply merge_planner.
Qed.

(** Two passes with a critic that rejects: the second pass classifies and
    routes as the first. *)
Lemma intent_stable_across_passes_witness :
  let nodes := Stub.nodes_rejecting (Stub.env "low-risk report") in
  after nodes 4 planner (initial_state Stub.manual_query) Stub.fresh
    = (Return (Goto planner, Stub.state_rejected_once), Stub.world_rejected_once) /\
  query Stub.state_rejected_once = Stub.manual_query /\
  forall t s1 w1,
    step nodes planner Stub.state_rejected_once Stub.world_rejected_once
      = (Return (t, s1), w1) ->
    intent s1 = Some "retrieval" /\ t = Goto retriever.
Proof.
  intros nodes.
  split; [vm_compute; reflexivity|].
  apply (intent_stable_across_passes (Stub.env "low-risk report") nodes
           Stub.manual_query 4 _ Stub.fresh Stub.world_rejected_once);
    [reflexivity | vm_compute; reflexivity].
Defined.

(** C10. The update of [node_planner] carries the retry counter over: the
    counter after the planner is the one before it, and 0 when the key was
    absent.  The key is absent only before the first planner pass.  So
    whenever a run is back at the planner, after a rejection or after any
    number of them, the state holds a counter and the planner's update
    writes that very value: it neither resets nor lowers it. *)
Theorem planner_carries_retries
        (env : Collaborators) (nodes : Node -> AgentState -> M Update) :
  nodes planner = node_planner env ->
  (forall s w u w',
     node_planner env s w = (Return u, w') ->
     retries (merge s u) = Some (get_or (retries s) 0)) /\
  (forall q k t s w w',
     after nodes (S k) planner (initial_state q) w = (Return (t, s), w') ->
     retries s <> None) /\
  (forall q k s w w',
     after nodes (S k) planner (initial_state q) w = (Return (Goto planner, s), w') ->
     exists r,
       retries s = Some r /\
       forall w1 u w2,
         node_planner env s w1 = (Return u, w2) ->
         retries (merge s u) = Some r).
Proof.
  intros Hpl.
  assert (H1 : forall s w u w',
             node_planner env s w = (Return u, w') ->
             retries (merge s u) = Some (get_or (retries s) 0)).
  { intros s w u w' Hu. apply node_planner_returns in Hu. subst u.
    apply merge_planner. }
  assert (H2 : forall q k t s w w',
             after nodes (S k) planner (initial_state q) w = (Return (t, s), w') ->
             retries s <> None).
  { intros q k t s w w'. cbn [after]. unfold mbind at 1.
    destruct (step nodes planner (initial_state q) w) as [[[t1 s1]|e] w1] eqn:Hs;
      [|discriminate].
    destruct (planner_step env nodes _ _ _ _ _ Hpl Hs) as (Hs1 & _).
    assert (Hsome : retries s1 <> None).
    { subst s1. destruct (merge_planner (initial_state q)
        (classify_intent (query (initial_state q)))
        (get_or (retries (initial_state q)) 0)) as (_ & Hr & _).
      rewrite Hr. discriminate. }
    destruct t1 as [n1|].
    + intros H. eapply after_retries_some; eassumption.
    + unfold ret. intros H; inversion H; subst; assumption. }
  split; [exact H1|]. split; [exact H2|].
  intros q k s w w' Hk. apply H2 in Hk.
  destruct (retries s) as [r|] eqn:Er; [|contradiction].
  exists r. split; [reflexivity|].
  intros w1 u w2 Hu. apply H1 in Hu. now rewrite Hu, Er.
Qed.

(** After a rejection the run is back at the planner with the counter the
    first planner pass wrote, and the planner of the second pass leaves it
    as it is. *)
Lemma planner_carries_retries_witness :
  let env := Stub.env "low-risk report" in
  let nodes := Stub.nodes_rejecting env in
  after nodes 4 planner (initial_state Stub.manual_query) Stub.fresh
    = (Return (Goto planner, Stub.state_rejected_once), Stub.world_rejected_once) /\
  exists r,
    retries Stub.state_rejected_once = Some r /\
    forall w1 u w2,
      node_planner env Stub.state_rejected_once w1 = (Return u, w2) ->
      retries (merge Stub.state_rejected_once u) = Some r.
Proof.
  intros env nodes.
  assert (H : after nodes 4 planner (initial_state Stub.manual_query) Stub.fresh
              = (Return (Goto planner, Stub.state_rejected_once),
                 Stub.world_rejected_once))
    by (vm_compute; reflexivity).
  split; [exact H|].
  exact (proj2 (proj2 (planner_carries_retries env nodes eq_refl))
           Stub.manual_query 3%nat Stub.state_rejected_once Stub.fresh
           Stub.world_rejected_once H).
Defined.

(* ------------------------------------------------------------------ *)
(** ** Routing *)

Section Routing.
Variable env : Collaborators.








End Routing.



(** The flow query does go to the calculation engine. *)
Example flow_query_calculates :
  calculations
    (history (snd (run_orchestrator (Stub.env "low-risk report") Stub.flow_query Stub.fresh)))
  = 1%nat.
Proof. vm_compute. reflexivity. Qed.

(* ------------------------------------------------------------------ *)
(** ** When a collaborator raises *)

Section CollaboratorRaises.
Variable env : Collaborators.
Variable e : exn.

Lemma planner_client_raises (s : AgentState) (w : World) :
  (forall h, new_ChatOpenAI env h = Raise e) ->
  exists w', node_planner env s w = (Raise e, w') /\
             llm_calls (history w') = llm_calls (history w).
Proof.
  intros Hdown.
  pose proof (llm_calls_unchanged env planner s w ltac:(discriminate)) as L.
  cbn [run_node] in L. revert L.
  rewrite node_planner_eq. cbv zeta. rewrite Hdown. cbn [snd]. eauto.
Qed.

Lemma retriever_store_raises (s : AgentState) (w : World) :
  (forall h, new_KnowledgeRetriever env h = Raise e) ->
  _retriever_instance w = None ->
  exists w', node_retriever env s w = (Raise e, w').
Proof.
  intros Hdown Hnone.
  unfold node_retriever, rag_retriever, get_retriever. run_monad.
  cbn [history _retriever_instance]. rewrite Hnone, Hdown. eauto.
Qed.

Lemma synthesizer_model_raises (s : AgentState) (w : World) :
  (forall h, returned (new_ChatOpenAI env h) = true) ->
  (forall h p, llm_invoke env h p = Raise e) ->
  exists w', node_synthesizer env s w = (Raise e, w') /\
             llm_calls (history w') = S (llm_calls (history w)).
Proof.
  intros Hclient Hdown.
  unfold node_synthesizer, ChatOpenAI. run_monad. cbn [history _retriever_instance].
  match goal with |- context [new_ChatOpenAI env ?h] =>
    specialize (Hclient h); destruct (new_ChatOpenAI env h)
  end; [|discriminate].
  cbn [history _retriever_instance]. rewrite Hdown.
  eexists; split; [reflexivity|]. cbn [history].
  unfold llm_calls. rewrite !filter_app, !length_app. simpl. lia.
Qed.

(** The simulator has no handler either: what the calculation returns or
    raises is what the node returns or raises. *)
Lemma node_simulator_eq (s : AgentState) (w : World) :
  node_simulator s w =
    (match calc_pressure_flow (PyInt 200) default_viscosity with
     | Return r => Return [Set_calculation_result r]
     | Raise x => Raise x
     end,
     {| history := ((history w ++ [StreamLog "[Sim Tool] Running physics simulation..."])
                    ++ [CalcPressureFlow (PyInt 200)])%list;
        _retriever_instance := _retriever_instance w |}).
Proof.
  unfold node_simulator. run_monad.
  destruct (calc_pressure_flow (PyInt 200) default_viscosity); reflexivity.
Qed.

Lemma run_orchestrator_raises (q : string) (w w' : World) (x : exn) :
  app_graph_invoke env (initial_state q) w = (Raise x, w') ->
  run_orchestrator env q w = (Raise x, w').
Proof. intros H. unfold run_orchestrator, mbind at 1. now rewrite H. Qed.

Lemma process_query_raises (request : Main.QueryRequest) (w w' : World) (x : exn) :
  run_orchestrator env (Main.query request) w = (Raise x, w') ->
  fst (Main.process_query env request w) = Raise (Main.HTTPException_500 "Internal Agent Error").
Proof.
  intros H. unfold Main.process_query, try_except, mbind at 1. rewrite H. reflexivity.
Qed.

End CollaboratorRaises.

(** C8, as the code has it.  An exception out of a node is not caught by
    the graph: wherever the run stands, it ends there with that very
    exception and the world as the failing call left it.  So when the
    language model raises, [run_orchestrator] raises the model's exception
    after one call of the model; when the chat client cannot be built, the
    run raises that exception before any call of the model; when the
    retriever cannot be built, a retrieval pass raises that exception.  The
    simulator node passes on whatever the calculation returns or raises.
    [process_query] answers any exception of the run with HTTP 500. *)
Theorem collaborator_exception_propagates (env : Collaborators) (e : exn) :
  (forall nodes k l n0 s0 w0 n s w w',
     after nodes k n0 s0 w0 = (Return (Goto n, s), w) ->
     nodes n s w = (Raise e, w') ->
     run_from nodes (k + S l) n0 s0 w0 = (Raise e, w')) /\
  ((forall h, returned (new_ChatOpenAI env h) = true) ->
   (forall h, returned (new_KnowledgeRetriever env h) = true) ->
   (forall h p, llm_invoke env h p = Raise e) ->
   forall q w, exists w',
     run_orchestrator env q w = (Raise e, w') /\
     llm_calls (history w') = S (llm_calls (history w))) /\
  ((forall h, new_ChatOpenAI env h = Raise e) ->
   forall q w, exists w',
     run_orchestrator env q w = (Raise e, w') /\
     llm_calls (history w') = llm_calls (history w)) /\
  ((forall h, new_KnowledgeRetriever env h = Raise e) ->
   forall s w, _retriever_instance w = None ->
     exists w', run_from (run_node env) recursion_limit retriever s w = (Raise e, w')) /\
  (forall s w,
     fst (node_simulator s w) =
       match calc_pressure_flow (PyInt 200) default_viscosity with
       | Return r => Return [Set_calculation_result r]
       | Raise x => Raise x
       end) /\
  (forall request w x w',
     run_orchestrator env (Main.query request) w = (Raise x, w') ->
     fst (Main.process_query env request w)
       = Raise (Main.HTTPException_500 "Internal Agent Error")).
Proof.
  split; [|split; [|split; [|split; [|split]]]].
  - intros nodes k l n0 s0 w0 n s w w' Hk Hn.
    rewrite run_from_after, Hk. apply run_from_node_raises, Hn.
  - intros Hclient Hstore Hdown q w.
    destruct (two_steps env Hclient Hstore 23 (initial_state q) w)
      as (s2 & w2 & Hrun & _ & _ & L2).
    destruct (synthesizer_model_raises env e s2 w2 Hclient Hdown) as (w3 & H3 & L3).
    exists w3. split; [|congruence].
    apply run_orchestrator_raises. unfold app_graph_invoke.
    change recursion_limit with (2 + 23)%nat. rewrite Hrun.
    apply (run_from_node_raises (run_node env) 22 synthesizer). exact H3.
  - intros Hdown q w.
    destruct (planner_client_raises env e (initial_state q) w Hdown) as (w1 & H1 & L1).
    exists w1. split; [|exact L1].
    apply run_orchestrator_raises.
    apply (run_from_node_raises (run_node env) 24 planner). exact H1.
  - intros Hdown s w Hnone.
    destruct (retriever_store_raises env e s w Hdown Hnone) as (w1 & H1).
    exists w1. apply (run_from_node_raises (run_node env) 24 retriever). exact H1.
  - intros s w. now rewrite node_simulator_eq.
  - intros request w x w'. apply process_query_raises.
Qed.

Lemma collaborator_exception_propagates_witness :
  exists w',
    run_orchestrator Stub.env_llm_down Stub.plain_query Stub.fresh
      = (Raise Stub.connection_error, w') /\
    llm_calls (history w') = 1%nat.
Proof.
  destruct (proj1 (proj2 (collaborator_exception_propagates
                            Stub.env_llm_down Stub.connection_error))
              (fun _ => eq_refl) (fun _ => eq_refl) (fun _ _ => eq_refl)
              Stub.plain_query Stub.fresh) as (w' & H & L).
  exists w'. split; [exact H | exact L].
Defined.

(** C8, as the specification words it, fails: the language model is down,
    the run ends with the model's own exception, and that is no
    [CollaboratorFailure] and names no stage; what [process_query] raises in
    turn is none either. *)
Lemma collaborator_failure_not_wrapped :
  (forall h p, llm_invoke Stub.env_llm_down h p = Raise Stub.connection_error) /\
  fst (run_orchestrator Stub.env_llm_down Stub.plain_query Stub.fresh)
    = Raise Stub.connection_error /\
  fst (Main.process_query Stub.env_llm_down
         {| Main.query := Stub.plain_query; Main.user_id := "engineer_01" |} Stub.fresh)
    = Raise (Main.HTTPException_500 "Internal Agent Error") /\
  ~ is_CollaboratorFailure Stub.connection_error /\
  ~ is_CollaboratorFailure (Main.HTTPException_500 "Internal Agent Error").
Proof.
  repeat split; try reflexivity; unfold is_CollaboratorFailure; discriminate.
Qed.

(* ------------------------------------------------------------------ *)
(** ** The retry counter in a run

    What the graph does to the counter, for any node functions: the planner
    is [node_planner], and the other nodes leave the counter alone (as the
    tools, the synthesizer and a critic writing [is_safe] and
    [safety_feedback] do). *)

Section RetryPolicy.
Variable env : Collaborators.
Variable nodes : Node -> AgentState -> M Update.
Hypothesis Hplanner : nodes planner = node_planner env.
Hypothesis Hframe :
  forall n s w u w', n <> planner -> nodes n s w = (Return u, w') ->
                     retries (merge s u) = retries s.

Lemma after_add (k l : nat) (n : Node) (s : AgentState) (w : World) :
  after nodes (k + l) n s w =
    match after nodes k n s w with
    | (Return (Goto n', s'), w') => after nodes l n' s' w'
    | other => other
    end.
Proof.
  revert n s w. induction k as [|k IH]; intros n s w; [reflexivity|].
  cbn [Nat.add after]. unfold mbind at 1 2.
  destruct (step nodes n s w) as [[[t1 s1]|e] w1]; [|reflexivity].
  destruct t1 as [n1|]; [apply IH | reflexivity].
Qed.






End RetryPolicy.



(* ================================================================== *)
(** * Further properties of the code *)

(* ------------------------------------------------------------------ *)
(** ** app/tools/simulator.py *)

Lemma Return_inj {A} (a b : A) : Return a = Return b -> a = b.
Proof. intros H. now inversion H. Qed.

Lemma Raise_inj {A} (a b : exn) : @Raise A a = Raise b -> a = b.
Proof. intros H. now inversion H. Qed.

(** X1. Whenever [calc_pressure_flow] returns, the record echoes the flow
    rate it was given; the status is one of the three tags, and it is ERROR
    exactly when the flow rate is negative; there is a warning text exactly
    when the status is not NOMINAL; and an ERROR record carries the pressure
    0.0. *)
Theorem calc_pressure_flow_status
        (flow_rate : pynum) (viscosity : spec_float) (r : SimulationResult) :
  calc_pressure_flow flow_rate viscosity = Return r ->
  input_flow_rate r = flow_rate /\
  In (Simulator.status r) ["ERROR"; "NOMINAL"; "HIGH_PRESSURE_WARNING"] /\
  (Simulator.status r = "ERROR" <-> negative flow_rate) /\
  (warning r = None <-> Simulator.status r = "NOMINAL") /\
  (Simulator.status r = "ERROR" -> estimated_pressure_psi r = S754_zero false).
Proof.
  unfold calc_pressure_flow.
  pose proof (lt0_negative flow_rate) as Hneg.
  destruct (lt0 flow_rate).
  - intros H. apply Return_inj in H. subst r.
    cbn [input_flow_rate Simulator.status warning estimated_pressure_psi].
    split; [reflexivity|]. split; [simpl; auto|].
    split; [split; [intros _; apply Hneg; reflexivity | reflexivity]|].
    split; [split; discriminate | reflexivity].
  - assert (Hn : ~ negative flow_rate) by (intros H; apply Hneg in H; discriminate).
    unfold bind.
    destruct (pow2 (fdiv PIPE_DIAMETER_M (float_of_Z 2))) as [d2|]; [|discriminate].
    destruct (as_float flow_rate) as [fr|]; [|discriminate].
    destruct (pow2 _) as [v2|]; [|discriminate].
    destruct (SFltb _ _); intros H; apply Return_inj in H; subst r;
      cbn [input_flow_rate Simulator.status warning estimated_pressure_psi];
      (split; [reflexivity|]); (split; [simpl; auto|]);
      (split; [split; [discriminate | contradiction]|]);
      (split; [split; [discriminate || reflexivity | discriminate || reflexivity]
              | discriminate]).
Qed.

Lemma calc_pressure_flow_status_witness :
  exists r,
    calc_pressure_flow (PyInt 20000) default_viscosity = Return r /\
    input_flow_rate r = PyInt 20000 /\
    Simulator.status r = "HIGH_PRESSURE_WARNING" /\
    warning r <> None.
Proof.
  destruct (calc_pressure_flow (PyInt 20000) default_viscosity) as [r|e] eqn:H;
    [|vm_compute in H; discriminate H].
  exists r. split; [reflexivity|].
  destruct (calc_pressure_flow_status _ _ _ H) as (Hecho & _ & _ & Hwarn & _).
  split; [exact Hecho|].
  assert (Hs : Simulator.status r = "HIGH_PRESSURE_WARNING")
    by (vm_compute in H; inversion H; reflexivity).
  split; [exact Hs|].
  intros Hw. apply Hwarn in Hw. rewrite Hs in Hw. discriminate.
Defined.

(** The validation lets NaN through: the result is NOMINAL with a NaN
    pressure. *)
Example calc_pressure_flow_nan :
  calc_pressure_flow (PyFloat S754_nan) default_viscosity =
    Return {| input_flow_rate := PyFloat S754_nan;
              estimated_pressure_psi := S754_nan;
              status := "NOMINAL";
              warning := None |}.
Proof. vm_compute. reflexivity. Qed.

(** X2. [calc_pressure_flow] can raise, and then it raises OverflowError on
    a flow rate that is not negative: from squaring a velocity too large for
    a [float], or from converting an [int] too large for a [float].  It
    raises nothing else. *)
Theorem calc_pressure_flow_raises
        (flow_rate : pynum) (viscosity : spec_float) (e : exn) :
  calc_pressure_flow flow_rate viscosity = Raise e ->
  ~ negative flow_rate /\
  (e = Exn "OverflowError" "(34, 'Numerical result out of range')" \/
   (e = Exn "OverflowError" "int too large to convert to float" /\
    exists z, flow_rate = PyInt z)).
Proof.
  unfold calc_pressure_flow.
  pose proof (lt0_negative flow_rate) as Hneg.
  destruct (lt0 flow_rate); [discriminate|].
  assert (Hn : ~ negative flow_rate) by (intros H; apply Hneg in H; discriminate).
  unfold bind. cbv zeta.
  assert (Hpow : forall x e', pow2 x = Raise e' ->
                  e' = Exn "OverflowError" "(34, 'Numerical result out of range')").
  { intros x e'. unfold pow2. destruct x; destruct (fmul _ _); intros H; now inversion H. }
  destruct (pow2 (fdiv PIPE_DIAMETER_M (float_of_Z 2))) as [d2|e0] eqn:H0.
  2: { intros H. apply Hpow in H0. apply Raise_inj in H. subst e e0.
       split; [exact Hn|]. now left. }
  destruct (as_float flow_rate) as [fr|e1] eqn:H1.
  2: { intros H. apply Raise_inj in H. subst e1. split; [exact Hn|]. right.
       destruct flow_rate as [z|f]; [|discriminate].
       cbn [as_float] in H1.
       destruct (float_of_Z z); try discriminate H1.
       apply Raise_inj in H1. subst e. eauto. }
  destruct (pow2 (fdiv fr _)) as [v2|e2] eqn:H2.
  2: { intros H. apply Hpow in H2. apply Raise_inj in H. subst e e2.
       split; [exact Hn|]. now left. }
  destruct (SFltb _ _); discriminate.
Qed.

(** 1e200 as a [float], and 2 ** 1024 as an [int]. *)
Lemma calc_pressure_flow_raises_witness :
  calc_pressure_flow (PyFloat (S754_finite false 5883593420661338 612)) default_viscosity
    = Raise (Exn "OverflowError" "(34, 'Numerical result out of range')") /\
  calc_pressure_flow (PyInt (2 ^ 1024)) default_viscosity
    = Raise (Exn "OverflowError" "int too large to convert to float") /\
  ~ negative (PyInt (2 ^ 1024)).
Proof.
  split; [vm_compute; reflexivity|]. split; [vm_compute; reflexivity|].
  apply (calc_pressure_flow_raises (PyInt (2 ^ 1024)) default_viscosity
           (Exn "OverflowError" "int too large to convert to float")).
  vm_compute. reflexivity.
Defined.

(* ------------------------------------------------------------------ *)
(** ** app/tools/retriever.py *)

Lemma contains_app (n pre post : string) : contains n (pre ++ n ++ post) = true.
Proof. apply contains_spec. now exists pre, post. Qed.

Lemma append_assoc (a b c : string) : ((a ++ b) ++ c)%string = (a ++ b ++ c)%string.
Proof. induction a as [|x a IH]; simpl; [reflexivity | now rewrite IH]. Qed.

Lemma append_nil_r (a : string) : (a ++ "")%string = a.
Proof. induction a as [|x a IH]; simpl; [reflexivity | now rewrite IH]. Qed.

(** Every part occurs in the joined text. *)
Lemma join_contains (sep : string) (parts : list string) (p : string) :
  In p parts -> contains p (join sep parts) = true.
Proof.
  induction parts as [|x [|y rest] IH]; intros Hin.
  - destruct Hin.
  - destruct Hin as [->|[]]. cbn [join].
    rewrite <- (append_nil_r p) at 2. apply (contains_app p "" "").
  - change (join sep (x :: y :: rest)) with (x ++ sep ++ join sep (y :: rest))%string.
    destruct Hin as [->|Hin].
    + apply (contains_app p "").
    + specialize (IH Hin). apply contains_spec in IH as (pre & post & ->).
      apply contains_spec. exists (x ++ sep ++ pre)%string, post.
      now rewrite !append_assoc.
Qed.

(** X3. [KnowledgeRetriever.retrieve] never raises and queries the store
    exactly once.  When the store raises, the text is "Error retrieving
    data: " followed by the exception's text; when it finds nothing, the
    text is "No relevant manuals found."; otherwise the page content of
    every document found occurs in the text. *)
Theorem retrieve_never_raises (self : KnowledgeRetriever) (q : string) (w : World) :
  exists text,
    retrieve self q w =
      (Return text,
       {| history := history w ++ [RetrieverInvoke q];
          _retriever_instance := _retriever_instance w |}) /\
    match retriever_invoke self (history w) q with
    | Raise e => text = ("Error retrieving data: " ++ exc_str e)%string
    | Return [] => text = "No relevant manuals found."
    | Return docs => forall d, In d docs -> contains d text = true
    end.
Proof.
  unfold retrieve. run_monad.
  destruct (retriever_invoke self (history w) q) as [[|d ds]|e].
  - eexists. split; reflexivity.
  - eexists. split; [reflexivity|]. intros d0 Hin. now apply join_contains.
  - eexists. split; reflexivity.
Qed.

Section Singleton.
Variable env : Collaborators.

(** X4. The retriever is a singleton.  With an instance in place
    [get_retriever] returns it and builds nothing; without one it builds
    one, and keeps it exactly when the constructor returned; so a second
    call after a successful one returns the same instance and leaves the
    process untouched.  When the constructor raises, its exception comes
    out unchanged and the next call tries again. *)
Theorem get_retriever_singleton (w : World) :
  (forall i, _retriever_instance w = Some i -> get_retriever env w = (Return i, w)) /\
  (_retriever_instance w = None ->
   match new_KnowledgeRetriever env (history w) with
   | Return i =>
       exists w1,
         get_retriever env w = (Return i, w1) /\
         _retriever_instance w1 = Some i /\
         get_retriever env w1 = (Return i, w1)
   | Raise e =>
       exists w1,
         get_retriever env w = (Raise e, w1) /\
         _retriever_instance w1 = None
   end).
Proof.
  split.
  - intros i Hi. unfold get_retriever. run_monad. now rewrite Hi.
  - intros Hnone. unfold get_retriever. run_monad. rewrite Hnone.
    destruct (new_KnowledgeRetriever env (history w)) as [i|e].
    + eexists. split; [reflexivity|]. split; reflexivity.
    + eexists. split; [reflexivity|]. exact Hnone.
Qed.

(** X5. A failure of the vector store does not stop the retrieval node: the
    node raises only when no retriever exists yet and building one raises,
    and then with that exception.  In every other case it returns a context,
    whatever the store does. *)
Theorem node_retriever_raises_iff (s : AgentState) (w : World) (e : exn) :
  (exists w', node_retriever env s w = (Raise e, w')) <->
  (_retriever_instance w = None /\
   new_KnowledgeRetriever env
     (history w ++ [StreamLog ("[RAG Tool] Searching manuals for: " ++ query s)%string;
                    RagRetriever (query s)]) = Raise e).
Proof.
  unfold node_retriever, rag_retriever, get_retriever, retrieve. run_monad.
  cbn [history _retriever_instance]. rewrite <- !app_assoc. cbn [app].
  destruct (_retriever_instance w) as [i|].
  - split.
    + intros (w' & H). destruct (retriever_invoke i _ _) as [[|d ds]|e0]; discriminate H.
    + intros (H & _). discriminate H.
  - destruct (new_KnowledgeRetriever env _) as [i|e0].
    + cbn [history _retriever_instance]. split.
      * intros (w' & H). destruct (retriever_invoke i _ _) as [[|d ds]|e1]; discriminate H.
      * intros (_ & H). discriminate H.
    + split.
      * intros (w' & H). split; [reflexivity|]. now inversion H.
      * intros (_ & H). apply Raise_inj in H. subst e0. eauto.
Qed.

End Singleton.

(* ------------------------------------------------------------------ *)
(** ** app/agents/orchestrator.py: the edges *)

(** X6. The two path maps cover every label their edge function returns:
    following an edge fails only on a key missing from the state, KeyError
    'intent' out of the planner, KeyError 'is_safe' or (for an unsafe draft)
    KeyError 'retries' out of the critic.  Out of the planner, the intent
    "calculation" leads to the simulator and every other string, known or
    not, to the retriever. *)
Theorem route_fails_only_on_missing_key (n : Node) (s : AgentState) :
  (forall i, n = planner -> intent s = Some i ->
     route n s = Return (Goto (if String.eqb i "calculation" then simulator else retriever), s)) /\
  (forall e, route n s = Raise e ->
     (n = planner /\ intent s = None /\ e = KeyError "intent") \/
     (n = critic /\ is_safe s = None /\ e = KeyError "is_safe") \/
     (n = critic /\ retries s = None /\ e = KeyError "retries" /\
      exists v, is_safe s = Some v /\ truthy v = false)).
Proof.
  split.
  - intros i -> Hi. apply (route_planner s i Hi).
  - intros e. destruct n; cbn [route]; try discriminate.
    + unfold decide_path. destruct (intent s) as [i|]; cbn [getitem bind].
      * destruct (String.eqb i "retrieval"); [|destruct (String.eqb i "calculation")];
          simpl; discriminate.
      * intros H. apply Raise_inj in H. subst e. now left.
    + unfold check_safety. destruct (is_safe s) as [v|]; cbn [getitem bind].
      * destruct (truthy v) eqn:Hv; [simpl; discriminate|].
        destruct (retries s) as [r|]; cbn [getitem bind].
        -- destruct (2 <=? r); simpl; discriminate.
        -- intros H. apply Raise_inj in H. subst e. right. right.
           repeat split. now exists v.
      * intros H. apply Raise_inj in H. subst e. right. now left.
Qed.

Lemma route_fails_only_on_missing_key_witness :
  route planner (write (initial_state Stub.plain_query) (Set_intent "no such intent"))
    = Return (Goto retriever,
              write (initial_state Stub.plain_query) (Set_intent "no such intent")) /\
  route critic (initial_state Stub.plain_query) = Raise (KeyError "is_safe") /\
  (is_safe (initial_state Stub.plain_query) = None).
Proof.
  split.
  - apply (proj1 (route_fails_only_on_missing_key planner _) "no such intent");
      reflexivity.
  - split; [reflexivity|].
    destruct (proj2 (route_fails_only_on_missing_key critic
                       (initial_state Stub.plain_query))
                (KeyError "is_safe") eq_refl)
      as [(H & _)|[(_ & H & _)|(_ & _ & _ & v & H & _)]];
      [discriminate H | exact H | discriminate H].
Defined.

(** X7. [check_safety] touches nothing but the counter.  A truthy [is_safe]
    is approved without a look at the counter; otherwise a counter of 2 or
    more ends the run and the state is left as it is, and a counter below 2
    is incremented by exactly one.  So a counter that is at most 2 stays at
    most 2. *)
Theorem check_safety_counter (s s' : AgentState) (label : string) :
  check_safety s = Return (label, s') ->
  (messages s' = messages s /\ query s' = query s /\ intent s' = intent s /\
   retrieved_context s' = retrieved_context s /\
   calculation_result s' = calculation_result s /\
   draft_response s' = draft_response s /\
   safety_feedback s' = safety_feedback s /\ is_safe s' = is_safe s) /\
  (exists v, is_safe s = Some v /\
     ((truthy v = true /\ label = "approved" /\ s' = s) \/
      (truthy v = false /\ exists r, retries s = Some r /\
         ((2 <= r /\ label = "max_retries_exceeded" /\ s' = s) \/
          (r < 2 /\ label = "rejected" /\ retries s' = Some (r + 1)))))) /\
  (forall r r', retries s = Some r -> retries s' = Some r' -> r <= 2 -> r' <= 2).
Proof.
  unfold check_safety, bump_retries.
  destruct (is_safe s) as [v|] eqn:Hs; cbn [getitem bind]; [|discriminate].
  destruct (truthy v) eqn:Hv.
  - intros H. apply Return_inj in H. inversion H; subst.
    split; [repeat split; try assumption|]. split.
    + exists v. split; [first [assumption | reflexivity]|]. left.
      repeat split; first [assumption | reflexivity].
    + intros r r' H1 H2 Hb. assert (r = r') by congruence. lia.
  - destruct (retries s) as [r|] eqn:Hr; cbn [getitem bind]; [|discriminate].
    destruct (2 <=? r) eqn:Hle; intros H; apply Return_inj in H; inversion H; subst.
    + apply Z.leb_le in Hle. split; [repeat split; try assumption|]. split.
      * exists v. split; [first [assumption | reflexivity]|]. right.
        split; [first [assumption | reflexivity]|]. exists r.
        split; [first [assumption | reflexivity]|]. left. auto.
      * intros r0 r' H1 H2 Hb. assert (r0 = r') by congruence. lia.
    + apply Z.leb_gt in Hle.
      assert (Hw : retries (write s (Set_retries (r + 1))) = Some (r + 1))
        by (destruct s; reflexivity).
      split; [destruct s; repeat split; try assumption|]. split.
      * exists v. split; [first [assumption | reflexivity]|]. right.
        split; [first [assumption | reflexivity]|]. exists r.
        split; [first [assumption | reflexivity]|]. right. auto.
      * intros r0 r' H1 H2 Hb. assert (r' = r + 1) by congruence. lia.
Qed.

(** A rejection at counter 1, and a non-empty string that passes for safe. *)
Lemma check_safety_counter_witness :
  let s := write (write (initial_state Stub.plain_query) (Set_is_safe (VBool false)))
                 (Set_retries 1) in
  (exists s', check_safety s = Return ("rejected", s') /\ retries s' = Some 2 /\
              draft_response s' = draft_response s) /\
  check_safety (write (initial_state Stub.plain_query) (Set_is_safe (VStr "False")))
    = Return ("approved",
              write (initial_state Stub.plain_query) (Set_is_safe (VStr "False"))).
Proof.
  intros s. split; [|reflexivity].
  destruct (check_safety s) as [[l s']|e] eqn:H; [|discriminate H].
  assert (Hl : l = "rejected") by (vm_compute in H; inversion H; reflexivity).
  subst l. exists s'. split; [reflexivity|].
  destruct (check_safety_counter s s' "rejected" H) as (Hframe & Hcase & _).
  split; [|apply Hframe].
  destruct Hcase as (v & Hv & [(_ & Hl & _)|(_ & r & Hr & [(_ & Hl & _)|(_ & _ & Hs')])]);
    try discriminate Hl.
  rewrite Hs'. inversion Hr. reflexivity.
Defined.

(* ------------------------------------------------------------------ *)
(** ** app/agents/orchestrator.py: the routing heuristic *)

(** Nothing but 3 is the same as 3 in another case. *)
Lemma same_letter_three (b : ascii) : same_letter b "3" -> b = "3"%char.
Proof.
  intros [->|[H|H]]; [reflexivity | |]; exfalso; compute in H;
    repeat (destruct H as [H|H]; [discriminate H|]); exact H.
Qed.

(** X8. The unit m3 carries its own digit: a query that mentions m3, in
    either case, is classified as a calculation even when it contains no
    other number, and whatever else it mentions. *)
Theorem m3_alone_is_calculation (q : string) :
  mentions "m3" q -> classify_intent q = "calculation".
Proof.
  intros H. apply calculation_rule_classified. split; [|right; exact H].
  destruct H as (pre & m & post & -> & Hm).
  inversion Hm as [|a b s t Ha Hs]; subst.
  inversion Hs as [|a' b' s' t' Hb Ht]; subst.
  inversion Ht; subst.
  apply same_letter_three in Hb. subst a'.
  exists (pre ++ String a "")%string, "3"%char, post. split.
  - rewrite string_app_assoc. reflexivity.
  - cbn. tauto.
Qed.

Lemma m3_alone_is_calculation_witness :
  mentions "m3" "What does M3 stand for in the safety manual?" /\
  classify_intent "What does M3 stand for in the safety manual?" = "calculation".
Proof.
  assert (H : mentions "m3" "What does M3 stand for in the safety manual?")
    by (apply (mentions_spec "m3" _ eq_refl); vm_compute; reflexivity).
  split; [exact H | apply m3_alone_is_calculation, H].
Defined.

(** X9. The classification ignores letter case: two queries that differ
    only in the case of their letters get the same intent. *)
Theorem classify_intent_ignores_case (a b : string) :
  lower a = lower b -> classify_intent a = classify_intent b.
Proof.
  intros H. unfold classify_intent.
  rewrite <- (any_isdigit_lower a), <- (any_isdigit_lower b).
  now rewrite H.
Qed.

Lemma classify_intent_ignores_case_witness :
  lower "Check The SAFETY Manual" = lower "check the safety manual" /\
  classify_intent "Check The SAFETY Manual" = classify_intent "check the safety manual".
Proof.
  assert (H : lower "Check The SAFETY Manual" = lower "check the safety manual")
    by (vm_compute; reflexivity).
  split; [exact H|].
  apply classify_intent_ignores_case, H.
Defined.

(** X10. Text around a query never lowers its class: a calculation query
    stays a calculation inside any longer query, and a retrieval query never
    becomes hybrid. *)
Theorem classify_intent_embedding (pre q post : string) :
  (classify_intent q = "calculation" ->
   classify_intent (pre ++ q ++ post) = "calculation") /\
  (classify_intent q = "retrieval" ->
   classify_intent (pre ++ q ++ post) <> "hybrid").
Proof.
  unfold classify_intent.
  pose proof (any_isdigit_embed pre q post) as Ed.
  pose proof (contains_lower_embed "psi" pre q post eq_refl
                ltac:(discriminate)) as Ep.
  pose proof (contains_lower_embed "m3" pre q post eq_refl
                ltac:(discriminate)) as Em.
  pose proof (contains_lower_embed "safety" pre q post eq_refl
                ltac:(discriminate)) as Es.
  pose proof (contains_lower_embed "manual" pre q post eq_refl
                ltac:(discriminate)) as En.
  destruct (any_isdigit q);
  destruct (contains "psi" (lower q));
  destruct (contains "m3" (lower q));
  destruct (contains "safety" (lower q));
  destruct (contains "manual" (lower q));
  cbn [andb orb];
  try rewrite (Ed eq_refl); try rewrite (Ep eq_refl); try rewrite (Em eq_refl);
  try rewrite (Es eq_refl); try rewrite (En eq_refl);
  rewrite ?orb_true_r; cbn [andb orb];
  (split; [try discriminate; reflexivity|]); try discriminate;
  intros _;
  repeat match goal with
         | |- context [if ?c then _ else _] => destruct c
         end; discriminate.
Qed.

Lemma classify_intent_embedding_witness :
  classify_intent "200 psi" = "calculation" /\
  classify_intent ("Per the manual, is " ++ "200 psi" ++ " safe?") = "calculation".
Proof.
  assert (H : classify_intent "200 psi" = "calculation") by (vm_compute; reflexivity).
  split; [exact H|].
  apply (proj1 (classify_intent_embedding "Per the manual, is " "200 psi" " safe?")), H.
Defined.

(* ------------------------------------------------------------------ *)
(** ** The knowledge store, on test doubles *)

Lemma get_retriever_singleton_witness :
  (exists w1,
     get_retriever (Stub.env "low-risk report") Stub.fresh = (Return Stub.manual, w1) /\
     _retriever_instance w1 = Some Stub.manual /\
     get_retriever (Stub.env "low-risk report") w1 = (Return Stub.manual, w1)) /\
  (exists w1,
     get_retriever Stub.env_store_down Stub.fresh = (Raise Stub.store_error, w1) /\
     _retriever_instance w1 = None) /\
  get_retriever Stub.env_store_down Stub.with_failing_store
    = (Return Stub.failing_store, Stub.with_failing_store).
Proof.
  split; [|split].
  - exact (proj2 (get_retriever_singleton (Stub.env "low-risk report") Stub.fresh) eq_refl).
  - exact (proj2 (get_retriever_singleton Stub.env_store_down Stub.fresh) eq_refl).
  - exact (proj1 (get_retriever_singleton Stub.env_store_down Stub.with_failing_store)
             Stub.failing_store eq_refl).
Defined.

Lemma node_retriever_raises_iff_witness :
  (exists w',
     node_retriever Stub.env_store_down (initial_state Stub.manual_query) Stub.fresh
       = (Raise Stub.store_error, w')) /\
  fst (node_retriever Stub.env_store_down (initial_state Stub.manual_query)
         Stub.with_failing_store)
    = Return [Set_retrieved_context "Error retrieving data: chroma is unreachable"].
Proof.
  split; [|reflexivity].
  apply (proj2 (node_retriever_raises_iff Stub.env_store_down
                  (initial_state Stub.manual_query) Stub.fresh Stub.store_error)).
  split; reflexivity.
Defined.

(* ------------------------------------------------------------------ *)
(** ** app/agents/orchestrator.py: the calculation branch *)

(** What every node appends, every run appends. *)
Lemma run_from_emits (P : Event -> Prop) (nodes : Node -> AgentState -> M Update) :
  (forall n s, emits P (nodes n s)) ->
  forall limit n s, emits P (run_from nodes limit n s).
Proof.
  intros Hn limit. induction limit as [|limit IH]; intros n s; cbn [run_from].
  - apply emits_raise.
  - apply emits_bind.
    + unfold step. apply emits_bind; [apply Hn | intros u; apply emits_lift].
    + intros [t s1]. destruct t; [apply IH | apply emits_ret].
Qed.

Section CalculationBranch.
Variable env : Collaborators.








End CalculationBranch.




(* ------------------------------------------------------------------ *)
(** ** A failing knowledge store *)



(* ------------------------------------------------------------------ *)
(** ** main.py: the endpoint *)

Section Endpoint.
Variable env : Collaborators.

(** No node writes an audit record: the only one of the graph, the critic's
    "safety_check" record, comes after the unpacking that raises. *)
Lemma node_no_audit (n : Node) (s : AgentState) :
  emits (fun ev => is_audit ev = false) (run_node env n s).
Proof.
  destruct n; cbn [run_node].
  - unfold node_planner, ChatOpenAI, stream_logger_log. emits_steps; reflexivity.
  - unfold node_retriever, rag_retriever, get_retriever, retrieve, stream_logger_log.
    emits_steps; reflexivity.
  - unfold node_simulator, stream_logger_log. emits_steps; reflexivity.
  - unfold node_synthesizer, ChatOpenAI, stream_logger_log. emits_steps; reflexivity.
  - intros w. rewrite node_critic_eq.
    destruct (draft_response s) as [draft|].
    + cbv zeta. destruct (Guard_from_rail env _); cbn [snd history];
        rewrite <- !app_assoc; eexists; (split; [reflexivity|]);
        repeat constructor.
    + exists []. cbn [snd]. rewrite app_nil_r. split; [reflexivity|constructor].
Qed.

Lemma run_orchestrator_no_audit (q : string) (w : World) :
  audits (history (snd (run_orchestrator env q w))) = audits (history w).
Proof.
  apply (emits_count is_audit). unfold run_orchestrator, app_graph_invoke.
  apply emits_bind; [apply run_from_emits, node_no_audit|].
  intros final_state. emits_steps.
Qed.

End Endpoint.

(** X13. Every request to [process_query] is answered with HTTP 500 and the
    fixed detail "Internal Agent Error".  The exception that ended the run
    is printed after "Critical Error: " and appears nowhere in the answer;
    that line is the only thing the endpoint adds to what the run did.  No
    audit identifier is drawn and no audit record written, by the endpoint
    or by any node. *)
Theorem process_query_always_500
        (env : Collaborators) (request : Main.QueryRequest) (w : World) :
  exists e w1,
    run_orchestrator env (Main.query request) w = (Raise e, w1) /\
    Main.process_query env request w
    = (Raise (Main.HTTPException_500 "Internal Agent Error"),
       {| history := (history w1 ++ [Print ("Critical Error: " ++ exc_str e)])%list;
          _retriever_instance := _retriever_instance w1 |}) /\
    audits (history (snd (Main.process_query env request w))) = audits (history w).
Proof.
  destruct (run_from_raises env recursion_limit planner
              (initial_state (Main.query request)) w) as (e & w1 & Hg).
  pose proof (run_orchestrator_raises env _ _ _ _ Hg) as Hr.
  pose proof (run_orchestrator_no_audit env (Main.query request) w) as Ha.
  rewrite Hr in Ha. cbn [snd] in Ha.
  assert (Hp : Main.process_query env request w
    = (Raise (Main.HTTPException_500 "Internal Agent Error"),
       {| history := (history w1 ++ [Print ("Critical Error: " ++ exc_str e)])%list;
          _retriever_instance := _retriever_instance w1 |})).
  { unfold Main.process_query, try_except, mbind at 1. rewrite Hr. reflexivity. }
  exists e, w1. split; [exact Hr|]. split; [exact Hp|].
  rewrite Hp. cbn [snd history]. unfold audits in *.
  rewrite filter_app, length_app. cbn. lia.
Qed.

(* ------------------------------------------------------------------ *)
(** ** app/agents/orchestrator.py: the retry counter never advances *)



(** So a critic that rejects every draft is asked again and again, until the
    graph runtime gives up. *)
Example rejecting_run_hits_recursion_limit :
  fst (run_from (Stub.nodes_rejecting (Stub.env "low-risk report")) recursion_limit
                planner (initial_state Stub.manual_query) Stub.fresh)
  = Raise GraphRecursionError.
Proof. vm_compute. reflexivity. Qed.

(* ------------------------------------------------------------------ *)
(** ** app/agents/orchestrator.py: how the critic fails *)

(** X15. The validation node fails in one of three ways, and in none of
    them writes its "safety_check" audit record.  Without a draft it raises
    KeyError before it does anything.  When the RAIL file cannot be loaded it
    raises RuntimeError "Failed to load RAIL file: " followed by the loader's
    text (the loader's exception class is lost), and no draft has been handed
    to the validator. *)
Theorem node_critic_failure_modes (env : Collaborators) (s : AgentState) (w : World) :
  (draft_response s = None ->
   node_critic env s w = (Raise (KeyError "draft_response"), w)) /\
  (forall d e,
     draft_response s = Some d ->
     Guard_from_rail env
       (history w ++ [StreamLog "[Critic] Validating safety constraints..."])%list
       = Raise e ->
     fst (node_critic env s w)
       = Raise (Exn "RuntimeError" ("Failed to load RAIL file: " ++ exc_str e)) /\
     validation_passes (history (snd (node_critic env s w)))
       = validation_passes (history w)) /\
  audits (history (snd (node_critic env s w))) = audits (history w).
Proof.
  split; [|split].
  - intros Hd. now rewrite node_critic_eq, Hd.
  - intros d e Hd Hg. rewrite node_critic_eq, Hd. cbv zeta. rewrite Hg.
    split; [reflexivity|]. cbn [snd history]. unfold validation_passes.
    rewrite !filter_app, !length_app. cbn. lia.
  - apply (emits_count is_audit (node_critic env s) w).
    exact (node_no_audit env critic s).
Qed.

Lemma node_critic_failure_modes_witness :
  node_critic Stub.env_rail_missing (initial_state Stub.manual_query) Stub.fresh
    = (Raise (KeyError "draft_response"), Stub.fresh) /\
  fst (node_critic Stub.env_rail_missing
         (write (initial_state Stub.manual_query) (Set_draft_response "low-risk report"))
         Stub.fresh)
    = Raise (Exn "RuntimeError" "Failed to load RAIL file: No such file: safety.rail").
Proof.
  split.
  - apply (proj1 (node_critic_failure_modes Stub.env_rail_missing
                    (initial_state Stub.manual_query) Stub.fresh)).
    reflexivity.
  - apply (proj1 (proj2 (node_critic_failure_modes Stub.env_rail_missing
                    (write (initial_state Stub.manual_query)
                           (Set_draft_response "low-risk report"))
                    Stub.fresh)) "low-risk report" Stub.rail_error);
      reflexivity.
Defined.

(* ------------------------------------------------------------------ *)
(** ** app/infrastructure/logging/batch.py *)

Lemma dict_get_absent (d : dict) (k : string) :
  ~ In k (map fst d) -> dict_get d k = None.
Proof.
  induction d as [|[k' v'] d IH]; cbn [dict_get map fst In]; [reflexivity|].
  intros H. destruct (String.eqb k k') eqn:E.
  - apply String.eqb_eq in E. subst. exfalso. apply H. now left.
  - apply IH. intros Hin. apply H. now right.
Qed.

Lemma dict_set_absent (d : dict) (k : string) (v : value) :
  ~ In k (map fst d) -> dict_set d k v = (d ++ [(k, v)])%list.
Proof.
  induction d as [|[k' v'] d IH]; cbn [dict_set map fst In app]; [reflexivity|].
  intros H. destruct (String.eqb k k') eqn:E.
  - apply String.eqb_eq in E. subst. exfalso. apply H. now left.
  - rewrite IH; [reflexivity|]. intros Hin. apply H. now right.
Qed.

Lemma others_keys (t k : string) (d : dict) :
  In k (map fst (others t d)) -> In k (map fst d) /\ k <> t.
Proof.
  unfold others. rewrite !in_map_iff. intros ([k' v] & <- & Hin).
  apply filter_In in Hin as (Hin & Hne). cbn [fst] in *. split.
  - exists (k', v). auto.
  - intros ->. rewrite String.eqb_refl in Hne. discriminate.
Qed.

Lemma others_is_dict (t : string) (d : dict) : is_dict d -> is_dict (others t d).
Proof.
  unfold is_dict. induction d as [|[k v] d IH]; cbn; [constructor|].
  intros H. inversion H as [|? ? Hk Hd]; subst.
  destruct (String.eqb k t); cbn; [apply IH, Hd|].
  constructor; [|apply IH, Hd].
  intros Hin. apply others_keys in Hin as (Hin & _). contradiction.
Qed.

Lemma dict_get_others (t k : string) (d : dict) :
  k <> t -> dict_get (others t d) k = dict_get d k.
Proof.
  intros Hne. induction d as [|[k' v] d IH]; cbn; [reflexivity|].
  destruct (String.eqb k' t) eqn:E; cbn.
  - apply String.eqb_eq in E. subst k'.
    apply String.eqb_neq in Hne. now rewrite Hne.
  - destruct (String.eqb k k'); [reflexivity | exact IH].
Qed.

(** Updating a dictionary whose first key is [t] and whose other keys are
    not keys of [data]. *)
Lemma dict_update_head (t : string) (data rest : dict) (v : value) :
  is_dict data ->
  ~ In t (map fst rest) ->
  (forall k, In k (map fst rest) -> ~ In k (map fst data)) ->
  dict_update ((t, v) :: rest) data
  = ((t, get_or (dict_get data t) v) :: rest ++ others t data)%list.
Proof.
  unfold is_dict, dict_update. revert rest v.
  induction data as [|[k x] data IH]; intros rest v Hd Ht Hdis.
  - cbn. now rewrite app_nil_r.
  - inversion Hd as [|? ? Hk Hd']; subst.
    cbn [fold_left fst snd dict_set dict_get others filter map] in *.
    destruct (String.eqb k t) eqn:E.
    + apply String.eqb_eq in E. subst k. rewrite String.eqb_refl. cbn [get_or negb].
      rewrite IH; [|exact Hd'|exact Ht|].
      * now rewrite (dict_get_absent data t Hk).
      * intros k Hin Hin'. apply (Hdis k Hin). now right.
    + assert (E' : String.eqb t k = false)
        by (rewrite String.eqb_sym; exact E).
      rewrite E'. cbn [negb].
      rewrite dict_set_absent by (intros Hin; apply (Hdis k Hin); now left).
      rewrite IH; [|exact Hd'| |].
      * now rewrite <- app_assoc.
      * rewrite map_app, in_app_iff. cbn. intros [Hin|[->|[]]]; [contradiction|].
        rewrite String.eqb_refl in E. discriminate.
      * intros k' Hin Hin'. rewrite map_app, in_app_iff in Hin. cbn in Hin.
        destruct Hin as [Hin|[<-|[]]]; [|contradiction].
        apply (Hdis k' Hin). now right.
Qed.

(** X16. The entry [BatchLogger.log] prints begins with the timestamp,
    followed by the caller's other fields in the caller's order; every field
    of the caller is in the entry with the caller's value.  So a caller's
    own "timestamp" replaces the logger's clock reading, and only without
    one is the entry stamped by the logger. *)
Theorem BatchLogger_entry_fields (now : string) (data : dict) :
  is_dict data ->
  BatchLogger_entry now data
    = ("timestamp", get_or (dict_get data "timestamp") (VStr now))
      :: others "timestamp" data /\
  (forall k v, dict_get data k = Some v ->
               dict_get (BatchLogger_entry now data) k = Some v) /\
  (~ In "timestamp" (map fst data) ->
   BatchLogger_entry now data = ("timestamp", VStr now) :: data) /\
  is_dict (BatchLogger_entry now data).
Proof.
  intros Hd.
  assert (Hshape : BatchLogger_entry now data
    = ("timestamp", get_or (dict_get data "timestamp") (VStr now))
      :: others "timestamp" data).
  { unfold BatchLogger_entry.
    rewrite (dict_update_head "timestamp" data [] (VStr now) Hd);
      [reflexivity | intros [] | intros k []]. }
  split; [exact Hshape|]. rewrite Hshape. split; [|split].
  - intros k v Hk. cbn [dict_get].
    destruct (String.eqb k "timestamp") eqn:E.
    + apply String.eqb_eq in E. subst k. now rewrite Hk.
    + apply String.eqb_neq in E. now rewrite dict_get_others.
  - intros Hno. rewrite (dict_get_absent data _ Hno). cbn [get_or].
    f_equal. unfold others. clear Hd Hshape.
    induction data as [|[k v] data IH]; cbn; [reflexivity|].
    destruct (String.eqb k "timestamp") eqn:E.
    + apply String.eqb_eq in E. subst k. exfalso. apply Hno. now left.
    + cbn. f_equal. apply IH. intros Hin. apply Hno. now right.
  - unfold is_dict. cbn [map fst]. constructor.
    + intros Hin. apply others_keys in Hin as (_ & Hne). now apply Hne.
    + apply others_is_dict, Hd.
Qed.

Lemma BatchLogger_entry_fields_witness :
  BatchLogger_entry "2024-05-01T12:00:00"
    [("event", VStr "safety_check"); ("timestamp", VStr "1970-01-01T00:00:00")]
  = [("timestamp", VStr "1970-01-01T00:00:00"); ("event", VStr "safety_check")].
Proof.
  refine (proj1 (BatchLogger_entry_fields "2024-05-01T12:00:00"
            [("event", VStr "safety_check"); ("timestamp", VStr "1970-01-01T00:00:00")]
            _)).
  unfold is_dict. cbn. repeat constructor; cbn; intuition discriminate.
Defined.

(* ------------------------------------------------------------------ *)
(** ** app/agents/orchestrator.py: what a run costs *)

Section Calls.
Variable env : Collaborators.

Lemma step_history (nodes : Node -> AgentState -> M Update)
      (n : Node) (s : AgentState) (w : World) :
  history (snd (step nodes n s w)) = history (snd (nodes n s w)).
Proof.
  unfold step, mbind, lift. destruct (nodes n s w) as [[u|e] w1]; reflexivity.
Qed.

(** Every edge of the compiled graph leads further down the pass. *)
Lemma step_rank (n n1 : Node) (s s1 : AgentState) (w w1 : World) :
  step (run_node env) n s w = (Return (Goto n1, s1), w1) -> (rank n < rank n1)%nat.
Proof.
  intros Hs. destruct n.
  - destruct (planner_step env (run_node env) _ _ _ _ _ eq_refl Hs) as (_ & Ht).
    inversion Ht. unfold branch_of. destruct (String.eqb _ _); cbn; lia.
  - apply step_inv in Hs as (u & _ & Hr). inversion Hr. cbn; lia.
  - apply step_inv in Hs as (u & _ & Hr). inversion Hr. cbn; lia.
  - apply step_inv in Hs as (u & _ & Hr). inversion Hr. cbn; lia.
  - destruct (step_critic_raises env s w) as (e & w' & He). congruence.
Qed.

Section AtOnePlace.
Variable f : Event -> bool.
Variable r0 : nat.
Hypothesis Hother :
  forall n s, rank n <> r0 -> emits (fun ev => f ev = false) (run_node env n s).
Hypothesis Hself :
  forall n s w, rank n = r0 ->
    (length (filter f (history (snd (run_node env n s w))))
     <= S (length (filter f (history w))))%nat.

(** Events that only the nodes of one rank produce, and those at most once,
    occur at most once in a run. *)
Lemma run_once (limit : nat) (n : Node) (s : AgentState) (w : World) :
  (length (filter f (history (snd (run_from (run_node env) limit n s w))))
   <= length (filter f (history w)) + (if Nat.leb (rank n) r0 then 1 else 0))%nat.
Proof.
  revert n s w. induction limit as [|limit IH]; intros n s w; [cbn; lia|].
  cbn [run_from]. unfold mbind at 1.
  pose proof (step_history (run_node env) n s w) as Hh.
  assert (Hstep : (length (filter f (history (snd (step (run_node env) n s w))))
                   <= length (filter f (history w))
                      + (if Nat.eqb (rank n) r0 then 1 else 0))%nat).
  { rewrite Hh. destruct (Nat.eqb (rank n) r0) eqn:E.
    - apply Nat.eqb_eq in E. pose proof (Hself n s w E). lia.
    - apply Nat.eqb_neq in E.
      rewrite (emits_count f (run_node env n s) w (Hother n s E)). lia. }
  clear Hh.
  destruct (step (run_node env) n s w) as [[[t s1]|e] w1] eqn:Hs; cbn [snd] in Hstep.
  - destruct t as [n1|].
    + apply step_rank in Hs. specialize (IH n1 s1 w1).
      destruct (Nat.eqb (rank n) r0) eqn:E;
        [apply Nat.eqb_eq in E | apply Nat.eqb_neq in E];
        destruct (Nat.leb (rank n1) r0) eqn:L1;
        [apply Nat.leb_le in L1 | apply Nat.leb_gt in L1
        |apply Nat.leb_le in L1 | apply Nat.leb_gt in L1];
        destruct (Nat.leb (rank n) r0) eqn:L;
        [apply Nat.leb_le in L | apply Nat.leb_gt in L
        |apply Nat.leb_le in L | apply Nat.leb_gt in L
        |apply Nat.leb_le in L | apply Nat.leb_gt in L
        |apply Nat.leb_le in L | apply Nat.leb_gt in L]; lia.
    + cbn [ret snd].
      destruct (Nat.eqb (rank n) r0) eqn:E;
        [apply Nat.eqb_eq in E | apply Nat.eqb_neq in E];
        destruct (Nat.leb (rank n) r0) eqn:L;
        [apply Nat.leb_le in L | apply Nat.leb_gt in L
        |apply Nat.leb_le in L | apply Nat.leb_gt in L]; lia.
  - cbn [snd].
    destruct (Nat.eqb (rank n) r0) eqn:E;
      [apply Nat.eqb_eq in E | apply Nat.eqb_neq in E];
      destruct (Nat.leb (rank n) r0) eqn:L;
      [apply Nat.leb_le in L | apply Nat.leb_gt in L
      |apply Nat.leb_le in L | apply Nat.leb_gt in L]; lia.
Qed.

End AtOnePlace.

Lemma tool_calls_once (limit : nat) (n : Node) (s : AgentState) (w : World) :
  (tool_calls (history (snd (run_from (run_node env) limit n s w)))
   <= tool_calls (history w) + (if Nat.leb (rank n) 1 then 1 else 0))%nat.
Proof.
  apply run_once.
  - intros n0 s0 Hr. destruct n0; cbn [rank] in Hr; try contradiction; cbn [run_node].
    + unfold node_planner, ChatOpenAI, stream_logger_log. emits_steps; reflexivity.
    + unfold node_synthesizer, ChatOpenAI, stream_logger_log. emits_steps; reflexivity.
    + unfold node_critic, SafetyCritic_init, stream_logger_log, batch_logger_log.
      emits_steps; reflexivity.
  - intros n0 s0 w0 Hr. destruct n0; cbn [rank] in Hr; try discriminate; cbn [run_node].
    + unfold node_retriever, rag_retriever, get_retriever, retrieve. run_monad.
      destruct (_retriever_instance w0) as [i|]; cbn [history _retriever_instance].
      * destruct (retriever_invoke i _ _) as [[|d ds]|e]; cbn [snd history];
          rewrite !filter_app, !length_app; cbn; lia.
      * destruct (new_KnowledgeRetriever env _) as [i|e];
          cbn [history _retriever_instance snd].
        -- destruct (retriever_invoke i _ _) as [[|d ds]|e]; cbn [snd history];
             rewrite !filter_app, !length_app; cbn; lia.
        -- rewrite !filter_app, !length_app; cbn; lia.
    + rewrite node_simulator_eq. cbn [snd history].
      rewrite !filter_app, !length_app. cbn. lia.
Qed.

Lemma llm_calls_once (limit : nat) (n : Node) (s : AgentState) (w : World) :
  (llm_calls (history (snd (run_from (run_node env) limit n s w)))
   <= llm_calls (history w) + (if Nat.leb (rank n) 2 then 1 else 0))%nat.
Proof.
  apply run_once.
  - intros n0 s0 Hr. apply node_no_llm. intros ->. now apply Hr.
  - intros n0 s0 w0 Hr. destruct n0; cbn [rank] in Hr; try discriminate; cbn [run_node].
    unfold node_synthesizer, ChatOpenAI. run_monad. cbn [history _retriever_instance].
    destruct (new_ChatOpenAI env _); cbn [history _retriever_instance snd].
    + destruct (llm_invoke env _ _); cbn [snd history];
        rewrite !filter_app, !length_app; cbn; lia.
    + rewrite !filter_app, !length_app; cbn; lia.
Qed.

Lemma validations_once (limit : nat) (n : Node) (s : AgentState) (w : World) :
  (validation_passes (history (snd (run_from (run_node env) limit n s w)))
   <= validation_passes (history w) + (if Nat.leb (rank n) 3 then 1 else 0))%nat.
Proof.
  apply run_once.
  - intros n0 s0 Hr. apply node_no_parse. intros ->. now apply Hr.
  - intros n0 s0 w0 Hr. destruct n0; cbn [rank] in Hr; try discriminate; cbn [run_node].
    rewrite node_critic_eq. destruct (draft_response s0) as [d|]; [|cbn; lia].
    cbv zeta. destruct (Guard_from_rail env _); cbn [snd history];
      rewrite !filter_app, !length_app; cbn; lia.
Qed.

End Calls.

(** X17. What a request can cost.  Whatever the collaborators do, a run of
    [run_orchestrator] calls the language model at most once, hands at most
    one draft to the validator, and makes at most one tool call: one call of
    the calculation engine or one query to the vector store, never both. *)
Theorem run_calls_each_service_at_most_once
        (env : Collaborators) (q : string) (w : World) :
  let w' := snd (run_orchestrator env q w) in
  (llm_calls (history w') <= S (llm_calls (history w)))%nat /\
  (validation_passes (history w') <= S (validation_passes (history w)))%nat /\
  (tool_calls (history w') <= S (tool_calls (history w)))%nat.
Proof.
  destruct (run_from_raises env recursion_limit planner (initial_state q) w)
    as (e & w1 & Hg).
  pose proof (run_orchestrator_raises env _ _ _ _ Hg) as Hr.
  rewrite Hr. cbn [snd].
  pose proof (llm_calls_once env recursion_limit planner (initial_state q) w) as H1.
  pose proof (validations_once env recursion_limit planner (initial_state q) w) as H2.
  pose proof (tool_calls_once env recursion_limit planner (initial_state q) w) as H3.
  rewrite Hg in H1, H2, H3. cbn [snd rank Nat.leb] in H1, H2, H3.
  repeat split; lia.
Qed.

(* ------------------------------------------------------------------ *)
(** ** app/tools/simulator.py: where the warning starts *)

(** Every whole flow rate from 0 to 5000, evaluated. *)
Lemma threshold_check :
  forallb (fun n => String.eqb (status_of (Z.of_nat n))
                      (if Z.of_nat n <=? 3601 then "NOMINAL" else "HIGH_PRESSURE_WARNING"))
          (seq 0 (Z.to_nat 5001)) = true.
Proof. vm_compute. reflexivity. Qed.

(** X18. For a whole flow rate from 0 to 5000 m3/h [calc_pressure_flow]
    returns, and the warning starts between 3601 and 3602: the status is
    NOMINAL up to 3601 and HIGH_PRESSURE_WARNING from 3602 on.  The rate of
    200 that [node_simulator] always passes is far inside the nominal
    range. *)
Theorem warning_threshold (z : Z) :
  0 <= z <= 5000 ->
  exists r,
    calc_pressure_flow (PyInt z) default_viscosity = Return r /\
    Simulator.status r = if z <=? 3601 then "NOMINAL" else "HIGH_PRESSURE_WARNING".
Proof.
  intros Hz. pose proof threshold_check as H.
  rewrite forallb_forall in H. specialize (H (Z.to_nat z)).
  rewrite Z2Nat.id in H by lia.
  assert (Hin : In (Z.to_nat z) (seq 0 (Z.to_nat 5001))) by (apply in_seq; lia).
  apply H in Hin. apply String.eqb_eq in Hin. unfold status_of in Hin.
  destruct (calc_pressure_flow (PyInt z) default_viscosity) as [r|e].
  - exists r. split; [reflexivity | exact Hin].
  - destruct (z <=? 3601); discriminate Hin.
Qed.

Lemma warning_threshold_witness :
  exists r,
    calc_pressure_flow (PyInt 3602) default_viscosity = Return r /\
    Simulator.status r = "HIGH_PRESSURE_WARNING".
Proof. apply (warning_threshold 3602). lia. Defined.
